(** * The NixOS VM test driver ([nixos/lib/test-driver/test-driver.py])

    A shallow embedding of the driver and the properties its
    specification states about it.

    Conventions of the model.
    - A Python [str] is a Rocq [string]; each [ascii] stands for one
      code point in the range U+0000..U+00FF.  Socket traffic is taken
      to be ASCII, one byte per character, and kept as decoded text, so
      [recv(n).decode()] hands out at most [n] characters of the next
      pending segment.
    - Python [int] is [Z].
    - A [dict] keyed by strings is a [gmap string _]; a dict with a fixed
      set of known keys (the constructor's [args]) is a record of options.
    - Mutable state is threaded explicitly.  A computation maps a state to
      an outcome and the state it leaves behind; the state survives a
      raised exception, as Python's heap does.
    - A call that waits for ever on a silent peer has outcome [Blocks].
    - What the platform answers is part of the host: the VM that a start
      command brings up, what a VDE switch does when it is started, the
      Unicode categories, the texts of the elapsed times.
    - Outside the model: the thread that drains the serial output of a
      VM into the queue of the logger, the capacity of that queue, the
      file system, wall-clock time and the traceback that the
      interpreter prints for an uncaught exception. *)

From Stdlib Require Import ZArith Ascii String List Lia DecimalString.
From stdpp Require Import base option list strings gmap.

Local Open Scope Z_scope.

(** ** Text *)

Module Text.

(** [sep.join(parts)] *)
Fixpoint join (sep : string) (parts : list string) : string :=
  match parts with
  | [] => ""
  | [p] => p
  | p :: rest => p +:+ sep +:+ join sep rest
  end.

(** [s[:n]] *)
Fixpoint take (n : nat) (s : string) : string :=
  match n, s with
  | S n', String c s' => String c (take n' s')
  | _, _ => ""
  end.

(** [s[n:]] *)
Fixpoint drop (n : nat) (s : string) : string :=
  match n, s with
  | S n', String _ s' => drop n' s'
  | _, _ => s
  end.

(** [s.startswith(p)] *)
Fixpoint startswith (s p : string) : bool :=
  match p, s with
  | "", _ => true
  | String a p', String b s' => if decide (a = b) then startswith s' p' else false
  | String _ _, "" => false
  end.

(** [s.endswith(suffix)] *)
Definition endswith (s suffix : string) : bool :=
  bool_decide (drop (String.length s - String.length suffix) s = suffix).

(** [str(n)] for an integer *)
Definition of_int (n : Z) : string := NilZero.string_of_int (Z.to_int n).

Definition digit_value (c : ascii) : Z := Z.of_nat (nat_of_ascii c) - 48.

(** [int(s)] on a run of decimal digits *)
Definition to_int (s : string) : Z :=
  fold_left (fun acc c => 10 * acc + digit_value c) (list_ascii_of_string s) 0.

(** truthiness of a string: [if s:] *)
Definition truthy (s : string) : bool :=
  match s with "" => false | _ => true end.

(** [s.replace(old, new)] for an [old] of one character *)
Fixpoint replace (s : string) (old : ascii) (new : string) : string :=
  match s with
  | "" => ""
  | String c s' =>
      if decide (c = old) then new +:+ replace s' old new
      else String c (replace s' old new)
  end.

End Text.

(** ** Regular expressions

    The fragment of Python's [re] the driver uses, with [re]'s
    backtracking semantics: alternatives are tried in order, repetition
    is greedy and gives characters back one at a time, the first
    successful path decides the groups. *)

Module Re.

Inductive charclass :=
| Dot                       (* [.]  : anything but a newline *)
| Whitespace                (* [\s] *)
| DecimalDigit.             (* [\d] *)

Inductive regex :=
| Lit (s : string)          (* literal text *)
| Star (c : charclass)      (* [c*], greedy *)
| Plus (c : charclass)      (* [c+], greedy *)
| Group (r : regex)         (* [( r )]; the driver's patterns nest no groups *)
| Eol                       (* [$] *)
| Seq (r1 r2 : regex).

Definition code (c : ascii) : nat := nat_of_ascii c.

(** [str.isspace] on U+0000..U+00FF, which is what [\s] tests *)
Definition is_space (c : ascii) : bool :=
  let n := code c in
  ((9 <=? n) && (n <=? 13) || (28 <=? n) && (n <=? 32)
   || (n =? 133) || (n =? 160))%nat.

Definition is_digit (c : ascii) : bool :=
  let n := code c in ((48 <=? n) && (n <=? 57))%nat.

Definition in_class (cl : charclass) (c : ascii) : bool :=
  match cl with
  | Dot => negb (code c =? 10)%nat
  | Whitespace => is_space c
  | DecimalDigit => is_digit c
  end.

(** The number of characters already read and the text still to be
    read. *)
Definition cursor : Type := nat * string.

(** Captured groups, in the order in which they were closed. *)
Definition groups : Type := list string.

Definition cont : Type := cursor -> groups -> option groups.

(** [c*] at the cursor: take the longest run first, then give back. *)
Fixpoint star (cl : charclass) (pos : nat) (s : string) (gs : groups) (k : cont)
  : option groups :=
  match s with
  | String c s' =>
      if in_class cl c then
        match star cl (S pos) s' gs k with
        | Some r => Some r
        | None => k (pos, s) gs
        end
      else k (pos, s) gs
  | "" => k (pos, s) gs
  end.

Fixpoint run (r : regex) (cur : cursor) (gs : groups) (k : cont) : option groups :=
  match r with
  | Lit p =>
      if Text.startswith cur.2 p
      then k ((cur.1 + String.length p)%nat, Text.drop (String.length p) cur.2) gs
      else None
  | Star cl => star cl cur.1 cur.2 gs k
  | Plus cl =>
      match cur.2 with
      | String c s' => if in_class cl c then star cl (S cur.1) s' gs k else None
      | "" => None
      end
  | Group r' =>
      run r' cur gs
        (fun cur' gs' => k cur' (gs' ++ [Text.take (cur'.1 - cur.1) cur.2]))
  | Eol =>
      if bool_decide (cur.2 = "") || bool_decide (cur.2 = String "010" "")
      then k cur gs else None
  | Seq r1 r2 => run r1 cur gs (fun cur' gs' => run r2 cur' gs' k)
  end.

(** [pattern.match(s)]: the match has to start at the first character. *)
Definition match_ (r : regex) (s : string) : option groups :=
  run r (0%nat, s) [] (fun _ gs => Some gs).

(** [re.search(pattern, s)]: the leftmost start that matches. *)
Fixpoint search_from (r : regex) (pos : nat) (s : string) : option groups :=
  match run r (pos, s) [] (fun _ gs => Some gs) with
  | Some gs => Some gs
  | None =>
      match s with
      | String _ s' => search_from r (S pos) s'
      | "" => None
      end
  end.

Definition search (r : regex) (s : string) : option groups := search_from r 0 s.

(** [m[i]] / [m.group(i)] for [i >= 1] *)
Definition group (gs : groups) (i : nat) : string := nth (i - 1) gs "".

End Re.

(** [s.split()]: the words between runs of whitespace, [current] being
    the word read so far. *)
Fixpoint split_from (current s : string) : list string :=
  match s with
  | "" => if Text.truthy current then [current] else []
  | String c s' =>
      if Re.is_space c then
        if Text.truthy current then current :: split_from "" s' else split_from "" s'
      else split_from (current +:+ String c "") s'
  end.

Definition split (s : string) : list string := split_from "" s.

(** [list(dict.fromkeys(keys))]: each key once, where it first occurs. *)
Fixpoint fromkeys_after (seen keys : list string) : list string :=
  match keys with
  | [] => []
  | key :: rest =>
      if bool_decide (key ∈ seen) then fromkeys_after seen rest
      else key :: fromkeys_after (key :: seen) rest
  end.

Definition fromkeys (keys : list string) : list string := fromkeys_after [] keys.

(** ** Exceptions, outcomes and computations *)

(** The exceptions the driver can meet.  [except Exception] catches the
    first kind only; [sys.exit] raises [SystemExit], which like
    [KeyboardInterrupt] derives from [BaseException] alone. *)
Inductive exn :=
| PyException (cls : string) (msg : string)
| SystemExit (code : Z)
| KeyboardInterrupt.

(** [isinstance(e, Exception)] *)
Definition is_Exception (e : exn) : bool :=
  match e with PyException _ _ => true | _ => false end.

(** [str(e)] *)
Definition str_of_exn (e : exn) : string :=
  match e with
  | PyException _ msg => msg
  | SystemExit code => Text.of_int code
  | KeyboardInterrupt => ""
  end.

(** [Exception(msg)] *)
Definition Exception (msg : string) : exn := PyException "Exception" msg.

Inductive outcome (A : Type) :=
| Returns (a : A)
| Raises (e : exn)
| Blocks.
Arguments Returns {A} a.
Arguments Raises {A} e.
Arguments Blocks {A}.

Definition M (S A : Type) : Type := S -> outcome A * S.

Definition ret {S A} (a : A) : M S A := fun s => (Returns a, s).

Definition bind {S A B} (m : M S A) (f : A -> M S B) : M S B :=
  fun s =>
    match m s with
    | (Returns a, s') => f a s'
    | (Raises e, s') => (Raises e, s')
    | (Blocks, s') => (Blocks, s')
    end.

Definition raise {S A} (e : exn) : M S A := fun s => (Raises e, s).
Definition block {S A} : M S A := fun s => (Blocks, s).
Definition get {S} : M S S := fun s => (Returns s, s).
Definition modify {S} (f : S -> S) : M S unit := fun s => (Returns tt, f s).

Declare Scope py_scope.
Delimit Scope py_scope with py.
Notation "x <- m ;; k" := (bind m (fun x => k))
  (at level 100, m at next level, right associativity) : py_scope.
Notation "m ;; k" := (bind m (fun _ => k))
  (at level 100, right associativity) : py_scope.
Local Open Scope py_scope.

(** [try: m  except <class> as e: handler e] *)
Definition try_except {S A} (m : M S A) (catches : exn -> bool) (handler : exn -> M S A)
  : M S A :=
  fun s =>
    match m s with
    | (Raises e, s') => if catches e then handler e s' else (Raises e, s')
    | other => other
    end.

(** [for x in xs: body x] *)
Fixpoint for_each {S A} (xs : list A) (body : A -> M S unit) : M S unit :=
  match xs with
  | [] => ret tt
  | x :: rest => body x ;; for_each rest body
  end.

(** [for x in xs: v = body v x], for a variable [v] that the loop
    updates; the result is its last value. *)
Fixpoint for_each_with {S A V} (xs : list A) (body : V -> A -> M S V) (v : V) : M S V :=
  match xs with
  | [] => ret v
  | x :: rest => v' <- body v x ;; for_each_with rest body v'
  end.

(** ** The host: process-wide state and what the platform answers *)

(** Unicode general categories, [unicodedata.category]'s results. *)
Inductive general_category :=
| Lu | Ll | Lt | Lm | Lo | Mn | Mc | Me | Nd | Nl | No
| Pc | Pd | Ps | Pe | Pi | Pf | Po | Sm | Sc | Sk | So
| Zs | Zl | Zp | Cc | Cf | Cs | Co | Cn.

Definition category_name (c : general_category) : string :=
  match c with
  | Lu => "Lu" | Ll => "Ll" | Lt => "Lt" | Lm => "Lm" | Lo => "Lo"
  | Mn => "Mn" | Mc => "Mc" | Me => "Me" | Nd => "Nd" | Nl => "Nl" | No => "No"
  | Pc => "Pc" | Pd => "Pd" | Ps => "Ps" | Pe => "Pe" | Pi => "Pi" | Pf => "Pf"
  | Po => "Po" | Sm => "Sm" | Sc => "Sc" | Sk => "Sk" | So => "So"
  | Zs => "Zs" | Zl => "Zl" | Zp => "Zp"
  | Cc => "Cc" | Cf => "Cf" | Cs => "Cs" | Co => "Co" | Cn => "Cn"
  end.

(** SAX events sent to the [XMLGenerator] of the log file. *)
Inductive sax :=
| StartDocument
| StartElement (name : string) (attrs : gmap string string)
| Characters (content : string)
| EndElement (name : string)
| EndDocument.

(** A record of the serial queue: [{"msg": ..., "machine": ...}]. *)
Record serial_item := { item_msg : string; item_machine : string }.

Record logger := {
  logfile : string;
  xml : list sax;                     (* events written so far *)
  queue : list serial_item;           (* oldest first *)
  logfile_open : bool;
}.

(** A call of [subprocess.Popen]. *)
Record popen := {
  popen_args : string;
  popen_cwd : string;
  popen_env : gmap string string;
}.

(** What a launched VM script does once it runs: the process id it gets
    and the text QEMU delivers on the monitor and the shell sockets after
    connecting to them. *)
Record guest := {
  guest_pid : Z;
  guest_monitor : list string;
  guest_shell : list string;
}.

Record host := {
  environ : gmap string string;                    (* [os.environ] *)
  tempdir : string;                                (* [tempfile.gettempdir()] *)
  abspath : string -> string;                      (* [os.path.abspath] *)
  launch : string -> option guest;   (* the VM a command starts, if it connects *)
  vde_switch : string -> outcome bool;   (* what a VDE switch does, see [create_vlan] *)
  unicodedata_category : ascii -> general_category; (* [unicodedata.category] *)
  timings : list string;      (* texts of the elapsed times still to be measured *)
  stderr : list string;                            (* lines printed, oldest first *)
  stdout : list string;
  made_dirs : list string;                         (* [os.makedirs] calls *)
  spawned : list popen;                            (* [subprocess.Popen] calls *)
  slept : Z;                                       (* seconds spent in [time.sleep] *)
  killed : list popen;                             (* [Popen.kill] calls *)
  log : logger;                                    (* the global [log] *)
  nr_tests : Z;
  nr_succeeded : Z;
}.

Definition set_environ (v : gmap string string) (h : host) : host :=
  {| environ := v; tempdir := tempdir h; abspath := abspath h;
     launch := launch h; vde_switch := vde_switch h;
     unicodedata_category := unicodedata_category h; timings := timings h;
     stderr := stderr h; stdout := stdout h; made_dirs := made_dirs h;
     spawned := spawned h; slept := slept h; killed := killed h; log := log h;
     nr_tests := nr_tests h; nr_succeeded := nr_succeeded h |}.

Definition set_killed (v : list popen) (h : host) : host :=
  {| environ := environ h; tempdir := tempdir h; abspath := abspath h;
     launch := launch h; vde_switch := vde_switch h;
     unicodedata_category := unicodedata_category h; timings := timings h;
     stderr := stderr h; stdout := stdout h; made_dirs := made_dirs h;
     spawned := spawned h; slept := slept h; killed := v; log := log h;
     nr_tests := nr_tests h; nr_succeeded := nr_succeeded h |}.

Definition set_timings (v : list string) (h : host) : host :=
  {| environ := environ h; tempdir := tempdir h; abspath := abspath h;
     launch := launch h; vde_switch := vde_switch h;
     unicodedata_category := unicodedata_category h; timings := v;
     stderr := stderr h; stdout := stdout h; made_dirs := made_dirs h;
     spawned := spawned h; slept := slept h; killed := killed h; log := log h;
     nr_tests := nr_tests h; nr_succeeded := nr_succeeded h |}.

Definition set_stderr (v : list string) (h : host) : host :=
  {| environ := environ h; tempdir := tempdir h; abspath := abspath h;
     launch := launch h; vde_switch := vde_switch h;
     unicodedata_category := unicodedata_category h; timings := timings h;
     stderr := v; stdout := stdout h; made_dirs := made_dirs h;
     spawned := spawned h; slept := slept h; killed := killed h; log := log h;
     nr_tests := nr_tests h; nr_succeeded := nr_succeeded h |}.

Definition set_stdout (v : list string) (h : host) : host :=
  {| environ := environ h; tempdir := tempdir h; abspath := abspath h;
     launch := launch h; vde_switch := vde_switch h;
     unicodedata_category := unicodedata_category h; timings := timings h;
     stderr := stderr h; stdout := v; made_dirs := made_dirs h;
     spawned := spawned h; slept := slept h; killed := killed h; log := log h;
     nr_tests := nr_tests h; nr_succeeded := nr_succeeded h |}.

Definition set_made_dirs (v : list string) (h : host) : host :=
  {| environ := environ h; tempdir := tempdir h; abspath := abspath h;
     launch := launch h; vde_switch := vde_switch h;
     unicodedata_category := unicodedata_category h; timings := timings h;
     stderr := stderr h; stdout := stdout h; made_dirs := v;
     spawned := spawned h; slept := slept h; killed := killed h; log := log h;
     nr_tests := nr_tests h; nr_succeeded := nr_succeeded h |}.

Definition set_spawned (v : list popen) (h : host) : host :=
  {| environ := environ h; tempdir := tempdir h; abspath := abspath h;
     launch := launch h; vde_switch := vde_switch h;
     unicodedata_category := unicodedata_category h; timings := timings h;
     stderr := stderr h; stdout := stdout h; made_dirs := made_dirs h;
     spawned := v; slept := slept h; killed := killed h; log := log h;
     nr_tests := nr_tests h; nr_succeeded := nr_succeeded h |}.

Definition set_slept (v : Z) (h : host) : host :=
  {| environ := environ h; tempdir := tempdir h; abspath := abspath h;
     launch := launch h; vde_switch := vde_switch h;
     unicodedata_category := unicodedata_category h; timings := timings h;
     stderr := stderr h; stdout := stdout h; made_dirs := made_dirs h;
     spawned := spawned h; slept := v; killed := killed h; log := log h;
     nr_tests := nr_tests h; nr_succeeded := nr_succeeded h |}.

Definition set_log (v : logger) (h : host) : host :=
  {| environ := environ h; tempdir := tempdir h; abspath := abspath h;
     launch := launch h; vde_switch := vde_switch h;
     unicodedata_category := unicodedata_category h; timings := timings h;
     stderr := stderr h; stdout := stdout h; made_dirs := made_dirs h;
     spawned := spawned h; slept := slept h; killed := killed h; log := v;
     nr_tests := nr_tests h; nr_succeeded := nr_succeeded h |}.

Definition set_nr_tests (v : Z) (h : host) : host :=
  {| environ := environ h; tempdir := tempdir h; abspath := abspath h;
     launch := launch h; vde_switch := vde_switch h;
     unicodedata_category := unicodedata_category h; timings := timings h;
     stderr := stderr h; stdout := stdout h; made_dirs := made_dirs h;
     spawned := spawned h; slept := slept h; killed := killed h; log := log h;
     nr_tests := v; nr_succeeded := nr_succeeded h |}.

Definition set_nr_succeeded (v : Z) (h : host) : host :=
  {| environ := environ h; tempdir := tempdir h; abspath := abspath h;
     launch := launch h; vde_switch := vde_switch h;
     unicodedata_category := unicodedata_category h; timings := timings h;
     stderr := stderr h; stdout := stdout h; made_dirs := made_dirs h;
     spawned := spawned h; slept := slept h; killed := killed h; log := log h;
     nr_tests := nr_tests h; nr_succeeded := v |}.

(** States that contain the host: the host itself, a machine with the
    host, the list of machines with the host. *)
Class HasHost (St : Type) := {
  the_host : St -> host;
  with_host : host -> St -> St;
  the_host_with_host : forall h s, the_host (with_host h s) = h;
  with_host_the_host : forall s, with_host (the_host s) s = s;
  with_host_with_host : forall h h' s, with_host h (with_host h' s) = with_host h s;
}.

#[export, refine] Instance host_HasHost : HasHost host :=
  {| the_host h := h; with_host h _ := h |}.
Proof. all: reflexivity. Defined.

#[export, refine] Instance pair_HasHost {X St : Type} `{HasHost St} : HasHost (X * St) :=
  {| the_host s := the_host s.2; with_host h s := (s.1, with_host h s.2) |}.
Proof.
  - intros h s. apply the_host_with_host.
  - intros [x s]. simpl. f_equal. apply with_host_the_host.
  - intros h h' [x s]. simpl. f_equal. apply with_host_with_host.
Defined.

(** Run a computation on the host inside a larger state. *)
Definition on_host {St} `{HasHost St} {A} (m : M host A) : M St A :=
  fun s => let (r, h) := m (the_host s) in (r, with_host h s).

(** [eprint(line)]: [print] to [sys.stderr] *)
Definition eprint (line : string) : M host unit :=
  modify (fun h => set_stderr (stderr h ++ [line]) h).

(** [print(line)] *)
Definition print (line : string) : M host unit :=
  modify (fun h => set_stdout (stdout h ++ [line]) h).

(** [time.sleep(secs)] *)
Definition sleep (secs : Z) : M host unit :=
  modify (fun h => set_slept (slept h + secs) h).

(** The text of ["{:.2f}".format(toc - tic)]: wall-clock time is outside
    the model, the host supplies the measurements. *)
Definition elapsed : M host string :=
  fun h =>
    match timings h with
    | t :: rest => (Returns t, set_timings rest h)
    | [] => (Returns "0.00", h)
    end.

(** ** Key map *)

(** A dict display [{k1: v1, k2: v2, ...}]: a later entry replaces an
    earlier one with the same key. *)
Definition dict_of {V} (items : list (string * V)) : gmap string V :=
  foldl (fun d kv => <[kv.1 := kv.2]> d) ∅ items.

(** [d.get(key, default)] *)
Definition dict_get {V} (d : gmap string V) (key : string) (default : V) : V :=
  match d !! key with Some v => v | None => default end.

(** [d.update(other)]: the entries of [other] win. *)
Definition dict_update {V} (d other : gmap string V) : gmap string V := other ∪ d.

Definition newline : string := String "010" "".
Definition double_quote : string := String "034" "".
Definition backslash : string := String "092" "".

Definition CHAR_TO_KEY_items : list (string * string) :=
  [ ("A", "shift-a"); ("N", "shift-n"); ("-", "0x0C"); ("_", "shift-0x0C");
    ("B", "shift-b"); ("O", "shift-o"); ("=", "0x0D"); ("+", "shift-0x0D");
    ("C", "shift-c"); ("P", "shift-p"); ("[", "0x1A"); ("{", "shift-0x1A");
    ("D", "shift-d"); ("Q", "shift-q"); ("]", "0x1B"); ("}", "shift-0x1B");
    ("E", "shift-e"); ("R", "shift-r"); (";", "0x27"); (":", "shift-0x27");
    ("F", "shift-f"); ("S", "shift-s"); ("'", "0x28"); (double_quote, "shift-0x28");
    ("G", "shift-g"); ("T", "shift-t"); ("`", "0x29"); ("~", "shift-0x29");
    ("H", "shift-h"); ("U", "shift-u"); (backslash, "0x2B"); ("|", "shift-0x2B");
    ("I", "shift-i"); ("V", "shift-v"); (",", "0x33"); ("<", "shift-0x33");
    ("J", "shift-j"); ("W", "shift-w"); (".", "0x34"); (">", "shift-0x34");
    ("K", "shift-k"); ("X", "shift-x"); ("/", "0x35"); ("?", "shift-0x35");
    ("L", "shift-l"); ("Y", "shift-y"); (" ", "spc");
    ("M", "shift-m"); ("Z", "shift-z"); (newline, "ret");
    ("!", "shift-0x02"); ("@", "shift-0x03"); ("#", "shift-0x04");
    ("$", "shift-0x05"); ("%", "shift-0x06"); ("^", "shift-0x07");
    ("&", "shift-0x08"); ("*", "shift-0x09"); ("(", "shift-0x0A");
    (")", "shift-0x0B") ].

Definition CHAR_TO_KEY : gmap string string := dict_of CHAR_TO_KEY_items.

(** ** Retry *)

(** [for _ in range(n): if fn(False): return; time.sleep(1)].  The result
    says whether the loop left through the [return]. *)
Fixpoint retry_attempts {St} `{HasHost St} (n : nat) (fn : bool -> M St bool) : M St bool :=
  match n with
  | O => ret false
  | S n' =>
      ok <- fn false ;;
      if ok then ret true
      else (on_host (sleep 1) ;; retry_attempts n' fn)
  end.

Definition retry {St} `{HasHost St} (fn : bool -> M St bool) : M St unit :=
  returned <- retry_attempts 900 fn ;;
  if returned then ret tt
  else
    (ok <- fn true ;;
     if negb ok then raise (Exception "action timed out") else ret tt).

(** ** Logger *)

Module Logger.

Definition modify_log (f : logger -> logger) : M host unit :=
  modify (fun h => set_log (f (log h)) h).

Definition emit (e : sax) : M host unit :=
  modify_log (fun l =>
    {| logfile := logfile l; xml := xml l ++ [e]; queue := queue l;
       logfile_open := logfile_open l |}).

(** [Logger()] *)
Definition init : M host unit :=
  h <- get ;;
  modify (set_log {| logfile := dict_get (environ h) "LOGFILE" "/dev/null";
                     xml := []; queue := []; logfile_open := true |}) ;;
  emit StartDocument ;;
  emit (StartElement "logfile" ∅).

Definition close : M host unit :=
  emit (EndElement "logfile") ;;
  emit EndDocument ;;
  modify_log (fun l =>
    {| logfile := logfile l; xml := xml l; queue := queue l; logfile_open := false |}).

(** [s[0]] *)
Definition first_char (s : string) : option ascii :=
  match s with String c _ => Some c | "" => None end.

(** ["".join(ch for ch in message if unicodedata.category(ch)[0] != "C")] *)
Fixpoint sanitise (category : ascii -> general_category) (message : string) : string :=
  match message with
  | "" => ""
  | String ch rest =>
      if bool_decide (first_char (category_name (category ch)) ≠ Some "C"%char)
      then String ch (sanitise category rest)
      else sanitise category rest
  end.

Definition maybe_prefix (message : string) (attributes : gmap string string) : string :=
  match attributes !! "machine" with
  | Some machine => machine +:+ ": " +:+ message
  | None => message
  end.

Definition log_line (message : string) (attributes : gmap string string) : M host unit :=
  emit (StartElement "line" attributes) ;;
  emit (Characters message) ;;
  emit (EndElement "line").

Definition enqueue (message : serial_item) : M host unit :=
  modify_log (fun l =>
    {| logfile := logfile l; xml := xml l; queue := queue l ++ [message];
       logfile_open := logfile_open l |}).

(** [queue.get_nowait()]: [None] stands for the [Empty] exception. *)
Definition get_nowait : M host (option serial_item) :=
  fun h =>
    match queue (log h) with
    | [] => (Returns None, h)
    | item :: rest =>
        (Returns (Some item),
         set_log {| logfile := logfile (log h); xml := xml (log h); queue := rest;
                    logfile_open := logfile_open (log h) |} h)
    end.

(** One turn of the loop for each record that waits. *)
Fixpoint drain_turns (n : nat) : M host unit :=
  match n with
  | O => ret tt
  | S n' =>
      got <- get_nowait ;;
      match got with
      | None => ret tt
      | Some item =>
          h <- get ;;
          log_line (sanitise (unicodedata_category h) (item_msg item))
            (dict_of [("machine", item_machine item); ("type", "serial")]) ;;
          drain_turns n'
      end
  end.

Definition drain_log_queue : M host unit :=
  h <- get ;;
  drain_turns (S (length (queue (log h)))).

Definition log (message : string) (attributes : gmap string string) : M host unit :=
  eprint (maybe_prefix message attributes) ;;
  drain_log_queue ;;
  log_line message attributes.

(** [with self.nested(message, attributes): body].  An exception that
    leaves the body is thrown into the generator at its [yield], where
    nothing catches it: the statements after the [yield] are skipped. *)
Definition nested {St} `{HasHost St} {A}
    (message : string) (attributes : gmap string string) (body : M St A) : M St A :=
  on_host
    (eprint (maybe_prefix message attributes) ;;
     emit (StartElement "nest" ∅) ;;
     emit (StartElement "head" attributes) ;;
     emit (Characters message) ;;
     emit (EndElement "head") ;;
     drain_log_queue) ;;
  a <- body ;;
  on_host
    (drain_log_queue ;;
     seconds <- elapsed ;;
     log ("(" +:+ seconds +:+ " seconds)") ∅ ;;
     emit (EndElement "nest")) ;;
  ret a.

End Logger.

(** ** Machine *)

Module Machine.

(** One end of a connected stream socket: the segments the peer
    delivers, in order, and the messages sent to it. *)
Record channel := {
  incoming : list string;
  sent : list string;
}.

(** [sock.recv(n).decode()] for ASCII traffic, where a character is a
    byte and decoding cannot fail: at most [n] characters of the first
    pending segment; [None] when the peer stays silent. *)
Definition recv (n : nat) (ch : channel) : option (string * channel) :=
  match incoming ch with
  | [] => None
  | segment :: rest =>
      if (String.length segment <=? n)%nat
      then Some (segment, {| incoming := rest; sent := sent ch |})
      else Some (Text.take n segment,
                 {| incoming := Text.drop n segment :: rest; sent := sent ch |})
  end.

(** [sock.send(message.encode())] *)
Definition send (message : string) (ch : channel) : channel :=
  {| incoming := incoming ch; sent := sent ch ++ [message] |}.

(** A bound on the number of [recv] calls that can still return. *)
Definition pending (ch : channel) : nat :=
  foldr (fun segment n => (S (String.length segment) + n)%nat) 0%nat (incoming ch).

(** The constructor's [args]. *)
Record Args := {
  arg_name : option string;
  arg_startCommand : option string;
  arg_netBackendArgs : option string;
  arg_netFrontendArgs : option string;
  arg_hda : option string;
  arg_hdaInterface : option string;
  arg_cdrom : option string;
  arg_usb : option string;
  arg_bios : option string;
  arg_qemuFlags : option string;
  arg_log : bool;                     (* is the logger under ["log"]? *)
  arg_allowReboot : option bool;
  arg_redirectSerial : option bool;
}.

Record t := {
  name : string;
  script : string;
  state_dir : string;
  shared_dir : string;
  booted : bool;
  connected : bool;
  pid : option Z;
  monitor : option channel;   (* [None] until [start] accepts the connection *)
  shell : option channel;   (* absent until [start] accepts the connection *)
  allow_reboot : bool;
  monitor_socket : option string;   (* path of the listening socket *)
  shell_socket : option string;
  process : option popen;   (* the [Popen] object *)
}.

Definition set_booted (v : bool) (m : t) : t :=
  {| name := name m; script := script m; state_dir := state_dir m;
     shared_dir := shared_dir m; booted := v; connected := connected m; pid := pid m;
     monitor := monitor m; shell := shell m; allow_reboot := allow_reboot m;
     monitor_socket := monitor_socket m; shell_socket := shell_socket m;
     process := process m |}.

Definition set_connected (v : bool) (m : t) : t :=
  {| name := name m; script := script m; state_dir := state_dir m;
     shared_dir := shared_dir m; booted := booted m; connected := v; pid := pid m;
     monitor := monitor m; shell := shell m; allow_reboot := allow_reboot m;
     monitor_socket := monitor_socket m; shell_socket := shell_socket m;
     process := process m |}.

Definition set_pid (v : option Z) (m : t) : t :=
  {| name := name m; script := script m; state_dir := state_dir m;
     shared_dir := shared_dir m; booted := booted m; connected := connected m;
     pid := v; monitor := monitor m; shell := shell m;
     allow_reboot := allow_reboot m; monitor_socket := monitor_socket m;
     shell_socket := shell_socket m; process := process m |}.

Definition set_monitor (v : option channel) (m : t) : t :=
  {| name := name m; script := script m; state_dir := state_dir m;
     shared_dir := shared_dir m; booted := booted m; connected := connected m;
     pid := pid m; monitor := v; shell := shell m; allow_reboot := allow_reboot m;
     monitor_socket := monitor_socket m; shell_socket := shell_socket m;
     process := process m |}.

Definition set_shell (v : option channel) (m : t) : t :=
  {| name := name m; script := script m; state_dir := state_dir m;
     shared_dir := shared_dir m; booted := booted m; connected := connected m;
     pid := pid m; monitor := monitor m; shell := v; allow_reboot := allow_reboot m;
     monitor_socket := monitor_socket m; shell_socket := shell_socket m;
     process := process m |}.

Definition set_monitor_socket (v : option string) (m : t) : t :=
  {| name := name m; script := script m; state_dir := state_dir m;
     shared_dir := shared_dir m; booted := booted m; connected := connected m;
     pid := pid m; monitor := monitor m; shell := shell m;
     allow_reboot := allow_reboot m; monitor_socket := v;
     shell_socket := shell_socket m; process := process m |}.

Definition set_shell_socket (v : option string) (m : t) : t :=
  {| name := name m; script := script m; state_dir := state_dir m;
     shared_dir := shared_dir m; booted := booted m; connected := connected m;
     pid := pid m; monitor := monitor m; shell := shell m;
     allow_reboot := allow_reboot m; monitor_socket := monitor_socket m;
     shell_socket := v; process := process m |}.

Definition set_process (v : option popen) (m : t) : t :=
  {| name := name m; script := script m; state_dir := state_dir m;
     shared_dir := shared_dir m; booted := booted m; connected := connected m;
     pid := pid m; monitor := monitor m; shell := shell m;
     allow_reboot := allow_reboot m; monitor_socket := monitor_socket m;
     shell_socket := shell_socket m; process := v |}.

(** The state of a method call: [self] and the host. *)
Definition state : Type := t * host.

Definition self : M state t := fun s => (Returns s.1, s).
Definition update_self (f : t -> t) : M state unit := fun s => (Returns tt, (f s.1, s.2)).

Definition AssertionError : exn := PyException "AssertionError" "".
Definition AttributeError (attr : string) : exn :=
  PyException "AttributeError" ("'Machine' object has no attribute '" +:+ attr +:+ "'").
Definition KeyError (key : string) : exn :=
  PyException "KeyError" ("'" +:+ key +:+ "'").

(** [os.path.join(a, b)] *)
Definition path_join (a b : string) : string :=
  if Text.startswith b "/" then b
  else if bool_decide (a = "") || Text.endswith a "/" then a +:+ b
  else a +:+ "/" +:+ b.

(** [while True: body], with the variables the loop carries from turn
    to turn; the body either goes on ([inl]) or returns ([inr]). *)
Fixpoint while_true {St V A} (fuel : nat) (body : V -> M St (V + A)) (vars : V) : M St A :=
  match fuel with
  | O => block
  | S fuel' =>
      step <- body vars ;;
      match step with
      | inl vars' => while_true fuel' body vars'
      | inr a => ret a
      end
  end.

(** *** Construction *)

Definition create_startcommand (h : host) (args : Args) : outcome string :=
  let net_backend :=
    "-netdev user,id=net0" +:+
    match arg_netBackendArgs args with Some a => "," +:+ a | None => "" end in
  let net_frontend :=
    "-device virtio-net-pci,netdev=net0" +:+
    match arg_netFrontendArgs args with Some a => "," +:+ a | None => "" end in
  let start_command :=
    "qemu-kvm -m 384 " +:+ net_backend +:+ " " +:+ net_frontend +:+ " $QEMU_OPTS " in
  let with_hda : outcome string :=
    match arg_hda args with
    | Some hda =>
        let hda_path := abspath h hda in
        if bool_decide (default "" (arg_hdaInterface args) = "scsi")
        then Returns (start_command +:+ "-drive id=hda,file=" +:+ hda_path
                      +:+ ",werror=report,if=none " +:+ "-device scsi-hd,drive=hda ")
        else
          match arg_hdaInterface args with
          | Some interface =>
              Returns (start_command +:+ "-drive file=" +:+ hda_path +:+ ",if="
                       +:+ interface +:+ ",werror=report ")
          | None => Raises (KeyError "hdaInterface")
          end
    | None => Returns start_command
    end in
  match with_hda with
  | Returns start_command =>
      let start_command :=
        match arg_cdrom args with
        | Some cdrom => start_command +:+ "-cdrom " +:+ cdrom +:+ " "
        | None => start_command
        end in
      let start_command :=
        match arg_usb args with
        | Some usb =>
            start_command +:+ "-device piix3-usb-uhci -drive " +:+ "id=usbdisk,file="
            +:+ usb +:+ ",if=none,readonly " +:+ "-device usb-storage,drive=usbdisk "
        | None => start_command
        end in
      let start_command :=
        match arg_bios args with
        | Some bios => start_command +:+ "-bios " +:+ bios +:+ " "
        | None => start_command
        end in
      Returns (start_command +:+ default "" (arg_qemuFlags args))
  | other => other
  end.

(** The pattern "run-(.+)-vm$". *)
Definition run_vm_pattern : Re.regex :=
  Re.Seq (Re.Lit "run-") (Re.Seq (Re.Group (Re.Plus Re.Dot)) (Re.Seq (Re.Lit "-vm") Re.Eol)).

(** The name [__init__] gives the machine. *)
Definition init_name (args : Args) : string :=
  match arg_name args with
  | Some n => n
  | None =>
      match arg_startCommand args with
      | Some cmd =>
          if Text.truthy cmd then
            match Re.search run_vm_pattern cmd with
            | Some m => Re.group m 1
            | None => "machine"
            end
          else "machine"
      | None => "machine"
      end
  end.

(** [create_dir(name)], local to [__init__] *)
Definition create_dir (tmp_dir dir : string) : M host string :=
  let path := path_join tmp_dir dir in
  modify (fun h => set_made_dirs (made_dirs h ++ [path]) h) ;;
  ret path.

(** [Machine(args)] *)
Definition init (args : Args) : M host t :=
  let name := init_name args in
  h <- get ;;
  (* the default of [args.get] is computed whether it is used or not *)
  synthesized <- (fun h => (create_startcommand h args, h)) ;;
  let script := default synthesized (arg_startCommand args) in
  let tmp_dir := dict_get (environ h) "TMPDIR" (tempdir h) in
  state_dir <- create_dir tmp_dir ("vm-state-" +:+ name) ;;
  shared_dir <- create_dir tmp_dir "xchg-shared" ;;
  if arg_log args then
    ret {| name := name; script := script; state_dir := state_dir;
           shared_dir := shared_dir; booted := false; connected := false;
           pid := None; monitor := None; shell := None;
           allow_reboot := default false (arg_allowReboot args);
           monitor_socket := None; shell_socket := None; process := None |}
  else raise (KeyError "log").

(** *** Logging *)

Definition is_up : M state bool :=
  m <- self ;; ret (booted m && connected m).

Definition log (msg : string) : M state unit :=
  m <- self ;;
  on_host (Logger.log msg (dict_of [("machine", name m)])).

Definition nested {A} (msg : string) (attrs : gmap string string) (body : M state A)
  : M state A :=
  m <- self ;;
  let my_attrs := dict_update (dict_of [("machine", name m)]) attrs in
  Logger.nested msg my_attrs body.

(** *** The monitor channel *)

(** [self.monitor.recv(n).decode()] *)
Definition monitor_recv (n : nat) : M state string :=
  fun s =>
    match monitor s.1 with
    | None => (Raises (AttributeError "recv"), s)
    | Some ch =>
        match recv n ch with
        | None => (Blocks, s)
        | Some (text, ch') => (Returns text, (set_monitor (Some ch') s.1, s.2))
        end
    end.

Definition monitor_pending : M state nat :=
  m <- self ;; ret (from_option pending 0%nat (monitor m)).

(** One turn of the loop of [wait_for_monitor_prompt]. *)
Definition prompt_turn (_ : unit) : M state (unit + string) :=
  answer <- monitor_recv 1024 ;;
  if Text.endswith answer "(qemu) " then ret (inr answer) else ret (inl tt).

Definition wait_for_monitor_prompt : M state string :=
  m <- self ;;
  if bool_decide (monitor m = None) then raise AssertionError
  else
    turns <- monitor_pending ;;
    while_true turns prompt_turn tt.

Definition send_monitor_command (command : string) : M state string :=
  let message := command +:+ newline in
  log ("sending monitor command: " +:+ command) ;;
  m <- self ;;
  match monitor m with
  | None => raise AssertionError
  | Some ch =>
      update_self (set_monitor (Some (send message ch))) ;;
      wait_for_monitor_prompt
  end.

Definition send_key (key : string) : M state unit :=
  let key := dict_get CHAR_TO_KEY key key in
  send_monitor_command ("sendkey " +:+ key) ;;
  ret tt.

(** *** Starting the VM *)

(** [create_socket(path)], local to [start]: a stale file is unlinked,
    a socket is bound to the path and listens.  The file system is not
    part of the model; what is kept is the path that listens. *)
Definition create_socket (path : string) : option string := Some path.

(** The option string [start] composes for [QEMU_OPTS]. *)
Definition qemu_options (m : t) (h : host) : string :=
  let monitor_path := path_join (state_dir m) "monitor" in
  let shell_path := path_join (state_dir m) "shell" in
  Text.join " "
    [ if allow_reboot m then "" else "-no-reboot";
      "-monitor unix:" +:+ monitor_path;
      "-chardev socket,id=shell,path=" +:+ shell_path;
      "-device virtio-serial";
      "-device virtconsole,chardev=shell";
      "-device virtio-rng-pci";
      if bool_decide (is_Some (environ h !! "DISPLAY")) then "-serial stdio"
      else "-nographic" ]
  +:+ " " +:+ dict_get (environ h) "QEMU_OPTS" "".

(** The [env] that [start] hands to [subprocess.Popen]. *)
Definition start_environment (m : t) (h : host) : gmap string string :=
  let environment :=
    dict_of [ ("QEMU_OPTS", qemu_options m h);
              ("SHARED_DIR", shared_dir m);
              ("USE_TMPDIR", "1") ] in
  dict_update environment (environ h).

Definition start : M state unit :=
  m <- self ;;
  if booted m then ret tt
  else
    log "starting vm" ;;
    update_self (set_monitor_socket (create_socket (path_join (state_dir m) "monitor"))) ;;
    update_self (set_shell_socket (create_socket (path_join (state_dir m) "shell"))) ;;
    h <- on_host get ;;
    let child := {| popen_args := script m; popen_cwd := state_dir m;
                    popen_env := start_environment m h |} in
    on_host (modify (fun h => set_spawned (spawned h ++ [child]) h)) ;;
    update_self (set_process (Some child)) ;;
    match launch h (script m) with
    | None => block          (* [accept] waits for a peer that never connects *)
    | Some vm =>
        update_self (set_monitor (Some {| incoming := guest_monitor vm; sent := [] |})) ;;
        update_self (set_shell (Some {| incoming := guest_shell vm; sent := [] |})) ;;
        (* the thread that drains the serial output is not modelled *)
        wait_for_monitor_prompt ;;
        update_self (set_pid (Some (guest_pid vm))) ;;
        update_self (set_booted true) ;;
        log ("QEMU running (pid " +:+ Text.of_int (guest_pid vm) +:+ ")")
    end.

(** *** The shell channel *)

(** [self.shell.recv(n).decode()] *)
Definition shell_recv (n : nat) : M state string :=
  fun s =>
    match shell s.1 with
    | None => (Raises (AttributeError "shell"), s)
    | Some ch =>
        match recv n ch with
        | None => (Blocks, s)
        | Some (text, ch') => (Returns text, (set_shell (Some ch') s.1, s.2))
        end
    end.

(** [self.shell.send(message.encode())] *)
Definition shell_send (message : string) : M state unit :=
  m <- self ;;
  match shell m with
  | None => raise (AttributeError "shell")
  | Some ch => update_self (set_shell (Some (send message ch)))
  end.

Definition shell_pending : M state nat :=
  m <- self ;; ret (from_option pending 0%nat (shell m)).

Definition connect : M state unit :=
  m <- self ;;
  if connected m then ret tt
  else
    nested "waiting for the VM to finish booting" ∅
      (start ;;
       shell_recv 1024 ;;
       log "connected to guest root shell" ;;
       seconds <- on_host elapsed ;;
       log ("(connecting took " +:+ seconds +:+ " seconds)") ;;
       update_self (set_connected true)).

(** [status_code_pattern]: a first group of [.] repeated with a star,
    the literal text [|!EOF], [\s+], and a second group [\d+]. *)
Definition status_code_pattern : Re.regex :=
  Re.Seq (Re.Group (Re.Star Re.Dot))
    (Re.Seq (Re.Lit "|!EOF")
       (Re.Seq (Re.Plus Re.Whitespace) (Re.Group (Re.Plus Re.DecimalDigit)))).

(** One turn of the loop of [execute], from the [output] so far. *)
Definition execute_turn (output : string) : M state (string + Z * string) :=
  chunk <- shell_recv 4096 ;;
  match Re.match_ status_code_pattern chunk with
  | Some m =>
      let output := output +:+ Re.group m 1 in
      let status_code := Text.to_int (Re.group m 2) in
      ret (inr (status_code, output))
  | None => ret (inl (output +:+ chunk))
  end.

Definition execute (command : string) : M state (Z * string) :=
  connect ;;
  let out_command := "( " +:+ command +:+ " ); echo '|!EOF' $?" +:+ newline in
  shell_send out_command ;;
  turns <- shell_pending ;;
  while_true turns execute_turn "".

(** One turn of the loop of [succeed], from the [output] so far. *)
Definition succeed_turn (output command : string) : M state string :=
  nested ("must succeed: " +:+ command) ∅
    (result <- execute command ;;
     let (status, out) := (result : Z * string) in
     if bool_decide (status ≠ 0) then
       log ("output: " +:+ out) ;;
       raise (Exception ("command `" +:+ command +:+ "` failed (exit code "
                         +:+ Text.of_int status +:+ ")"))
     else ret (output +:+ out)).

Definition succeed (commands : list string) : M state string :=
  for_each_with commands succeed_turn "".

Definition fail (commands : list string) : M state unit :=
  for_each commands
    (fun command =>
       nested ("must fail: " +:+ command) ∅
         (result <- execute command ;;
          let (status, output) := (result : Z * string) in
          if bool_decide (status = 0) then
            raise (Exception ("command `" +:+ command +:+ "` unexpectedly succeeded"))
          else ret tt)).

(** *** Units, jobs and ports *)

Definition systemctl (q : string) (user : option string) : M state (Z * string) :=
  match user with
  | Some user =>
      let q := Text.replace q "'" (backslash +:+ "'") in
      execute ("su -l " +:+ user +:+ " -c "
               +:+ "$'XDG_RUNTIME_DIR=/run/user/`id -u` "
               +:+ "systemctl --user " +:+ q +:+ "'")
  | None => execute ("systemctl " +:+ q)
  end.

Definition start_job (jobname : string) (user : option string) : M state (Z * string) :=
  systemctl ("start " +:+ jobname) user.

Definition stop_job (jobname : string) (user : option string) : M state (Z * string) :=
  systemctl ("stop " +:+ jobname) user.

(** [port_is_open], local to [wait_for_open_port] *)
Definition port_is_open (port : Z) (_ : bool) : M state bool :=
  result <- execute ("nc -z localhost " +:+ Text.of_int port) ;;
  ret (bool_decide ((result : Z * string).1 = 0)).

Definition wait_for_open_port (port : Z) : M state unit :=
  nested ("waiting for TCP port " +:+ Text.of_int port) ∅ (retry (port_is_open port)).

(** [port_is_closed], local to [wait_for_closed_port] *)
Definition port_is_closed (port : Z) (_ : bool) : M state bool :=
  result <- execute ("nc -z localhost " +:+ Text.of_int port) ;;
  ret (bool_decide ((result : Z * string).1 ≠ 0)).

Definition wait_for_closed_port (port : Z) : M state unit :=
  retry (port_is_closed port).

(** *** Monitor verbs *)

Definition forward_port (host_port guest_port : Z) : M state unit :=
  send_monitor_command
    ("hostfwd_add tcp::" +:+ Text.of_int host_port +:+ "-:" +:+ Text.of_int guest_port) ;;
  ret tt.

Definition block : M state unit :=
  send_monitor_command "set_link virtio-net-pci.1 off" ;; ret tt.

Definition unblock : M state unit :=
  send_monitor_command "set_link virtio-net-pci.1 on" ;; ret tt.

End Machine.

(** ** Driver top level *)

Module Driver.

(** The global [machines] and the host. *)
Definition state : Type := list Machine.t * host.

(** What Python makes of script text: [exec(source)], and the
    interactive prompt that [ptpython.repl.embed] opens. *)
Record interpreter := {
  exec : string -> M state unit;
  repl : M state unit;
}.

(** [for machine in machines: body], [body] running on each machine
    in turn. *)
Fixpoint each_machine (body : M Machine.state unit) (ms : list Machine.t) (h : host)
  : outcome unit * state :=
  match ms with
  | [] => (Returns tt, ([], h))
  | m :: rest =>
      match body (m, h) with
      | (Returns _, (m', h')) =>
          let '(r, (rest', h'')) := each_machine body rest h' in
          (r, (m' :: rest', h''))
      | (Raises e, (m', h')) => (Raises e, (m' :: rest, h'))
      | (Blocks, (m', h')) => (Blocks, (m' :: rest, h'))
      end
  end.

Definition for_machines (body : M Machine.state unit) : M state unit :=
  fun s => each_machine body s.1 s.2.

Definition create_machine (args : Machine.Args) : M host Machine.t :=
  h <- get ;;
  let args :=
    {| Machine.arg_name := Machine.arg_name args;
       Machine.arg_startCommand := Machine.arg_startCommand args;
       Machine.arg_netBackendArgs := Machine.arg_netBackendArgs args;
       Machine.arg_netFrontendArgs := Machine.arg_netFrontendArgs args;
       Machine.arg_hda := Machine.arg_hda args;
       Machine.arg_hdaInterface := Machine.arg_hdaInterface args;
       Machine.arg_cdrom := Machine.arg_cdrom args;
       Machine.arg_usb := Machine.arg_usb args;
       Machine.arg_bios := Machine.arg_bios args;
       Machine.arg_qemuFlags := Machine.arg_qemuFlags args;
       Machine.arg_log := true;
       Machine.arg_allowReboot := Machine.arg_allowReboot args;
       Machine.arg_redirectSerial :=
         Some (bool_decide (dict_get (environ h) "USE_SERIAL" "0" = "1")) |} in
  Machine.init args.

(** The dict display [{"startCommand": s}]. *)
Definition startCommand_args (s : string) : Machine.Args :=
  {| Machine.arg_name := None; Machine.arg_startCommand := Some s;
     Machine.arg_netBackendArgs := None; Machine.arg_netFrontendArgs := None;
     Machine.arg_hda := None; Machine.arg_hdaInterface := None;
     Machine.arg_cdrom := None; Machine.arg_usb := None; Machine.arg_bios := None;
     Machine.arg_qemuFlags := None; Machine.arg_log := false;
     Machine.arg_allowReboot := None; Machine.arg_redirectSerial := None |}.

(** [[create_machine({"startCommand": s}) for s in vm_scripts]] *)
Fixpoint create_machines (vm_scripts : list string) : M host (list Machine.t) :=
  match vm_scripts with
  | [] => ret []
  | s :: rest =>
      m <- create_machine (startCommand_args s) ;;
      ms <- create_machines rest ;;
      ret (m :: ms)
  end.


(** [with subtest(name): body].  The generator's [return True] and
    [return False] only end it; their values go nowhere. *)
Definition subtest {St} `{HasHost St} (name : string) (body : M St unit) : M St unit :=
  Logger.nested name ∅
    (on_host (modify (fun h => set_nr_tests (nr_tests h + 1) h)) ;;
     try_except
       (body ;;
        on_host (modify (fun h => set_nr_succeeded (nr_succeeded h + 1) h)))
       is_Exception
       (fun e => on_host (Logger.log ("error: " +:+ str_of_exn e) ∅))).

Definition run_tests (py : interpreter) : M state unit :=
  h <- on_host get ;;
  match environ h !! "tests" with
  | Some tests =>
      Logger.nested "running the VM test script" ∅
        (try_except (exec py tests) is_Exception
           (fun e =>
              on_host (eprint ("error: " +:+ str_of_exn e)) ;;
              raise (SystemExit 1)))
  | None => repl py
  end ;;
  for_machines
    (up <- Machine.is_up ;;
     if (up : bool) then Machine.execute "sync" ;; ret tt else ret tt) ;;
  h <- on_host get ;;
  if bool_decide (nr_tests h ≠ 0) then
    on_host (Logger.log (Text.of_int (nr_succeeded h) +:+ " out of "
                         +:+ Text.of_int (nr_tests h) +:+ " tests succeeded") ∅)
  else ret tt.

(** [["{0} = machines[{1}]".format(m.name, idx) for idx, m in
    enumerate(machines)]], joined by newlines: the text that binds each
    machine to its name. *)
Definition machine_eval (machines : list Machine.t) : string :=
  Text.join newline
    (imap (fun idx m =>
             Machine.name m +:+ " = machines[" +:+ Text.of_int (Z.of_nat idx) +:+ "]")
       machines).

(** A VDE switch as [create_vlan] returns it: the number of the network,
    the control socket and the process.  The file object of the pty is
    left out. *)
Record vlan := {
  vlan_nr : string;
  vde_socket : string;
  vde_process : popen;
}.

(** [create_vlan(vlan_nr)].  The host tells what the switch does once it
    is started on its control socket and asked for its version:
    [Returns b] when it writes a line, [b] telling whether the [ctl]
    entry of the socket exists then; [Blocks] when it never writes a
    line; [Raises e] when [Popen] cannot start it.  The argument list of
    the process is kept joined by spaces. *)
Definition create_vlan (nr : string) : M host vlan :=
  Logger.log ("starting VDE switch for network " +:+ nr) ∅ ;;
  h <- get ;;
  let socket := abspath h ("./vde" +:+ nr +:+ ".ctl") in
  let process :=
    {| popen_args := Text.join " " ["vde_switch"; "-s"; socket; "--dirmode"; "0777"];
       popen_cwd := abspath h ".";
       popen_env := environ h |} in
  match vde_switch h socket with
  | Raises e => raise e
  | Blocks => modify (fun h => set_spawned (spawned h ++ [process]) h) ;; block
  | Returns ctl_exists =>
      modify (fun h => set_spawned (spawned h ++ [process]) h) ;;
      if ctl_exists
      then ret {| vlan_nr := nr; vde_socket := socket; vde_process := process |}
      else raise (Exception "cannot start vde_switch")
  end.

(** [[create_vlan(v) for v in vlan_nrs]] *)
Fixpoint create_vlans (vlan_nrs : list string) : M host (list vlan) :=
  match vlan_nrs with
  | [] => ret []
  | nr :: rest =>
      v <- create_vlan nr ;;
      vs <- create_vlans rest ;;
      ret (v :: vs)
  end.

(** [os.environ["QEMU_VDE_SOCKET_{}".format(nr)] = vde_socket] *)
Definition export_socket (v : vlan) : M host unit :=
  modify (fun h =>
    set_environ (<["QEMU_VDE_SOCKET_" +:+ vlan_nr v := vde_socket v]> (environ h)) h).

(** [process.kill()] *)
Definition kill (process : popen) : M host unit :=
  modify (fun h => set_killed (killed h ++ [process]) h).

(** [clean_up], the hook that [__main__] registers with [atexit] *)
Definition clean_up (vde_sockets : list vlan) : M state unit :=
  Logger.nested "cleaning up" ∅
    (for_machines
       (m <- Machine.self ;;
        match Machine.pid m with
        | None => ret tt
        | Some pid =>
            on_host (Logger.log ("killing " +:+ Machine.name m +:+ " (pid "
                                 +:+ Text.of_int pid +:+ ")") ∅) ;;
            match Machine.process m with
            | Some process => on_host (kill process)
            | None =>
                raise (PyException "AttributeError"
                         "'NoneType' object has no attribute 'kill'")
            end
        end) ;;
     on_host (for_each vde_sockets (fun v => kill (vde_process v)))) ;;
  on_host Logger.close.

(** A computation on the machines and the host, run from the given
    machines; the machines it leaves are its result. *)
Definition from_machines (machines : list Machine.t) (c : M state unit)
  : M host (list Machine.t) :=
  fun h =>
    match c (machines, h) with
    | (Returns _, (machines', h')) => (Returns machines', h')
    | (Raises e, (_, h')) => (Raises e, h')
    | (Blocks, (_, h')) => (Blocks, h')
    end.

(** The statements of [__main__] before [clean_up] is registered: the
    logger is made, the VDE switches of [VLANS] are started and their
    sockets exported, the machines are built from the command line and
    bound to their names, the counters are reset. *)
Definition set_up (py : interpreter) (vm_scripts : list string)
  : M host (list vlan * list Machine.t) :=
  Logger.init ;;
  h <- get ;;
  match environ h !! "VLANS" with
  | None => raise (Machine.KeyError "VLANS")
  | Some vlans =>
      vde_sockets <- create_vlans (fromkeys (split vlans)) ;;
      for_each vde_sockets export_socket ;;
      machines <- create_machines vm_scripts ;;
      machines <- from_machines machines (exec py (machine_eval machines)) ;;
      modify (set_nr_tests 0) ;;
      modify (set_nr_succeeded 0) ;;
      ret (vde_sockets, machines)
  end.

(** The [__main__] block.  Once [clean_up] is registered it runs when
    the interpreter exits, however the tests ended; it does not change
    the exit status.  The traceback that the interpreter prints for an
    uncaught exception is not part of the model. *)
Definition main (py : interpreter) (vm_scripts : list string) : M host unit :=
  fun h =>
    match set_up py vm_scripts h with
    | (Returns (vde_sockets, machines), h) =>
        match (run_tests py ;;
               seconds <- on_host elapsed ;;
               on_host (print ("test script finished in " +:+ seconds +:+ "s")))
                (machines, h) with
        | (Blocks, (_, h)) => (Blocks, h)
        | (r, s) => let '(_, (_, h)) := clean_up vde_sockets s in (r, h)
        end
    | (Raises e, h) => (Raises e, h)
    | (Blocks, h) => (Blocks, h)
    end.

(** The exit status of the interpreter for the way [main] ends; an
    interrupt or a run that never ends has none. *)
Definition exit_code (r : outcome unit) : option Z :=
  match r with
  | Returns _ => Some 0
  | Raises (SystemExit code) => Some code
  | Raises (PyException _ _) => Some 1
  | Raises KeyboardInterrupt => None
  | Blocks => None
  end.

End Driver.

(** * The vocabulary of the properties *)

(** ** Sanitising *)

(** A general category "begins with C" when it is one of the five
    "other" categories. *)
Definition is_other (c : general_category) : bool :=
  match c with Cc | Cf | Cs | Co | Cn => true | _ => false end.

(** The code points a category table lets through. *)
Definition kept (category : ascii -> general_category) (ch : ascii) : bool :=
  negb (Text.startswith (category_name (category ch)) "C").

(** ** Computations that return *)

(** [m] run from [s] returns, with a value and a state that satisfy [Q]. *)
Definition returns {St A} (m : M St A) (s : St) (Q : A -> St -> Prop) : Prop :=
  exists a s', m s = (Returns a, s') /\ Q a s'.

(** ** What logging changes *)

(** Everything of the host that the logger never writes. *)
Definition beyond_log (h : host) :=
  (environ h, tempdir h, abspath h, launch h, vde_switch h, unicodedata_category h,
   stdout h, made_dirs h, spawned h, slept h, killed h, nr_tests h, nr_succeeded h).

(** A step of the logger that prints nothing: the XML events grow, the
    rest stays. *)
Definition xml_only (h h' : host) : Prop :=
  beyond_log h' = beyond_log h /\ stderr h' = stderr h /\ timings h' = timings h
  /\ exists events, xml (log h') = xml (log h) ++ events.

(** The host after the opening of [nested(message, attributes)]. *)
Definition scope_opened (message : string) (attributes : gmap string string)
    (h h1 : host) : Prop :=
  beyond_log h1 = beyond_log h /\ timings h1 = timings h
  /\ stderr h1 = stderr h ++ [Logger.maybe_prefix message attributes]
  /\ exists drained,
      xml (log h1) = xml (log h)
                     ++ [StartElement "nest" ∅; StartElement "head" attributes;
                         Characters message; EndElement "head"] ++ drained.

(** The host after the closing of a scope: the elapsed time was logged
    and the [nest] element ended. *)
Definition scope_closed (h2 h3 : host) : Prop :=
  beyond_log h3 = beyond_log h2
  /\ (exists seconds,
        stderr h3 = stderr h2 ++ ["(" +:+ seconds +:+ " seconds)"]
        /\ exists events,
            xml (log h3) = xml (log h2) ++ events
                           ++ [StartElement "line" ∅;
                               Characters ("(" +:+ seconds +:+ " seconds)");
                               EndElement "line"; EndElement "nest"]).

(** ** Subtests *)

(** The state in which the body of a subtest starts: the scope was
    opened on the host and [nr_tests] went up by one. *)
Definition subtest_entered {St} `{HasHost St} (name : string) (s s1 : St) : Prop :=
  exists h1, scope_opened name ∅ (the_host s) h1
             /\ s1 = with_host (set_nr_tests (nr_tests h1 + 1) h1) s.

(** What [log.log("error: ...")] did to the host. *)
Definition error_logged (e : exn) (h2 h2' : host) : Prop :=
  beyond_log h2' = beyond_log h2
  /\ stderr h2' = stderr h2 ++ ["error: " +:+ str_of_exn e]
  /\ exists drained,
      xml (log h2') = xml (log h2) ++ drained
                      ++ [StartElement "line" ∅;
                          Characters ("error: " +:+ str_of_exn e);
                          EndElement "line"].

(** A computation counts fairly when it lowers neither counter and adds
    to [nr_succeeded] no more than to [nr_tests]: so does all code that
    leaves the counters to [subtest]. *)
Definition counts_fairly {St} `{HasHost St} (m : M St unit) : Prop :=
  forall s,
    let h := the_host s in
    let h' := the_host (m s).2 in
    nr_tests h <= nr_tests h' /\ nr_succeeded h <= nr_succeeded h'
    /\ nr_succeeded h' - nr_succeeded h <= nr_tests h' - nr_tests h.

(** The host went from [h] to [h'] with [tests] more subtests counted
    and [succeeded] more successes, the environment as it was. *)
Definition counted (tests succeeded : Z) (h h' : host) : Prop :=
  environ h' = environ h
  /\ nr_tests h' = nr_tests h + tests
  /\ nr_succeeded h' = nr_succeeded h + succeeded.

(** The script of scenario S6: a subtest that raises, then one that
    passes. *)
Definition two_subtests : M Driver.state unit :=
  Driver.subtest "a" (raise (PyException "RuntimeError" "x")) ;;
  Driver.subtest "b" (ret tt).

Definition summary_1_of_2 : string := "1 out of 2 tests succeeded".

(** ** A host to test on *)

(** The categories of the ASCII range. *)
Definition ascii_category (c : ascii) : general_category :=
  let n := nat_of_ascii c in
  if ((n <? 32) || (n =? 127))%nat then Cc
  else if (n =? 32)%nat then Zs
  else if ((48 <=? n) && (n <=? 57))%nat then Nd
  else if ((65 <=? n) && (n <=? 90))%nat then Lu
  else if ((97 <=? n) && (n <=? 122))%nat then Ll
  else Po.

Definition example_guest : guest :=
  {| guest_pid := 4242;
     guest_monitor := ["QEMU 4.2.0 monitor" +:+ newline +:+ "(qemu) "];
     guest_shell := ["Spawning backdoor root shell..." +:+ newline] |}.

Definition example_host : host :=
  {| environ := dict_of [("tests", "script"); ("QEMU_OPTS", "-m 512")];
     tempdir := "/tmp";
     abspath := fun path => Machine.path_join "/build" path;
     launch := fun _ => Some example_guest;
     vde_switch := fun _ => Returns true;
     unicodedata_category := ascii_category;
     timings := ["0.12"];
     stderr := []; stdout := []; made_dirs := []; spawned := []; slept := 0;
     killed := [];
     log := {| logfile := "/dev/null";
               xml := [StartDocument; StartElement "logfile" ∅];
               queue := [{| item_msg := "booting"; item_machine := "foo" |}];
               logfile_open := true |};
     nr_tests := 0; nr_succeeded := 0 |}.

(** An interpreter that knows the script of S6 by the text "script" and
    takes any other text for bindings. *)
Definition example_interpreter : Driver.interpreter :=
  {| Driver.exec := fun src => if bool_decide (src = "script") then two_subtests
                               else ret tt;
     Driver.repl := ret tt |}.

(** The text that binds machines of the given names, as [__main__]
    composes it. *)
Definition bindings (names : list string) : string :=
  Text.join newline
    (imap (fun idx name => name +:+ " = machines[" +:+ Text.of_int (Z.of_nat idx) +:+ "]")
       names).

(** The text that binds the machines of the command line to their names
    is valid for the interpreter: executing it changes nothing of the
    model. *)
Definition binds_machines (py : Driver.interpreter) (vm_scripts : list string) : Prop :=
  forall s,
    Driver.exec py
      (bindings (map (fun cmd => Machine.init_name (Driver.startCommand_args cmd))
                   vm_scripts)) s
    = (Returns tt, s).

(** ** The subtest scope *)

(** The claim as the specification words it: whatever the body raises
    is swallowed. *)
Definition swallows_whatever_is_raised (h : host) : Prop :=
  forall e : exn, (Driver.subtest "a" (raise e) h).1 = Returns tt.

(** ** Retry *)

(** One call of the predicate as [retry] made it: the [last] flag, how
    the call ended, and the seconds slept so far before and after it. *)
Record call := {
  call_last : bool;
  call_result : outcome bool;
  slept_before : Z;
  slept_after : Z;
}.

(** The predicate [fn], keeping a record of its calls next to the state. *)
Definition recorded {St} `{HasHost St} (fn : bool -> M St bool) (last : bool)
  : M (list call * St) bool :=
  fun cs =>
    let (r, s') := fn last cs.2 in
    (r, (cs.1 ++ [{| call_last := last; call_result := r;
                     slept_before := slept (the_host cs.2);
                     slept_after := slept (the_host s') |}], s')).

(** A call that came back with [False] while more tries were left. *)
Definition failed_attempt (c : call) : Prop :=
  call_last c = false /\ call_result c = Returns false.

(** Each call starts one second of sleep after the call before it. *)
Fixpoint spaced (now : Z) (calls : list call) : Prop :=
  match calls with
  | [] => True
  | c :: rest => slept_before c = now /\ spaced (slept_after c + 1) rest
  end.

(** The seconds slept when the next call would start. *)
Fixpoint after_calls (now : Z) (calls : list call) : Z :=
  match calls with
  | [] => now
  | c :: rest => after_calls (slept_after c + 1) rest
  end.

(** How [retry] ends, given how its last call of the predicate ended. *)
Definition retry_outcome (final : outcome bool) : outcome unit :=
  match final with
  | Returns true => Returns tt
  | Returns false => Raises (Exception "action timed out")
  | Raises e => Raises e
  | Blocks => Blocks
  end.

(** The calls [retry] makes: up to 900 failed attempts with [last=False],
    then one more call that decides, with [last=True] exactly when all
    900 attempts failed. *)
Definition retry_law (start : Z) (calls : list call) (r : outcome unit) : Prop :=
  exists failed final,
    calls = failed ++ [final]
    /\ (length failed <= 900)%nat
    /\ Forall failed_attempt failed
    /\ call_last final = bool_decide (length failed = 900%nat)
    /\ (call_result final = Returns false -> length failed = 900%nat)
    /\ r = retry_outcome (call_result final)
    /\ spaced start calls.

(** The bounds as the specification words them: at most 899 calls with
    [last=False], at most 900 calls in all. *)
Definition retry_bounds_as_specified (calls : list call) : Prop :=
  (length (List.filter (fun c => negb (call_last c)) calls) <= 899)%nat
  /\ (length calls <= 900)%nat.

(** A predicate that never holds. *)
Definition never_true (last : bool) : M host bool := ret false.

(** The calls [retry] makes of it. *)
Definition never_true_calls : list call :=
  (retry (recorded never_true) ([], example_host)).2.1.

(** ** Channels and the monitor prompt *)

(** The chunks that successive calls of [recv(n)] return, at most [fuel]
    of them. *)
Fixpoint received_upto (fuel n : nat) (ch : Machine.channel) : list string :=
  match fuel with
  | O => []
  | S fuel' =>
      match Machine.recv n ch with
      | None => []
      | Some (chunk, ch') => chunk :: received_upto fuel' n ch'
      end
  end.

(** All the chunks [recv(n)] returns before the peer falls silent. *)
Definition received (n : nat) (ch : Machine.channel) : list string :=
  received_upto (Machine.pending ch) n ch.

Definition prompt : string := "(qemu) ".

Definition is_prompted (chunk : string) : bool := Text.endswith chunk prompt.

(** The wait as the specification words it: the chunks are gathered and
    the gathered text is returned once it ends with the prompt. *)
Fixpoint accumulated_wait (fuel : nat) (gathered : string) (ch : Machine.channel)
  : outcome string :=
  match fuel with
  | O => Blocks
  | S fuel' =>
      match Machine.recv 1024 ch with
      | None => Blocks
      | Some (chunk, ch') =>
          let gathered := gathered +:+ chunk in
          if Text.endswith gathered prompt then Returns gathered
          else accumulated_wait fuel' gathered ch'
      end
  end.

(** A machine that is up, talking to the given monitor and shell. *)
Definition running_machine (monitor_feed shell_feed : list string) : Machine.t :=
  {| Machine.name := "foo";
     Machine.script := "/nix/store/x/bin/run-foo-vm";
     Machine.state_dir := "/tmp/vm-state-foo";
     Machine.shared_dir := "/tmp/xchg-shared";
     Machine.booted := true;
     Machine.connected := true;
     Machine.pid := Some 4242;
     Machine.monitor := Some {| Machine.incoming := monitor_feed; Machine.sent := [] |};
     Machine.shell := Some {| Machine.incoming := shell_feed; Machine.sent := [] |};
     Machine.allow_reboot := false;
     Machine.monitor_socket := Some "/tmp/vm-state-foo/monitor";
     Machine.shell_socket := Some "/tmp/vm-state-foo/shell";
     Machine.process := None |}.

(** What [wait_for_monitor_prompt] does with a monitor channel. *)
Definition prompt_wait_law (m : Machine.t) (h : host) (ch : Machine.channel) : Prop :=
  (* the first chunk that ends with the prompt, that chunk alone *)
  (Machine.wait_for_monitor_prompt (m, h)).1
  = match List.find is_prompted (received 1024 ch) with
    | Some chunk => Returns chunk
    | None => Blocks
    end
  (* chunks before it are dropped, the ones after it stay on the channel *)
  /\ (forall before chunk after,
        Machine.incoming ch = before ++ chunk :: after ->
        Forall (fun c => (String.length c <= 1024)%nat /\ is_prompted c = false) before ->
        (String.length chunk <= 1024)%nat ->
        is_prompted chunk = true ->
        Machine.wait_for_monitor_prompt (m, h)
        = (Returns chunk,
           (Machine.set_monitor
              (Some {| Machine.incoming := after; Machine.sent := Machine.sent ch |}) m,
            h)))
  (* scenario S3 *)
  /\ (Machine.incoming ch = ["ready" +:+ newline +:+ "(qemu) "] ->
      (Machine.wait_for_monitor_prompt (m, h)).1
      = Returns ("ready" +:+ newline +:+ "(qemu) ")).

(** ** Keys *)

(** The monitor of the machine got the line [sendkey token]. *)
Definition sendkey_issued (s' : Machine.state) (ch : Machine.channel) (token : string)
  : Prop :=
  exists ch',
    Machine.monitor s'.1 = Some ch'
    /\ Machine.sent ch' = Machine.sent ch ++ ["sendkey " +:+ token +:+ newline].

(** ** Machine names *)

(** The text holds no newline. *)
Definition one_line (s : string) : bool :=
  forallb (Re.in_class Re.Dot) (list_ascii_of_string s).

(** The literal [run-] starts at no position of [dir] in [dir +:+ rest]. *)
Fixpoint starts_no_earlier (dir rest : string) : bool :=
  match dir with
  | "" => true
  | String c dir' =>
      negb (Text.startswith (String c dir' +:+ rest) "run-")
      && starts_no_earlier dir' rest
  end.

(** What [create_machine] of a start command names the machine. *)
Definition named_by_capture (cmd : string) (h : host) : Prop :=
  returns (Driver.create_machine (Driver.startCommand_args cmd)) h
    (fun m _ =>
       Machine.name m = match Re.search Machine.run_vm_pattern cmd with
                        | Some groups => Re.group groups 1
                        | None => "machine"
                        end).

(** The claim as the specification words it: whatever precedes it, a
    final [run-foo-vm] yields the name [foo]. *)
Definition ending_in_run_foo_vm_names_foo (h : host) : Prop :=
  forall dir,
    returns (Driver.create_machine (Driver.startCommand_args (dir +:+ "run-foo-vm"))) h
      (fun m _ => Machine.name m = "foo").

(** ** Starting the VM and running commands *)

(** A machine as [create_machine] makes it. *)
Definition fresh_machine : Machine.t :=
  {| Machine.name := "foo";
     Machine.script := "/nix/store/x/bin/run-foo-vm";
     Machine.state_dir := "/tmp/vm-state-foo";
     Machine.shared_dir := "/tmp/xchg-shared";
     Machine.booted := false;
     Machine.connected := false;
     Machine.pid := None;
     Machine.monitor := None;
     Machine.shell := None;
     Machine.allow_reboot := false;
     Machine.monitor_socket := None;
     Machine.shell_socket := None;
     Machine.process := None |}.

(** Scenario S4 as the shell delivers it in one chunk. *)
Definition hello_and_sentinel : string := "hello" +:+ newline +:+ "|!EOF 0" +:+ newline.

(** Scenario S5 as the shell delivers it in one chunk. *)
Definition oops_and_sentinel : string := "oops" +:+ newline +:+ "|!EOF 2" +:+ newline.

(** The key map as the specification describes it (section 4.1), by
    rule instead of by table: an uppercase letter is the lowercase
    letter with shift, a punctuation key is its scancode, a character
    typed with shift on the digit row or on a punctuation key is that
    key's scancode with shift, space is [spc], newline is [ret], and
    any other string stands for itself. *)
Definition is_upper (c : ascii) : bool :=
  let n := nat_of_ascii c in ((65 <=? n) && (n <=? 90))%nat.

Definition to_lower (c : ascii) : ascii := ascii_of_nat (nat_of_ascii c + 32).

(** The scancode of an unshifted punctuation key of the US layout. *)
Definition punctuation_scancode (c : ascii) : option string :=
  match c with
  | "-"%char => Some "0x0C" | "="%char => Some "0x0D"
  | "["%char => Some "0x1A" | "]"%char => Some "0x1B"
  | ";"%char => Some "0x27" | "'"%char => Some "0x28" | "`"%char => Some "0x29"
  | "092"%char => Some "0x2B"
  | ","%char => Some "0x33" | "."%char => Some "0x34" | "/"%char => Some "0x35"
  | _ => None
  end.

(** The scancode of the key that types the character when shift is
    held: the digit row from [1] to [0], then the punctuation keys. *)
Definition shifted_scancode (c : ascii) : option string :=
  match c with
  | "!"%char => Some "0x02" | "@"%char => Some "0x03" | "#"%char => Some "0x04"
  | "$"%char => Some "0x05" | "%"%char => Some "0x06" | "^"%char => Some "0x07"
  | "&"%char => Some "0x08" | "*"%char => Some "0x09" | "("%char => Some "0x0A"
  | ")"%char => Some "0x0B"
  | "_"%char => Some "0x0C" | "+"%char => Some "0x0D"
  | "{"%char => Some "0x1A" | "}"%char => Some "0x1B"
  | ":"%char => Some "0x27" | "034"%char => Some "0x28" | "~"%char => Some "0x29"
  | "|"%char => Some "0x2B"
  | "<"%char => Some "0x33" | ">"%char => Some "0x34" | "?"%char => Some "0x35"
  | _ => None
  end.

Definition specified_token (key : string) : string :=
  match key with
  | String c "" =>
      if is_upper c then "shift-" +:+ String (to_lower c) ""
      else if bool_decide (c = " "%char) then "spc"
      else if bool_decide (c = "010"%char) then "ret"
      else
        match punctuation_scancode c, shifted_scancode c with
        | Some code, _ => code
        | None, Some code => "shift-" +:+ code
        | None, None => key
        end
  | _ => key
  end.

(** ** The log file *)

(** The three events of a [line] element. *)
Definition line_element (message : string) (attributes : gmap string string) : list sax :=
  [StartElement "line" attributes; Characters message; EndElement "line"].

(** The lines [drain_log_queue] writes for the records that wait. *)
Definition serial_lines (category : ascii -> general_category) (items : list serial_item)
  : list sax :=
  flat_map
    (fun item =>
       line_element (Logger.sanitise category (item_msg item))
         (dict_of [("machine", item_machine item); ("type", "serial")]))
    items.

(** The elements open after the events, innermost first, from the ones
    open before them; [None] when an end tag meets no open element of
    its name, or a document event turns up inside. *)
Fixpoint open_elements (stack : list string) (events : list sax) : option (list string) :=
  match events with
  | [] => Some stack
  | StartElement name _ :: rest => open_elements (name :: stack) rest
  | EndElement name :: rest =>
      match stack with
      | top :: stack' => if decide (top = name) then open_elements stack' rest else None
      | [] => None
      end
  | Characters _ :: rest => open_elements stack rest
  | StartDocument :: _ => None
  | EndDocument :: _ => None
  end.

(** Events that close every element they open, and no other. *)
Definition balanced (events : list sax) : Prop :=
  forall stack, open_elements stack events = Some stack.

(** A complete log file: the document events around one [logfile]
    element with balanced content. *)
Definition well_formed_log (events : list sax) : Prop :=
  exists content,
    events = [StartDocument; StartElement "logfile" ∅] ++ content
             ++ [EndElement "logfile"; EndDocument]
    /\ balanced content.

(** The calls a run makes of the logger, one after the other. *)
Inductive logging :=
| Done
| Log (message : string) (attributes : gmap string string) (next : logging)
| Enqueue (item : serial_item) (next : logging)
| Nested (message : string) (attributes : gmap string string) (body next : logging).

Fixpoint perform (calls : logging) : M host unit :=
  match calls with
  | Done => ret tt
  | Log message attributes next => Logger.log message attributes ;; perform next
  | Enqueue item next => Logger.enqueue item ;; perform next
  | Nested message attributes body next =>
      Logger.nested message attributes (perform body) ;; perform next
  end.

(** The records that the calls leave in the queue, from the ones that
    waited before: [log] and [nested] write out what waits. *)
Fixpoint left_in_queue (calls : logging) (waiting : list serial_item) : list serial_item :=
  match calls with
  | Done => waiting
  | Log _ _ next => left_in_queue next []
  | Enqueue item next => left_in_queue next (waiting ++ [item])
  | Nested _ _ _ next => left_in_queue next []
  end.

(** The host once the queue is written out. *)
Definition drained (h : host) : host :=
  set_log {| logfile := logfile (log h);
             xml := xml (log h) ++ serial_lines (unicodedata_category h) (queue (log h));
             queue := [];
             logfile_open := logfile_open (log h) |} h.

(** The host after [events] were written and the queue became [waiting],
    with [printed] on the standard error and [measured] elapsed times
    read. *)
Definition logged (events : list sax) (waiting : list serial_item) (printed : list string)
    (measured : nat) (h h' : host) : Prop :=
  beyond_log h' = beyond_log h
  /\ stdout h' = stdout h
  /\ timings h' = List.skipn measured (timings h)
  /\ stderr h' = stderr h ++ printed
  /\ logfile (log h') = logfile (log h)
  /\ logfile_open (log h') = logfile_open (log h)
  /\ queue (log h') = waiting
  /\ xml (log h') = xml (log h) ++ events.

(** The events that open a scope. *)
Definition scope_head (message : string) (attributes : gmap string string) : list sax :=
  [StartElement "nest" ∅; StartElement "head" attributes; Characters message;
   EndElement "head"].

(** The events that close a scope whose body took [seconds]. *)
Definition scope_foot (seconds : string) : list sax :=
  line_element ("(" +:+ seconds +:+ " seconds)") ∅ ++ [EndElement "nest"].

(** ** Machines of the command line *)

(** The directory in which [Machine] makes its directories. *)
Definition tmp_dir (h : host) : string := dict_get (environ h) "TMPDIR" (tempdir h).

(** A machine as [create_machine] builds it from a start command. *)
Definition built_from (h : host) (cmd : string) (m : Machine.t) : Prop :=
  Machine.script m = cmd
  /\ Machine.name m = Machine.init_name (Driver.startCommand_args cmd)
  /\ Machine.state_dir m = Machine.path_join (tmp_dir h) ("vm-state-" +:+ Machine.name m)
  /\ Machine.shared_dir m = Machine.path_join (tmp_dir h) "xchg-shared"
  /\ Machine.booted m = false /\ Machine.connected m = false
  /\ Machine.pid m = None /\ Machine.monitor m = None /\ Machine.shell m = None
  /\ Machine.allow_reboot m = false.

(** The directories made for the machines, in the order of the calls. *)
Definition dirs_of (ms : list Machine.t) : list string :=
  flat_map (fun m => [Machine.state_dir m; Machine.shared_dir m]) ms.

(** An interpreter that takes the text "script" for the given script
    and any other text for bindings. *)
Definition interpreter_of (script : M Driver.state unit) : Driver.interpreter :=
  {| Driver.exec := fun src => if bool_decide (src = "script") then script else ret tt;
     Driver.repl := ret tt |}.

(** Arguments that name a disk image and no interface for it. *)
Definition hda_without_interface (start_command : option string) : Machine.Args :=
  {| Machine.arg_name := None; Machine.arg_startCommand := start_command;
     Machine.arg_netBackendArgs := None; Machine.arg_netFrontendArgs := None;
     Machine.arg_hda := Some "disk.img"; Machine.arg_hdaInterface := None;
     Machine.arg_cdrom := None; Machine.arg_usb := None; Machine.arg_bios := None;
     Machine.arg_qemuFlags := None; Machine.arg_log := true;
     Machine.arg_allowReboot := None; Machine.arg_redirectSerial := None |}.

(** ** The run of the driver *)

(** Every switch of [VLANS] starts: it answers, and the [ctl] entry of
    its control socket is there. *)
Definition switches_start (h : host) (vlans : string) : Prop :=
  Forall (fun nr => vde_switch h (abspath h ("./vde" +:+ nr +:+ ".ctl")) = Returns true)
    (fromkeys (split vlans)).

(** The switch that [create_vlan] starts for a network. *)
Definition vlan_of (h : host) (nr : string) : Driver.vlan :=
  let socket := abspath h ("./vde" +:+ nr +:+ ".ctl") in
  {| Driver.vlan_nr := nr;
     Driver.vde_socket := socket;
     Driver.vde_process :=
       {| popen_args := Text.join " " ["vde_switch"; "-s"; socket; "--dirmode"; "0777"];
          popen_cwd := abspath h ".";
          popen_env := environ h |} |}.

Definition vlan_message (nr : string) : string := "starting VDE switch for network " +:+ nr.

(** The host [h1] and what [set_up] returns, from the host [h] on which
    the driver was started. *)
Definition set_up_done (h : host) (vlans : string) (vm_scripts : list string)
    (vs : list Driver.vlan) (ms : list Machine.t) (h1 : host) : Prop :=
  let nrs := fromkeys (split vlans) in
  vs = map (vlan_of h) nrs
  /\ Forall2 (built_from h) vm_scripts ms
  /\ (forall key, Text.startswith key "QEMU_VDE_SOCKET_" = false ->
                  environ h1 !! key = environ h !! key)
  /\ (tempdir h1, abspath h1, launch h1, vde_switch h1, unicodedata_category h1,
      timings h1, stdout h1, slept h1, killed h1)
     = (tempdir h, abspath h, launch h, vde_switch h, unicodedata_category h,
        timings h, stdout h, slept h, killed h)
  /\ stderr h1 = stderr h ++ map vlan_message nrs
  /\ spawned h1 = spawned h ++ map Driver.vde_process vs
  /\ made_dirs h1 = made_dirs h ++ dirs_of ms
  /\ nr_tests h1 = 0 /\ nr_succeeded h1 = 0
  /\ log h1 = {| logfile := dict_get (environ h) "LOGFILE" "/dev/null";
                 xml := [StartDocument; StartElement "logfile" ∅]
                        ++ flat_map (fun nr => line_element (vlan_message nr) ∅) nrs;
                 queue := [];
                 logfile_open := true |}.

(** The log and the standard error only grew. *)
Definition grows (h h' : host) : Prop :=
  (exists printed, stderr h' = stderr h ++ printed)
  /\ (exists events, xml (log h') = xml (log h) ++ events).

(** The log and the standard error grew, and the error with the given
    text was logged on the way: printed, and written as a [line]
    element. *)
Definition error_within (text : string) (h h' : host) : Prop :=
  (exists printed printed',
      stderr h' = stderr h ++ printed ++ ["error: " +:+ text] ++ printed')
  /\ (exists events events',
        xml (log h') = xml (log h) ++ events
                       ++ line_element ("error: " +:+ text) ∅ ++ events').

(** A body of a subtest that leaves the machines and the counters of
    the tests alone, and only adds to the log and the standard error. *)
Definition undisturbed (s s' : Driver.state) : Prop :=
  s'.1 = s.1
  /\ nr_tests s'.2 = nr_tests s.2
  /\ nr_succeeded s'.2 = nr_succeeded s.2
  /\ grows s.2 s'.2.

(** A body that raises [RuntimeError(message)], wherever it runs. *)
Definition raises_RuntimeError (body : M Driver.state unit) (message : string) : Prop :=
  forall s, exists s',
    body s = (Raises (PyException "RuntimeError" message), s') /\ undisturbed s s'.

(** A body that passes, wherever it runs. *)
Definition passes (body : M Driver.state unit) : Prop :=
  forall s, exists s', body s = (Returns tt, s') /\ undisturbed s s'.

(** A script of two subtests, one whose body raises [RuntimeError] and
    one whose body passes, in either order. *)
Definition one_raising_one_passing (script : M Driver.state unit) (message : string)
  : Prop :=
  exists a b raising passing,
    raises_RuntimeError raising message
    /\ passes passing
    /\ (script = (Driver.subtest a raising ;; Driver.subtest b passing)
        \/ script = (Driver.subtest a passing ;; Driver.subtest b raising)).

(** What a subtest scope does around its body. *)
Definition subtest_scope_law {St} `{HasHost St}
    (name : string) (body : M St unit) (s : St) : Prop :=
  exists s1,
    subtest_entered name s s1
    /\ nr_tests (the_host s1) = nr_tests (the_host s) + 1
    /\ nr_succeeded (the_host s1) = nr_succeeded (the_host s)
    /\ match body s1 with
       | (Returns _, s2) =>
           exists s3,
             Driver.subtest name body s = (Returns tt, s3)
             (* the scope touches the host alone *)
             /\ s3 = with_host (the_host s3) s2
             /\ scope_closed
                  (set_nr_succeeded (nr_succeeded (the_host s2) + 1) (the_host s2))
                  (the_host s3)
             /\ nr_tests (the_host s3) = nr_tests (the_host s2)
             /\ nr_succeeded (the_host s3) = nr_succeeded (the_host s2) + 1
       | (Raises e, s2) =>
           if is_Exception e then
             exists h2' s3 seconds,
               Driver.subtest name body s = (Returns tt, s3)
               /\ s3 = with_host (the_host s3) s2
               (* the error is logged: printed, and written as a line *)
               /\ logged (serial_lines (unicodedata_category (the_host s2))
                            (queue (log (the_host s2)))
                          ++ line_element ("error: " +:+ str_of_exn e) ∅)
                    [] ["error: " +:+ str_of_exn e] 0 (the_host s2) h2'
               (* then the scope is closed *)
               /\ logged (scope_foot seconds) [] ["(" +:+ seconds +:+ " seconds)"] 1
                    h2' (the_host s3)
               /\ nr_tests (the_host s3) = nr_tests (the_host s2)
               /\ nr_succeeded (the_host s3) = nr_succeeded (the_host s2)
               /\ stderr (the_host s3) =
                  stderr (the_host s2)
                  ++ ["error: " +:+ str_of_exn e; "(" +:+ seconds +:+ " seconds)"]
           else Driver.subtest name body s = (Raises e, s2)
       | (Blocks, s2) => Driver.subtest name body s = (Blocks, s2)
       end.

(** The driver run on a script ends normally, with exit status 0.  The
    summary "1 out of 2 tests succeeded" is the last line that the
    tests log: after it come only the scope of the at-exit hook and the
    end of the document.  The error of the failed subtest was logged
    before. *)
Definition ends_with_summary_1_of_2
    (py : Driver.interpreter) (vm_scripts : list string) (h : host) (message : string)
  : Prop :=
  exists h' printed events seconds finished,
    Driver.main py vm_scripts h = (Returns tt, h')
    /\ Driver.exit_code (Driver.main py vm_scripts h).1 = Some 0
    /\ nr_tests h' = 2 /\ nr_succeeded h' = 1
    /\ stderr h' = stderr h ++ printed
                   ++ [summary_1_of_2; "cleaning up"; "(" +:+ seconds +:+ " seconds)"]
    /\ In ("error: " +:+ message) printed
    /\ xml (log h') = events ++ line_element summary_1_of_2 ∅
                      ++ scope_head "cleaning up" ∅ ++ scope_foot seconds
                      ++ [EndElement "logfile"; EndDocument]
    /\ (exists before after,
          events = before ++ line_element ("error: " +:+ message) ∅ ++ after)
    /\ logfile_open (log h') = false
    /\ (exists before,
          stdout h' = before ++ ["test script finished in " +:+ finished +:+ "s"]).

(** The host of the examples, with one network. *)
Definition example_driver_host : host :=
  set_environ (<["VLANS" := "1"]> (environ example_host)) example_host.

(** The environment once the sockets of the switches are exported, one
    after the other. *)
Definition exported (environment : gmap string string) (vs : list Driver.vlan)
  : gmap string string :=
  foldl (fun environment v =>
           <["QEMU_VDE_SOCKET_" +:+ Driver.vlan_nr v := Driver.vde_socket v]> environment)
        environment vs.

(** ** The status line of a command *)

(** The mark that [execute] makes the shell print before the exit
    status. *)
Definition sentinel : string := "|!EOF".

(** What [execute] sends to the shell for a command. *)
Definition wrapped (command : string) : string :=
  "( " +:+ command +:+ " ); echo '|!EOF' $?" +:+ newline.

(** The text is a run of decimal digits, at least one. *)
Definition is_number (s : string) : bool :=
  Text.truthy s && forallb Re.is_digit (list_ascii_of_string s).

(** [sub in s] *)
Fixpoint occurs (sub s : string) : bool :=
  Text.startswith s sub
  || match s with
     | String _ s' => occurs sub s'
     | "" => false
     end.

(** The text up to its first newline. *)
Fixpoint first_line (s : string) : string :=
  match s with
  | "" => ""
  | String c s' => if Re.in_class Re.Dot c then String c (first_line s') else ""
  end.

(** [''.join(chunks)] *)
Definition concat_text (chunks : list string) : string := foldr String.append "" chunks.


(** Traffic of an open socket in which a character is a byte: every
    segment delivered is non-empty and ASCII. *)
Definition ascii_text (s : string) : bool :=
  forallb (fun c => (nat_of_ascii c <? 128)%nat) (list_ascii_of_string s).

Definition ascii_traffic (ch : Machine.channel) : Prop :=
  Forall (fun segment => Text.truthy segment = true /\ ascii_text segment = true)
         (Machine.incoming ch).

(** ** The life of a machine *)

(** The monitor channel right after QEMU connected. *)
Definition monitor_feed (vm : guest) : Machine.channel :=
  {| Machine.incoming := guest_monitor vm; Machine.sent := [] |}.

(** The shell channel right after QEMU connected. *)
Definition shell_feed (vm : guest) : Machine.channel :=
  {| Machine.incoming := guest_shell vm; Machine.sent := [] |}.

(** [m'] is [m] later in its life: name, script, directories and the
    reboot flag are the same, what was booted or connected still is, and
    when connected implied booted it still does. *)
Definition later (m m' : Machine.t) : Prop :=
  Machine.name m' = Machine.name m
  /\ Machine.script m' = Machine.script m
  /\ Machine.state_dir m' = Machine.state_dir m
  /\ Machine.shared_dir m' = Machine.shared_dir m
  /\ Machine.allow_reboot m' = Machine.allow_reboot m
  /\ (Machine.booted m = true -> Machine.booted m' = true)
  /\ (Machine.connected m = true -> Machine.connected m' = true)
  /\ ((Machine.connected m = true -> Machine.booted m = true) ->
      Machine.connected m' = true -> Machine.booted m' = true).

(** A computation that leaves the machine later in its life, however it
    ends. *)
Definition steady {A} (c : M Machine.state A) : Prop :=
  forall s, later s.1 (c s).2.1.

(** The methods of a machine that a test script calls, results
    dropped. *)
Inductive verb :=
| Start
| Connect
| Execute (command : string)
| Succeed (commands : list string)
| Fail (commands : list string)
| Systemctl (q : string) (user : option string)
| StartJob (jobname : string) (user : option string)
| StopJob (jobname : string) (user : option string)
| WaitForOpenPort (port : Z)
| WaitForClosedPort (port : Z)
| SendMonitorCommand (command : string)
| SendKey (key : string)
| ForwardPort (host_port guest_port : Z)
| Block
| Unblock.

Definition call_verb (v : verb) : M Machine.state unit :=
  match v with
  | Start => Machine.start
  | Connect => Machine.connect
  | Execute command => Machine.execute command ;; ret tt
  | Succeed commands => Machine.succeed commands ;; ret tt
  | Fail commands => Machine.fail commands
  | Systemctl q user => Machine.systemctl q user ;; ret tt
  | StartJob jobname user => Machine.start_job jobname user ;; ret tt
  | StopJob jobname user => Machine.stop_job jobname user ;; ret tt
  | WaitForOpenPort port => Machine.wait_for_open_port port
  | WaitForClosedPort port => Machine.wait_for_closed_port port
  | SendMonitorCommand command => Machine.send_monitor_command command ;; ret tt
  | SendKey key => Machine.send_key key
  | ForwardPort host_port guest_port => Machine.forward_port host_port guest_port
  | Block => Machine.block
  | Unblock => Machine.unblock
  end.

(** A computation that, run on a booted machine, leaves it later in its
    life and booted. *)
Definition steady_when_booted {A} (c : M Machine.state A) : Prop :=
  forall s, Machine.booted s.1 = true ->
            later s.1 (c s).2.1 /\ Machine.booted (c s).2.1 = true.

(** What [connect] does once [start] has returned. *)
Definition greet_shell : M Machine.state unit :=
  Machine.shell_recv 1024 ;;
  Machine.log "connected to guest root shell" ;;
  seconds <- on_host elapsed ;;
  Machine.log ("(connecting took " +:+ seconds +:+ " seconds)") ;;
  Machine.update_self (Machine.set_connected true).

(** The process [start] spawns for a machine. *)
Definition child_of (m : Machine.t) (h : host) : popen :=
  {| popen_args := Machine.script m; popen_cwd := Machine.state_dir m;
     popen_env := Machine.start_environment m h |}.

(** The machine once [start] has made its sockets and spawned its
    process. *)
Definition spawned_machine (m : Machine.t) (h : host) : Machine.t :=
  Machine.set_process (Some (child_of m h))
    (Machine.set_shell_socket
       (Machine.create_socket (Machine.path_join (Machine.state_dir m) "shell"))
       (Machine.set_monitor_socket
          (Machine.create_socket (Machine.path_join (Machine.state_dir m) "monitor")) m)).


(** The traffic of a machine and of every VM its host can launch is
    ASCII. *)
Definition ascii_feed (segments : list string) : Prop :=
  ascii_traffic {| Machine.incoming := segments; Machine.sent := [] |}.

Definition ascii_machine (s : Machine.state) : Prop :=
  (forall ch, Machine.monitor s.1 = Some ch -> ascii_traffic ch)
  /\ (forall ch, Machine.shell s.1 = Some ch -> ascii_traffic ch)
  /\ (forall cmd vm, launch s.2 cmd = Some vm ->
                     ascii_feed (guest_monitor vm) /\ ascii_feed (guest_shell vm)).

(** The verbs one after the other, as statements of a test script. *)
Definition call_verbs (verbs : list verb) : M Machine.state unit :=
  for_each verbs call_verb.

(** ** The at-exit hook *)

(** What [clean_up] logs for a machine and the process it kills, for
    the machines that have a pid. *)
Definition kills (ms : list Machine.t) : list (string * popen) :=
  flat_map
    (fun m =>
       match Machine.pid m, Machine.process m with
       | Some pid, Some process =>
           [("killing " +:+ Machine.name m +:+ " (pid " +:+ Text.of_int pid +:+ ")",
             process)]
       | _, _ => []
       end) ms.

(** A machine that has a pid has the process [start] spawned. *)
Definition pid_of_a_process (m : Machine.t) : Prop :=
  Machine.pid m = None \/ exists process, Machine.process m = Some process.

(** ** Units and jobs *)

(** Every single quote of the text comes right after a backslash,
    [previous] being the character in front of the text. *)
Fixpoint quoted_after (previous : ascii) (s : string) : bool :=
  match s with
  | "" => true
  | String c s' =>
      (if decide (c = "'"%char) then bool_decide (previous = "092"%char) else true)
      && quoted_after c s'
  end.

(** The command line that [systemctl] hands to [execute]. *)
Definition systemctl_command (q : string) (user : option string) : string :=
  match user with
  | Some user =>
      "su -l " +:+ user +:+ " -c $'XDG_RUNTIME_DIR=/run/user/`id -u` systemctl --user "
      +:+ Text.replace q "'" (backslash +:+ "'") +:+ "'"
  | None => "systemctl " +:+ q
  end.

(** ** Network verbs *)


(** * Properties *)

(** ** Sanitising *)

Lemma category_name_starts_with_C c :
  Text.startswith (category_name c) "C" = is_other c.
Proof. destruct c; reflexivity. Qed.

Lemma first_char_C c :
  Logger.first_char (category_name c) = Some "C"%char <-> is_other c = true.
Proof. destruct c; simpl; split; intros E; try reflexivity; discriminate E. Qed.

Lemma sanitise_step category ch rest :
  Logger.sanitise category (String ch rest) =
  if kept category ch then String ch (Logger.sanitise category rest)
  else Logger.sanitise category rest.
Proof.
  unfold kept. rewrite category_name_starts_with_C. simpl.
  case_bool_decide as E.
  - destruct (is_other (category ch)) eqn:O; [|reflexivity].
    exfalso. apply E. apply first_char_C. exact O.
  - destruct (is_other (category ch)) eqn:O; [reflexivity|].
    exfalso. assert (F : Logger.first_char (category_name (category ch)) = Some "C"%char).
    { destruct (decide (Logger.first_char (category_name (category ch)) = Some "C"%char));
        [assumption | contradiction]. }
    apply first_char_C in F. congruence.
Qed.

Lemma sanitise_is_filter category s :
  list_ascii_of_string (Logger.sanitise category s) =
  List.filter (kept category) (list_ascii_of_string s).
Proof.
  induction s as [|ch rest IH]; [reflexivity|].
  rewrite sanitise_step. simpl.
  destruct (kept category ch); simpl; rewrite IH; reflexivity.
Qed.

Lemma sanitise_fixes_kept category s :
  forallb (kept category) (list_ascii_of_string s) = true ->
  Logger.sanitise category s = s.
Proof.
  induction s as [|ch rest IH]; [reflexivity|].
  simpl forallb. intros [K R]%andb_prop.
  rewrite sanitise_step, K, (IH R). reflexivity.
Qed.

(** C8: the text [sanitise] returns holds no code point whose general
    category begins with C, it is the text given with exactly those code
    points removed (all others stay, in their order), and sanitising a
    second time changes nothing. *)
Theorem sanitise_strips_other_and_is_idempotent
    (category : ascii -> general_category) (s : string) :
  Forall (fun ch => Text.startswith (category_name (category ch)) "C" = false)
         (list_ascii_of_string (Logger.sanitise category s))
  /\ list_ascii_of_string (Logger.sanitise category s) =
     List.filter (fun ch => negb (Text.startswith (category_name (category ch)) "C"))
                 (list_ascii_of_string s)
  /\ Logger.sanitise category (Logger.sanitise category s) = Logger.sanitise category s.
Proof.
  pose proof (sanitise_is_filter category s) as F.
  assert (K : forallb (kept category)
                (list_ascii_of_string (Logger.sanitise category s)) = true).
  { rewrite F. apply forallb_forall. intros ch [_ Hk]%filter_In. exact Hk. }
  split; [|split].
  - apply List.Forall_forall. intros ch Hin.
    rewrite forallb_forall in K. specialize (K ch Hin).
    unfold kept in K. destruct (Text.startswith _ _); [discriminate K|reflexivity].
  - exact F.
  - apply sanitise_fixes_kept. exact K.
Qed.

(** ** Reasoning about computations *)

Lemma returns_ret {St A} (a : A) (s : St) (Q : A -> St -> Prop) :
  Q a s -> returns (ret a) s Q.
Proof. intros HQ. exists a, s. split; [reflexivity | exact HQ]. Qed.

Lemma returns_modify {St} (f : St -> St) (s : St) (Q : unit -> St -> Prop) :
  Q tt (f s) -> returns (modify f) s Q.
Proof. intros HQ. exists tt, (f s). split; [reflexivity | exact HQ]. Qed.

Lemma returns_get {St} (s : St) (Q : St -> St -> Prop) :
  Q s s -> returns get s Q.
Proof. intros HQ. exists s, s. split; [reflexivity | exact HQ]. Qed.

Lemma returns_bind {St A B} (m : M St A) (f : A -> M St B) s (Q : B -> St -> Prop) :
  returns m s (fun a s' => returns (f a) s' Q) -> returns (bind m f) s Q.
Proof.
  intros (a & s' & Hm & b & s'' & Hf & HQ).
  exists b, s''. split; [|exact HQ].
  unfold bind. rewrite Hm. exact Hf.
Qed.

Lemma returns_weaken {St A} (m : M St A) s (P Q : A -> St -> Prop) :
  returns m s P -> (forall a s', P a s' -> Q a s') -> returns m s Q.
Proof. intros (a & s' & Hm & HP) HPQ. exists a, s'. split; [exact Hm | auto]. Qed.

Lemma returns_on_host {St} `{HasHost St} {A} (m : M host A) (s : St)
    (Q : A -> St -> Prop) :
  returns m (the_host s) (fun a h' => Q a (with_host h' s)) -> returns (on_host m) s Q.
Proof.
  intros (a & h' & Hm & HQ). exists a, (with_host h' s).
  split; [|exact HQ]. unfold on_host. rewrite Hm. reflexivity.
Qed.

Lemma bind_returns {St A B} (m : M St A) (f : A -> M St B) s a s' :
  m s = (Returns a, s') -> bind m f s = f a s'.
Proof. intros Hm. unfold bind. rewrite Hm. reflexivity. Qed.

Lemma bind_raises {St A B} (m : M St A) (f : A -> M St B) s e s' :
  m s = (Raises e, s') -> bind m f s = (Raises e, s').
Proof. intros Hm. unfold bind. rewrite Hm. reflexivity. Qed.

Lemma bind_blocks {St A B} (m : M St A) (f : A -> M St B) s s' :
  m s = (Blocks, s') -> bind m f s = (Blocks, s').
Proof. intros Hm. unfold bind. rewrite Hm. reflexivity. Qed.

(** ** What logging leaves alone *)

Lemma xml_only_refl h : xml_only h h.
Proof. repeat split. exists []. symmetry. apply app_nil_r. Qed.

Lemma xml_only_trans h1 h2 h3 : xml_only h1 h2 -> xml_only h2 h3 -> xml_only h1 h3.
Proof.
  intros (B1 & E1 & T1 & ev1 & X1) (B2 & E2 & T2 & ev2 & X2).
  repeat split; try congruence.
  exists (ev1 ++ ev2). rewrite X2, X1. symmetry. apply app_assoc.
Qed.

Lemma log_line_returns message attributes h :
  returns (Logger.log_line message attributes) h
    (fun _ h' =>
       beyond_log h' = beyond_log h /\ stderr h' = stderr h /\ timings h' = timings h
       /\ queue (log h') = queue (log h)
       /\ xml (log h') = xml (log h) ++ [StartElement "line" attributes;
                                         Characters message; EndElement "line"]).
Proof.
  eexists tt, _. split; [reflexivity|]. simpl. repeat split.
  rewrite <- !app_assoc. reflexivity.
Qed.

Lemma drain_turns_returns n h :
  returns (Logger.drain_turns n) h (fun _ h' => xml_only h h').
Proof.
  revert h. induction n as [|n IH]; intros h.
  - apply returns_ret, xml_only_refl.
  - cbn [Logger.drain_turns]. apply returns_bind.
    unfold Logger.get_nowait at 1, returns.
    destruct (queue (log h)) as [|item rest] eqn:Q.
    + eexists None, h. split; [reflexivity|]. apply returns_ret, xml_only_refl.
    + eexists (Some item), _. split; [reflexivity|].
      apply returns_bind, returns_get, returns_bind.
      eapply returns_weaken; [apply log_line_returns|].
      intros u1 h1 (B1 & E1 & T1 & _ & X1).
      eapply returns_weaken; [apply IH|].
      intros u2 h2 X2. eapply xml_only_trans; [|exact X2].
      repeat split; try assumption. eexists. exact X1.
Qed.

Lemma drain_log_queue_returns h :
  returns Logger.drain_log_queue h (fun _ h' => xml_only h h').
Proof. apply returns_bind, returns_get, drain_turns_returns. Qed.

(** [log.log(message, attributes)] always returns: the message went to
    stderr (with the machine prefix), a [line] element closes the XML
    written so far, nothing else changed. *)
Lemma log_returns message attributes h :
  returns (Logger.log message attributes) h
    (fun _ h' =>
       beyond_log h' = beyond_log h
       /\ timings h' = timings h
       /\ stderr h' = stderr h ++ [Logger.maybe_prefix message attributes]
       /\ exists drained,
           xml (log h') = xml (log h) ++ drained
                          ++ [StartElement "line" attributes; Characters message;
                              EndElement "line"]).
Proof.
  unfold Logger.log. apply returns_bind, returns_modify, returns_bind.
  eapply returns_weaken; [apply drain_log_queue_returns|].
  intros u1 h1 (B1 & E1 & T1 & ev1 & X1).
  eapply returns_weaken; [apply log_line_returns|].
  intros u2 h2 (B2 & E2 & T2 & _ & X2).
  unfold beyond_log in *. simpl in B1, E1, T1, X1.
  split; [congruence|]. split; [congruence|]. split; [congruence|].
  exists ev1. rewrite X2, X1. rewrite <- app_assoc. reflexivity.
Qed.

(** ** Scopes of the logger *)

Lemma elapsed_returns h :
  returns elapsed h
    (fun _ h' => beyond_log h' = beyond_log h /\ stderr h' = stderr h /\ log h' = log h).
Proof.
  unfold elapsed, returns. destruct (timings h) as [|t rest].
  - eexists _, _. split; [reflexivity|]. repeat split.
  - eexists _, _. split; [reflexivity|]. repeat split.
Qed.

Lemma scope_opening_returns message attributes h :
  returns
    (eprint (Logger.maybe_prefix message attributes) ;;
     Logger.emit (StartElement "nest" ∅) ;;
     Logger.emit (StartElement "head" attributes) ;;
     Logger.emit (Characters message) ;;
     Logger.emit (EndElement "head") ;;
     Logger.drain_log_queue) h
    (fun _ h1 => scope_opened message attributes h h1).
Proof.
  do 5 (apply returns_bind, returns_modify).
  eapply returns_weaken; [apply drain_log_queue_returns|].
  intros u h1 (B & E & T & ev & X).
  unfold scope_opened, beyond_log in *. simpl in B, E, T, X.
  split; [congruence|]. split; [congruence|]. split; [congruence|].
  exists ev. rewrite X. rewrite <- !app_assoc. reflexivity.
Qed.

Lemma scope_closing_returns h :
  returns
    (Logger.drain_log_queue ;;
     seconds <- elapsed ;;
     Logger.log ("(" +:+ seconds +:+ " seconds)") ∅ ;;
     Logger.emit (EndElement "nest")) h
    (fun _ h3 => scope_closed h h3).
Proof.
  apply returns_bind.
  eapply returns_weaken; [apply drain_log_queue_returns|].
  intros u1 h1 (B1 & E1 & T1 & ev1 & X1).
  apply returns_bind.
  eapply returns_weaken; [apply elapsed_returns|].
  intros seconds h2 (B2 & E2 & L2).
  apply returns_bind.
  eapply returns_weaken; [apply log_returns|].
  intros u3 h3 (B3 & T3 & E3 & ev3 & X3).
  apply returns_modify.
  unfold scope_closed, beyond_log in *. simpl.
  split; [congruence|].
  exists seconds. split.
  - rewrite E3, E2, E1. reflexivity.
  - exists (ev1 ++ ev3). rewrite X3, L2, X1. rewrite <- !app_assoc. reflexivity.
Qed.

(** The three ways in which a scope ends: as its body does. *)
Lemma nested_spec {St} `{HasHost St} {A} message attributes (body : M St A) (s : St) :
  exists h1,
    scope_opened message attributes (the_host s) h1
    /\ match body (with_host h1 s) with
       | (Returns a, s2) =>
           exists h3, scope_closed (the_host s2) h3
                      /\ Logger.nested message attributes body s
                         = (Returns a, with_host h3 s2)
       | (Raises e, s2) => Logger.nested message attributes body s = (Raises e, s2)
       | (Blocks, s2) => Logger.nested message attributes body s = (Blocks, s2)
       end.
Proof.
  destruct (scope_opening_returns message attributes (the_host s))
    as (u & h1 & Hopen & Hopened).
  exists h1. split; [exact Hopened|].
  assert (Hstart : forall k : unit -> M St A,
             bind (on_host
                     (eprint (Logger.maybe_prefix message attributes) ;;
                      Logger.emit (StartElement "nest" ∅) ;;
                      Logger.emit (StartElement "head" attributes) ;;
                      Logger.emit (Characters message) ;;
                      Logger.emit (EndElement "head") ;;
                      Logger.drain_log_queue)) k s = k tt (with_host h1 s)).
  { intros k. apply bind_returns. unfold on_host. rewrite Hopen. destruct u. reflexivity. }
  unfold Logger.nested. rewrite Hstart.
  destruct (body (with_host h1 s)) as [[a|e|] s2] eqn:Hbody.
  - destruct (scope_closing_returns (the_host s2)) as (u3 & h3 & Hclose & Hclosed).
    exists h3. split; [exact Hclosed|].
    erewrite (bind_returns body); [|exact Hbody].
    erewrite bind_returns; [reflexivity|].
    unfold on_host. rewrite Hclose. destruct u3. reflexivity.
  - apply bind_raises. exact Hbody.
  - apply bind_blocks. exact Hbody.
Qed.

(** ** Subtests *)

Section Subtest.

Context {St : Type} `{HasHost St}.

Lemma subtest_spec (name : string) (body : M St unit) (s : St) :
  exists s1,
    subtest_entered name s s1
    /\ match body s1 with
       | (Returns _, s2) =>
           exists h3,
             scope_closed
               (set_nr_succeeded (nr_succeeded (the_host s2) + 1) (the_host s2)) h3
             /\ Driver.subtest name body s = (Returns tt, with_host h3 s2)
       | (Raises e, s2) =>
           if is_Exception e then
             exists h2' h3,
               error_logged e (the_host s2) h2'
               /\ scope_closed h2' h3
               /\ Driver.subtest name body s = (Returns tt, with_host h3 s2)
           else Driver.subtest name body s = (Raises e, s2)
       | (Blocks, s2) => Driver.subtest name body s = (Blocks, s2)
       end.
Proof.
  unfold Driver.subtest.
  match goal with
  | |- context [Logger.nested name ∅ ?b s] =>
      destruct (nested_spec name ∅ b s) as (h1 & Hopened & Hbody)
  end.
  exists (with_host (set_nr_tests (nr_tests h1 + 1) h1) s).
  split; [exists h1; split; [exact Hopened | reflexivity]|].
  unfold bind at 1, on_host at 1, modify at 1 in Hbody.
  rewrite the_host_with_host, with_host_with_host in Hbody.
  unfold try_except, bind at 1 in Hbody.
  destruct (body (with_host (set_nr_tests (nr_tests h1 + 1) h1) s))
    as [[[]|e|] s2] eqn:Eb.
  - unfold on_host, modify in Hbody.
    destruct Hbody as (h3 & Hclosed & Heq).
    rewrite with_host_with_host in Heq.
    rewrite the_host_with_host in Hclosed.
    exists h3. split; [exact Hclosed | exact Heq].
  - destruct (is_Exception e) eqn:Ee; [|exact Hbody].
    destruct (log_returns ("error: " +:+ str_of_exn e) ∅ (the_host s2))
      as ([] & h2' & Hlog & B & T & E & X).
    unfold on_host in Hbody. rewrite Hlog in Hbody.
    destruct Hbody as (h3 & Hclosed & Heq).
    rewrite the_host_with_host in Hclosed.
    rewrite with_host_with_host in Heq.
    exists h2', h3. split; [|split; [exact Hclosed | exact Heq]].
    split; [exact B|]. split; [exact E | exact X].
  - exact Hbody.
Qed.

Lemma beyond_log_counters h h' :
  beyond_log h' = beyond_log h ->
  nr_tests h' = nr_tests h /\ nr_succeeded h' = nr_succeeded h.
Proof. unfold beyond_log. intros E. split; congruence. Qed.

Lemma scope_opened_counters message attributes h h1 :
  scope_opened message attributes h h1 ->
  nr_tests h1 = nr_tests h /\ nr_succeeded h1 = nr_succeeded h.
Proof. intros (B & _). apply beyond_log_counters, B. Qed.

Lemma scope_closed_counters h2 h3 :
  scope_closed h2 h3 -> nr_tests h3 = nr_tests h2 /\ nr_succeeded h3 = nr_succeeded h2.
Proof. intros (B & _). apply beyond_log_counters, B. Qed.

Lemma subtest_counts_fairly name (body : M St unit) :
  counts_fairly body -> counts_fairly (Driver.subtest name body).
Proof.
  intros Hbody s.
  destruct (subtest_spec name body s) as (s1 & (h1 & Hopened & ->) & Hcase).
  apply scope_opened_counters in Hopened as [Ht1 Hs1].
  specialize (Hbody (with_host (set_nr_tests (nr_tests h1 + 1) h1) s)).
  rewrite the_host_with_host in Hbody. simpl in Hbody.
  destruct (body (with_host (set_nr_tests (nr_tests h1 + 1) h1) s))
    as [[[]|e|] s2]; simpl in Hbody.
  - destruct Hcase as (h3 & [Ht3 Hs3]%scope_closed_counters & ->).
    simpl. rewrite the_host_with_host. simpl in Ht3, Hs3. lia.
  - destruct (is_Exception e).
    + destruct Hcase as (h2' & h3 & (B & _) & [Ht3 Hs3]%scope_closed_counters & ->).
      apply beyond_log_counters in B as [Ht2 Hs2].
      simpl. rewrite the_host_with_host. lia.
    + rewrite Hcase. simpl. lia.
  - rewrite Hcase. simpl. lia.
Qed.

Lemma for_each_counts_fairly {X} (xs : list X) (body : X -> M St unit) :
  Forall (fun x => counts_fairly (body x)) xs -> counts_fairly (for_each xs body).
Proof.
  induction 1 as [|x xs Hx _ IH]; intros s.
  - simpl. lia.
  - simpl. unfold bind. specialize (Hx s).
    destruct (body x s) as [[[]|e|] s1]; simpl in Hx |- *; try lia.
    specialize (IH s1). simpl in IH. lia.
Qed.

(** C10: after any sequence of subtest scopes whose bodies leave the
    counters to [subtest] (each body may return, raise anything or never
    return), [0 <= nr_succeeded <= nr_tests] still holds if it held
    before, and neither counter is lower than it was. *)
Theorem subtest_counters_invariant (scopes : list (string * M St unit)) (s : St) :
  Forall (fun scope => counts_fairly scope.2) scopes ->
  let s' := (for_each scopes (fun scope => Driver.subtest scope.1 scope.2) s).2 in
  (0 <= nr_succeeded (the_host s) <= nr_tests (the_host s) ->
   0 <= nr_succeeded (the_host s') <= nr_tests (the_host s'))
  /\ nr_tests (the_host s) <= nr_tests (the_host s')
  /\ nr_succeeded (the_host s) <= nr_succeeded (the_host s').
Proof.
  intros Hscopes s'.
  assert (Hfair : counts_fairly
                    (for_each scopes (fun scope => Driver.subtest scope.1 scope.2))).
  { apply for_each_counts_fairly.
    eapply Forall_impl; [exact Hscopes|].
    intros [name body] Hb. apply subtest_counts_fairly, Hb. }
  specialize (Hfair s). simpl in Hfair. fold s' in Hfair. lia.
Qed.

End Subtest.

(** ** A script of two subtests *)

Lemma counted_beyond_log h h' : beyond_log h' = beyond_log h -> counted 0 0 h h'.
Proof.
  unfold beyond_log, counted. intros E.
  assert (Ht : nr_tests h' = nr_tests h) by congruence.
  assert (Hs : nr_succeeded h' = nr_succeeded h) by congruence.
  split; [congruence | lia].
Qed.

Lemma counted_trans a b c d h1 h2 h3 :
  counted a b h1 h2 -> counted c d h2 h3 -> counted (a + c) (b + d) h1 h3.
Proof. unfold counted. intros (E1 & T1 & S1) (E2 & T2 & S2). repeat split; try lia; congruence. Qed.

Section TwoSubtests.

Context {St : Type} `{HasHost St}.


(** A subtest whose body just returns: one more test, one more success. *)
Lemma subtest_passing name (s : St) :
  exists h3,
    Driver.subtest name (ret tt) s = (Returns tt, with_host h3 s)
    /\ counted 1 1 (the_host s) h3
    /\ exists printed, stderr h3 = stderr (the_host s) ++ printed.
Proof.
  destruct (subtest_spec name (ret tt) s) as (s1 & (h1 & Hopened & ->) & Hcase).
  unfold ret at 1 in Hcase.
  destruct Hcase as (h3 & Hclosed & Heq).
  rewrite the_host_with_host in Hclosed.
  rewrite with_host_with_host in Heq.
  exists h3. split; [exact Heq|].
  destruct Hopened as (B1 & _ & E1 & _).
  destruct Hclosed as (B3 & seconds & E3 & _).
  split.
  - apply counted_beyond_log in B1, B3.
    unfold counted in *. simpl in B3.
    destruct B1 as (? & ? & ?), B3 as (? & ? & ?). repeat split; try lia; congruence.
  - eexists. rewrite E3. simpl. rewrite E1. rewrite <- !app_assoc. reflexivity.
Qed.

End TwoSubtests.

(** A machine built from a start command alone: the construction
    returns, the machine is not booted, the environment is as before. *)
Lemma create_machine_returns (s : string) (h : host) :
  returns (Driver.create_machine (Driver.startCommand_args s)) h
    (fun m h' =>
       environ h' = environ h
       /\ Machine.booted m = false
       /\ Machine.name m = Machine.init_name (Driver.startCommand_args s)).
Proof.
  eexists _, _. split.
  - unfold Driver.create_machine, Machine.init, Machine.create_dir, bind, get, modify, ret.
    cbn. reflexivity.
  - cbn. repeat split.
Qed.

Lemma create_machines_returns (vm_scripts : list string) (h : host) :
  returns (Driver.create_machines vm_scripts) h
    (fun ms h' =>
       environ h' = environ h /\ Forall (fun m => Machine.booted m = false) ms).
Proof.
  revert h. induction vm_scripts as [|s rest IH]; intros h.
  - apply returns_ret. split; [reflexivity | constructor].
  - cbn [Driver.create_machines]. apply returns_bind.
    eapply returns_weaken; [apply create_machine_returns|].
    intros m h1 (E1 & B1 & _). apply returns_bind.
    eapply returns_weaken; [apply IH|].
    intros ms h2 (E2 & B2). apply returns_ret.
    split; [congruence | constructor; assumption].
Qed.

(** The final [sync] skips the machines that are not up. *)
Lemma sync_skips_down_machines (ms : list Machine.t) (h : host) :
  Forall (fun m => Machine.booted m = false) ms ->
  Driver.for_machines
    (up <- Machine.is_up ;;
     if (up : bool) then Machine.execute "sync" ;; ret tt else ret tt) (ms, h)
  = (Returns tt, (ms, h)).
Proof.
  unfold Driver.for_machines. simpl.
  induction 1 as [|m ms Hm _ IH]; [reflexivity|].
  cbn [Driver.each_machine].
  unfold bind at 1, Machine.is_up at 1, bind at 1, Machine.self at 1, ret at 1.
  cbn [fst]. rewrite Hm. cbn [andb].
  change (ret tt (m, h)) with (Returns tt, (m, h)). cbv iota beta.
  rewrite IH. reflexivity.
Qed.

Lemma summary_text :
  Text.of_int 1 +:+ " out of " +:+ Text.of_int 2 +:+ " tests succeeded" = summary_1_of_2.
Proof. vm_compute. reflexivity. Qed.

(** ** The subtest scope (C6) *)

(** C6 as worded fails: [sys.exit(3)] in the body of a subtest is not
    swallowed.  It leaves the scope; the test was counted, and stderr
    holds the head of the scope and no error line. *)
Lemma subtest_lets_SystemExit_through :
  (Driver.subtest "a" (raise (SystemExit 3)) example_host).1 = Raises (SystemExit 3)
  /\ stderr (Driver.subtest "a" (raise (SystemExit 3)) example_host).2 = ["a"]
  /\ nr_tests (Driver.subtest "a" (raise (SystemExit 3)) example_host).2 = 1
  /\ nr_succeeded (Driver.subtest "a" (raise (SystemExit 3)) example_host).2 = 0
  /\ ~ swallows_whatever_is_raised example_host.
Proof.
  assert (E : (Driver.subtest "a" (raise (SystemExit 3)) example_host).1
              = Raises (SystemExit 3)) by (vm_compute; reflexivity).
  split; [exact E|].
  split; [vm_compute; reflexivity|].
  split; [vm_compute; reflexivity|].
  split; [vm_compute; reflexivity|].
  intros Hall. specialize (Hall (SystemExit 3)). rewrite E in Hall. discriminate Hall.
Qed.

Lemma subtest_counters_invariant_witness :
  let s' := (for_each [("a", raise (PyException "RuntimeError" "x")); ("b", ret tt)]
               (fun scope => Driver.subtest scope.1 scope.2) example_host).2 in
  (0 <= nr_succeeded (the_host example_host) <= nr_tests (the_host example_host) ->
   0 <= nr_succeeded (the_host s') <= nr_tests (the_host s'))
  /\ nr_tests (the_host example_host) <= nr_tests (the_host s')
  /\ nr_succeeded (the_host example_host) <= nr_succeeded (the_host s').
Proof.
  apply (subtest_counters_invariant
           [("a", raise (PyException "RuntimeError" "x")); ("b", ret tt)] example_host).
  constructor; [intros s; simpl; lia|].
  constructor; [intros s; simpl; lia|].
  constructor.
Defined.

(** ** Retry (C3) *)

Section Retry.

Context {St : Type} `{HasHost St}.

Lemma spaced_app now a b :
  spaced now (a ++ b) <-> spaced now a /\ spaced (after_calls now a) b.
Proof.
  revert now. induction a as [|c a IH]; intros now; simpl.
  - tauto.
  - rewrite IH. tauto.
Qed.

(** The loop of [retry] with [n] tries: either all [n] fail, or an
    earlier call decides. *)
Lemma retry_attempts_trace (fn : bool -> M St bool) (n : nat) (calls : list call) (s : St) :
  exists new s' (r : outcome bool),
    retry_attempts n (recorded fn) (calls, s) = (r, (calls ++ new, s'))
    /\ spaced (slept (the_host s)) new
    /\ ((r = Returns false /\ length new = n /\ Forall failed_attempt new
         /\ slept (the_host s') = after_calls (slept (the_host s)) new)
        \/ (exists failed final,
              new = failed ++ [final]
              /\ (length failed < n)%nat
              /\ Forall failed_attempt failed
              /\ call_last final = false
              /\ call_result final <> Returns false
              /\ r = match call_result final with
                     | Returns _ => Returns true
                     | Raises e => Raises e
                     | Blocks => Blocks
                     end)).
Proof.
  revert calls s. induction n as [|n IH]; intros calls s.
  - exists [], s, (Returns false). rewrite app_nil_r.
    split; [reflexivity|]. split; [exact I|]. left. repeat split. constructor.
  - cbn [retry_attempts]. unfold bind at 1, recorded at 1. cbn [fst snd].
    destruct (fn false s) as [r s1] eqn:Efn.
    set (c := {| call_last := false; call_result := r;
                 slept_before := slept (the_host s);
                 slept_after := slept (the_host s1) |}).
    destruct r as [[|]|e|].
    + (* the predicate holds *)
      exists [c], s1, (Returns true). split; [reflexivity|].
      split; [simpl; auto|]. right. exists [], c.
      repeat split; simpl; try lia; try constructor. discriminate.
    + (* a failed attempt: sleep and go on *)
      unfold bind at 1, on_host at 1, sleep at 1, modify at 1.
      cbn [the_host with_host pair_HasHost fst snd].
      destruct (IH (calls ++ [c])
                  (with_host (set_slept (slept (the_host s1) + 1) (the_host s1)) s1))
        as (new & s' & r & Eloop & Hspaced & Hcases).
      rewrite the_host_with_host in Hspaced, Hcases. simpl in Hspaced, Hcases.
      exists (c :: new), s', r.
      split; [rewrite Eloop, <- app_assoc; reflexivity|].
      split; [simpl; auto|].
      destruct Hcases as [(-> & Hlen & Hall & Hslept)
                         | (failed & final & -> & Hlen & Hall & Hlast & Hres & ->)].
      * left. repeat split; simpl; try lia; try assumption.
        constructor; [split; reflexivity | assumption].
      * right. exists (c :: failed), final.
        repeat split; simpl; try lia; try assumption.
        constructor; [split; reflexivity | assumption].
    + exists [c], s1, (Raises e). split; [reflexivity|].
      split; [simpl; auto|]. right. exists [], c.
      repeat split; simpl; try lia; try constructor. discriminate.
    + exists [c], s1, Blocks. split; [reflexivity|].
      split; [simpl; auto|]. right. exists [], c.
      repeat split; simpl; try lia; try constructor. discriminate.
Qed.

Lemma recorded_call (fn : bool -> M St bool) last calls s :
  recorded fn last (calls, s) =
  ((fn last s).1,
   (calls ++ [{| call_last := last; call_result := (fn last s).1;
                 slept_before := slept (the_host s);
                 slept_after := slept (the_host (fn last s).2) |}],
    (fn last s).2)).
Proof. unfold recorded. cbn [fst snd]. destruct (fn last s). reflexivity. Qed.

Lemma retry_trace (fn : bool -> M St bool) (s : St) :
  exists calls s' r,
    retry (recorded fn) ([], s) = (r, (calls, s'))
    /\ retry_law (slept (the_host s)) calls r.
Proof.
  unfold retry.
  destruct (retry_attempts_trace fn 900 [] s) as (new & s' & r & Eloop & Hspaced & Hcases).
  cbn [app] in Eloop.
  destruct Hcases as [(-> & Hlen & Hall & Hslept)
                     | (failed & final & -> & Hlen & Hall & Hlast & Hres & ->)].
  - (* all 900 attempts failed: the call with last=True *)
    rewrite (bind_returns _ _ _ _ _ Eloop). cbv iota.
    pose proof (recorded_call fn true new s') as Ecall.
    set (c := {| call_last := true; call_result := (fn true s').1;
                 slept_before := slept (the_host s');
                 slept_after := slept (the_host (fn true s').2) |}) in *.
    assert (Hlaw : forall r,
               r = retry_outcome (call_result c) ->
               retry_law (slept (the_host s)) (new ++ [c]) r).
    { intros r' ->. exists new, c. repeat split; try assumption; try lia.
      - simpl. rewrite Hlen. reflexivity.
      - apply spaced_app. split; [assumption|]. simpl. auto. }
    exists (new ++ [c]), (fn true s').2.
    destruct (fn true s').1 as [[|]|e|] eqn:Er.
    + exists (Returns tt). split; [|apply Hlaw; reflexivity].
      rewrite (bind_returns _ _ _ _ _ Ecall). reflexivity.
    + exists (Raises (Exception "action timed out")).
      split; [|apply Hlaw; reflexivity].
      rewrite (bind_returns _ _ _ _ _ Ecall). reflexivity.
    + exists (Raises e). split; [|apply Hlaw; reflexivity].
      apply bind_raises. exact Ecall.
    + exists Blocks. split; [|apply Hlaw; reflexivity].
      apply bind_blocks. exact Ecall.
  - (* an attempt decided *)
    assert (Hlaw : retry_law (slept (the_host s)) (failed ++ [final])
                     (retry_outcome (call_result final))).
    { exists failed, final. repeat split; try assumption; try lia.
      - rewrite Hlast. symmetry. apply bool_decide_eq_false. lia.
      - intros. congruence. }
    exists (failed ++ [final]), s', (retry_outcome (call_result final)).
    split; [|exact Hlaw].
    destruct (call_result final) as [[|]|e|]; try congruence.
    + rewrite (bind_returns _ _ _ _ _ Eloop). reflexivity.
    + apply bind_raises. exact Eloop.
    + apply bind_blocks. exact Eloop.
Qed.

(** C3, amended: [retry] calls the predicate with [last=False] at most
    900 times, one second of sleep after each failure, then once more with
    [last=True]: at most 901 calls.  It returns on the first call that
    gives [True] and raises "action timed out" when the call with
    [last=True] gives [False]. *)
Theorem retry_calls_at_most_900_then_last (fn : bool -> M St bool) (s : St) :
  let run := retry (recorded fn) ([], s) in
  let calls := run.2.1 in
  retry_law (slept (the_host s)) calls run.1
  /\ (length (List.filter (fun c => negb (call_last c)) calls) <= 900)%nat
  /\ (length calls <= 901)%nat.
Proof.
  destruct (retry_trace fn s) as (calls & s' & r & Erun & Hlaw).
  rewrite Erun. cbn [fst snd].
  split; [exact Hlaw|].
  destruct Hlaw as (failed & final & -> & Hlen & Hall & Hlast & _).
  rewrite List.filter_app, !length_app. cbn [List.filter length].
  assert (Hf : (length (List.filter (fun c => negb (call_last c)) failed) <= length failed)%nat)
    by apply List.filter_length_le.
  split; [|lia].
  destruct (call_last final) eqn:El; cbn [negb length]; [lia|].
  symmetry in Hlast. apply bool_decide_eq_false in Hlast. lia.
Qed.

End Retry.

(** C3 as worded fails: on a predicate that never holds [retry] makes
    901 calls, 900 of them with [last=False], more than the 900 and 899
    of the specification. *)
Lemma retry_of_never_true_makes_901_calls :
  length never_true_calls = 901%nat
  /\ length (List.filter (fun c => negb (call_last c)) never_true_calls) = 900%nat
  /\ ~ retry_bounds_as_specified never_true_calls.
Proof.
  assert (E : (length never_true_calls =? 901)%nat
              && (length (List.filter (fun c => negb (call_last c)) never_true_calls)
                  =? 900)%nat = true)
    by (vm_compute; reflexivity).
  apply andb_prop in E as [E1 E2].
  apply Nat.eqb_eq in E1. apply Nat.eqb_eq in E2.
  split; [exact E1|]. split; [exact E2|].
  intros [_ B]. rewrite E1 in B. lia.
Qed.

(** ** Receiving from a channel *)

Lemma text_drop_length n s : String.length (Text.drop n s) = (String.length s - n)%nat.
Proof.
  revert n. induction s as [|c s IH]; intros [|n]; simpl; try reflexivity. apply IH.
Qed.

(** Every [recv] that returns brings the bound down. *)
Lemma recv_pending n ch chunk ch' :
  (0 < n)%nat -> Machine.recv n ch = Some (chunk, ch') ->
  (Machine.pending ch' < Machine.pending ch)%nat
  /\ Machine.sent ch' = Machine.sent ch
  /\ (String.length chunk <= n)%nat.
Proof.
  intros Hn. unfold Machine.recv, Machine.pending.
  destruct (Machine.incoming ch) as [|segment rest]; [discriminate|].
  destruct (String.length segment <=? n)%nat eqn:Hlen.
  - intros [= <- <-]. apply Nat.leb_le in Hlen. simpl. repeat split; lia.
  - intros [= <- <-]. apply Nat.leb_gt in Hlen. simpl.
    rewrite text_drop_length. repeat split; try lia.
    clear -Hlen. revert segment Hlen. induction n as [|n IH]; intros [|c s] Hlen;
      simpl in *; try lia. specialize (IH s). lia.
Qed.

(** More fuel than the bound brings no more chunks. *)
Lemma received_upto_enough n fuel ch :
  (0 < n)%nat -> (Machine.pending ch <= fuel)%nat ->
  received_upto fuel n ch = received n ch.
Proof.
  intros Hn. unfold received.
  remember (Machine.pending ch) as p eqn:Hp.
  revert fuel ch Hp. induction p as [p IH] using lt_wf_ind. intros fuel ch -> Hfuel.
  destruct (Machine.recv n ch) as [[chunk ch']|] eqn:Erecv.
  - destruct (recv_pending n ch chunk ch' Hn Erecv) as (Hlt & _ & _).
    destruct fuel as [|fuel]; [lia|].
    destruct (Machine.pending ch) as [|p'] eqn:Ep; [lia|].
    simpl. rewrite Erecv. f_equal.
    rewrite (IH (Machine.pending ch') ltac:(lia) fuel ch' eq_refl ltac:(lia)).
    rewrite (IH (Machine.pending ch') ltac:(lia) p' ch' eq_refl ltac:(lia)).
    reflexivity.
  - destruct fuel; destruct (Machine.pending ch); simpl; rewrite ?Erecv; reflexivity.
Qed.

Lemma pending_ge_length ch : (length (Machine.incoming ch) <= Machine.pending ch)%nat.
Proof.
  unfold Machine.pending.
  induction (Machine.incoming ch) as [|segment rest IH]; [reflexivity|].
  cbn [length foldr]. lia.
Qed.

(** Segments no longer than [n] arrive as they were sent. *)
Lemma received_small_segments n ch :
  (0 < n)%nat ->
  Forall (fun segment => (String.length segment <= n)%nat) (Machine.incoming ch) ->
  received n ch = Machine.incoming ch.
Proof.
  intros Hn. unfold received.
  assert (G : forall feed sent fuel,
             Forall (fun segment => (String.length segment <= n)%nat) feed ->
             (length feed <= fuel)%nat ->
             received_upto fuel n {| Machine.incoming := feed; Machine.sent := sent |} = feed).
  { induction feed as [|segment rest IH]; intros sent fuel Hall Hfuel.
    - destruct fuel; reflexivity.
    - destruct fuel as [|fuel]; [simpl in Hfuel; lia|].
      inversion Hall as [|? ? Hseg Hrest]; subst.
      simpl. unfold Machine.recv. simpl.
      apply Nat.leb_le in Hseg. rewrite Hseg. f_equal.
      apply IH; [assumption | simpl in Hfuel; lia]. }
  intros Hall. destruct ch as [feed sent]. simpl in *.
  apply G; [assumption|].
  apply (pending_ge_length {| Machine.incoming := feed; Machine.sent := sent |}).
Qed.

(** ** The monitor prompt (C2) *)

Lemma set_monitor_same m ch :
  Machine.monitor m = Some ch -> Machine.set_monitor (Some ch) m = m.
Proof. destruct m. simpl. intros ->. reflexivity. Qed.

Lemma set_monitor_twice a b m :
  Machine.set_monitor a (Machine.set_monitor b m) = Machine.set_monitor a m.
Proof. reflexivity. Qed.

(** The loop of [wait_for_monitor_prompt] returns the first chunk that
    ends with the prompt, or waits for ever; it sends nothing. *)
Lemma prompt_loop_spec fuel m h ch :
  Machine.monitor m = Some ch ->
  exists ch',
    Machine.while_true fuel Machine.prompt_turn tt (m, h)
    = (match List.find is_prompted (received_upto fuel 1024 ch) with
       | Some chunk => Returns chunk
       | None => Blocks
       end, (Machine.set_monitor (Some ch') m, h))
    /\ Machine.sent ch' = Machine.sent ch.
Proof.
  revert m ch. induction fuel as [|fuel IH]; intros m ch Hm.
  - exists ch. rewrite (set_monitor_same m ch Hm). split; reflexivity.
  - cbn [Machine.while_true received_upto].
    unfold bind at 1, Machine.prompt_turn at 1, bind at 1, Machine.monitor_recv at 1.
    cbn [fst snd]. rewrite Hm.
    destruct (Machine.recv 1024 ch) as [[chunk ch1]|] eqn:Erecv.
    + destruct (recv_pending 1024 ch chunk ch1 ltac:(lia) Erecv) as (_ & Hsent & _).
      cbn [List.find]. unfold is_prompted at 1, prompt.
      destruct (Text.endswith chunk "(qemu) ") eqn:Eend.
      * exists ch1. split; [reflexivity | exact Hsent].
      * unfold ret at 1. cbv iota beta.
        destruct (IH (Machine.set_monitor (Some ch1) m) ch1 eq_refl) as (ch' & Eloop & Hsent').
        exists ch'. rewrite Eloop, set_monitor_twice. split; [reflexivity | congruence].
    + exists ch. rewrite (set_monitor_same m ch Hm). split; reflexivity.
Qed.

Lemma wait_for_monitor_prompt_spec m h ch :
  Machine.monitor m = Some ch ->
  exists ch',
    Machine.wait_for_monitor_prompt (m, h)
    = (match List.find is_prompted (received 1024 ch) with
       | Some chunk => Returns chunk
       | None => Blocks
       end, (Machine.set_monitor (Some ch') m, h))
    /\ Machine.sent ch' = Machine.sent ch.
Proof.
  intros Hm.
  destruct (prompt_loop_spec (Machine.pending ch) m h ch Hm) as (ch' & Eloop & Hsent).
  exists ch'. split; [|exact Hsent].
  unfold Machine.wait_for_monitor_prompt, bind at 1, Machine.self at 1. cbn [fst snd].
  rewrite Hm. change (bool_decide (Some ch = None)) with false. cbv iota.
  unfold bind at 1, Machine.monitor_pending at 1, bind at 1, Machine.self at 1, ret at 1.
  cbn [fst snd]. rewrite Hm. exact Eloop.
Qed.

(** The number of turns granted to the loop is no limit: with more
    turns it ends as it does, so a wait that blocks blocks for good. *)
Lemma prompt_loop_turns_enough fuel m h ch :
  Machine.monitor m = Some ch ->
  (Machine.pending ch <= fuel)%nat ->
  (Machine.while_true fuel Machine.prompt_turn tt (m, h)).1
  = (Machine.wait_for_monitor_prompt (m, h)).1.
Proof.
  intros Hm Hfuel.
  destruct (prompt_loop_spec fuel m h ch Hm) as (ch1 & -> & _).
  destruct (wait_for_monitor_prompt_spec m h ch Hm) as (ch2 & -> & _).
  cbn [fst]. rewrite (received_upto_enough 1024 fuel ch ltac:(lia) Hfuel). reflexivity.
Qed.

Lemma prompt_loop_explicit before :
  forall fuel m h ch chunk after,
    Machine.monitor m = Some ch ->
    Machine.incoming ch = before ++ chunk :: after ->
    Forall (fun c => (String.length c <= 1024)%nat /\ is_prompted c = false) before ->
    (String.length chunk <= 1024)%nat ->
    is_prompted chunk = true ->
    (length before < fuel)%nat ->
    Machine.while_true fuel Machine.prompt_turn tt (m, h)
    = (Returns chunk,
       (Machine.set_monitor
          (Some {| Machine.incoming := after; Machine.sent := Machine.sent ch |}) m, h)).
Proof.
  induction before as [|c before IH];
    intros fuel m h ch chunk after Hm Hfeed Hbefore Hlen Hprompt Hfuel;
    (destruct fuel as [|fuel]; [simpl in Hfuel; lia|]);
    cbn [Machine.while_true];
    unfold bind at 1, Machine.prompt_turn at 1, bind at 1, Machine.monitor_recv at 1;
    cbn [fst snd]; rewrite Hm; unfold Machine.recv; rewrite Hfeed; cbn [app].
  - apply Nat.leb_le in Hlen. rewrite Hlen.
    unfold is_prompted, prompt in Hprompt. rewrite Hprompt. reflexivity.
  - inversion Hbefore as [|? ? [Hc Hnot] Hrest]; subst.
    apply Nat.leb_le in Hc. rewrite Hc.
    unfold is_prompted, prompt in Hnot. rewrite Hnot.
    unfold ret at 1. cbv iota beta.
    set (ch1 := {| Machine.incoming := before ++ chunk :: after;
                   Machine.sent := Machine.sent ch |}).
    rewrite (IH fuel (Machine.set_monitor (Some ch1) m) h ch1 chunk after
               eq_refl eq_refl Hrest Hlen Hprompt ltac:(simpl in Hfuel; lia)).
    reflexivity.
Qed.

(** What the code does: [wait_for_monitor_prompt] reads chunks of at
    most 1024 characters from the monitor and returns the first chunk that
    ends with "(qemu) ": that chunk alone, not the text of the chunks
    before it.  On a monitor that feeds "ready\n(qemu) " in one piece it
    returns exactly that text (scenario S3). *)
Lemma wait_for_monitor_prompt_returns_prompted_chunk
    (m : Machine.t) (h : host) (ch : Machine.channel) :
  Machine.monitor m = Some ch -> prompt_wait_law m h ch.
Proof.
  intros Hm.
  assert (Hexplicit : forall before chunk after,
        Machine.incoming ch = before ++ chunk :: after ->
        Forall (fun c => (String.length c <= 1024)%nat /\ is_prompted c = false) before ->
        (String.length chunk <= 1024)%nat ->
        is_prompted chunk = true ->
        Machine.wait_for_monitor_prompt (m, h)
        = (Returns chunk,
           (Machine.set_monitor
              (Some {| Machine.incoming := after; Machine.sent := Machine.sent ch |}) m,
            h))).
  { intros before chunk after Hfeed Hbefore Hlen Hprompt.
    unfold Machine.wait_for_monitor_prompt, bind at 1, Machine.self at 1. cbn [fst snd].
    rewrite Hm. change (bool_decide (Some ch = None)) with false. cbv iota.
    unfold bind at 1, Machine.monitor_pending at 1, bind at 1, Machine.self at 1, ret at 1.
    cbn [fst snd]. rewrite Hm. cbn [from_option].
    apply (prompt_loop_explicit before); try assumption.
    pose proof (pending_ge_length ch) as Hp. rewrite Hfeed, length_app in Hp.
    simpl in Hp. lia. }
  split; [|split].
  - destruct (wait_for_monitor_prompt_spec m h ch Hm) as (ch' & -> & _). reflexivity.
  - exact Hexplicit.
  - intros Hfeed.
    rewrite (Hexplicit [] ("ready" +:+ newline +:+ "(qemu) ") [] Hfeed);
      [reflexivity | constructor | vm_compute; lia | vm_compute; reflexivity].
Qed.

Example wait_for_monitor_prompt_scenario_S3 :
  (Machine.wait_for_monitor_prompt
     (running_machine ["ready" +:+ newline +:+ "(qemu) "] [], example_host)).1
  = Returns ("ready" +:+ newline +:+ "(qemu) ").
Proof.
  apply (wait_for_monitor_prompt_returns_prompted_chunk
           (running_machine ["ready" +:+ newline +:+ "(qemu) "] []) example_host
           {| Machine.incoming := ["ready" +:+ newline +:+ "(qemu) "];
              Machine.sent := [] |} eq_refl).
  reflexivity.
Qed.

(** C2, where the code fails it: the loop keeps only the chunk it has
    just read.  When the answer and the prompt come in two chunks, the
    call returns the prompt alone, not the text read since the call began;
    when the prompt itself comes in two chunks, no chunk ends with it and
    the call never returns, though the text read does end with the
    prompt. *)
Theorem wait_for_monitor_prompt_loses_earlier_chunks :
  let answer_then_prompt := ["ready" +:+ newline; "(qemu) "] in
  let split_prompt := ["ready" +:+ newline +:+ "(qe"; "mu) "] in
  let wait feed :=
    (Machine.wait_for_monitor_prompt (running_machine feed [], example_host)).1 in
  let specified feed :=
    accumulated_wait
      (Machine.pending {| Machine.incoming := feed; Machine.sent := [] |}) ""
      {| Machine.incoming := feed; Machine.sent := [] |} in
  wait answer_then_prompt = Returns "(qemu) "
  /\ specified answer_then_prompt = Returns ("ready" +:+ newline +:+ "(qemu) ")
  /\ wait answer_then_prompt <> specified answer_then_prompt
  /\ wait split_prompt = Blocks
  /\ specified split_prompt = Returns ("ready" +:+ newline +:+ "(qemu) ").
Proof.
  cbv zeta.
  assert (E1 : (Machine.wait_for_monitor_prompt
                  (running_machine ["ready" +:+ newline; "(qemu) "] [], example_host)).1
               = Returns "(qemu) ") by (vm_compute; reflexivity).
  assert (E2 : accumulated_wait
                 (Machine.pending {| Machine.incoming := ["ready" +:+ newline; "(qemu) "];
                                     Machine.sent := [] |}) ""
                 {| Machine.incoming := ["ready" +:+ newline; "(qemu) "];
                    Machine.sent := [] |}
               = Returns ("ready" +:+ newline +:+ "(qemu) ")) by (vm_compute; reflexivity).
  split; [exact E1|]. split; [exact E2|].
  split; [rewrite E1, E2; intros Habs; discriminate Habs|].
  split; vm_compute; reflexivity.
Qed.

(** ** Sending keys (C5) *)

Lemma dict_of_snoc {V} (items : list (string * V)) k v :
  dict_of (items ++ [(k, v)]) = <[k := v]> (dict_of items).
Proof. unfold dict_of. rewrite foldl_app. reflexivity. Qed.

Lemma dict_of_lookup_absent {V} (items : list (string * V)) k :
  ~ In k (map fst items) -> dict_of items !! k = None.
Proof.
  induction items as [|[k' v'] items IH] using rev_ind; intros Hk.
  - apply lookup_empty.
  - rewrite dict_of_snoc. rewrite map_app, in_app_iff in Hk. simpl in Hk.
    rewrite lookup_insert_ne by tauto. apply IH. tauto.
Qed.

Lemma dict_of_lookup_present {V} (items : list (string * V)) k v :
  List.NoDup (map fst items) -> In (k, v) items -> dict_of items !! k = Some v.
Proof.
  induction items as [|[k' v'] items IH] using rev_ind; intros Hnodup Hin.
  - destruct Hin.
  - rewrite dict_of_snoc. rewrite map_app in Hnodup. simpl in Hnodup.
    apply in_app_iff in Hin as [Hin|[[= -> ->]|[]]].
    + assert (k' <> k).
      { intros ->. apply NoDup_remove_2 in Hnodup. rewrite app_nil_r in Hnodup.
        apply Hnodup. apply in_map_iff. exists (k, v). split; [reflexivity | exact Hin]. }
      rewrite lookup_insert_ne by assumption. apply IH; [|exact Hin].
      apply NoDup_remove_1 in Hnodup. rewrite app_nil_r in Hnodup. exact Hnodup.
    + apply lookup_insert_eq.
Qed.

(** No key occurs twice in the table. *)
Lemma CHAR_TO_KEY_keys_distinct : List.NoDup (map fst CHAR_TO_KEY_items).
Proof.
  apply (NoDup_ListNoDup (map fst CHAR_TO_KEY_items)).
  apply (@bool_decide_unpack _ (NoDup_dec (map fst CHAR_TO_KEY_items))).
  vm_compute. exact I.
Qed.

Lemma machine_log_returns msg m h :
  exists h',
    Machine.log msg (m, h) = (Returns tt, (m, h'))
    /\ beyond_log h' = beyond_log h
    /\ timings h' = timings h
    /\ stderr h' = stderr h ++ [Machine.name m +:+ ": " +:+ msg].
Proof.
  destruct (log_returns msg (dict_of [("machine", Machine.name m)]) h)
    as ([] & h' & Elog & B & T & E & _).
  exists h'. split; [|split; [exact B | split; [exact T | exact E]]].
  unfold Machine.log, bind at 1, Machine.self at 1, on_host.
  cbn [the_host with_host pair_HasHost host_HasHost fst snd].
  rewrite Elog. reflexivity.
Qed.

(** [send_monitor_command(command)] writes the command and a newline to
    the monitor, whatever the wait for the prompt comes to. *)
Lemma send_monitor_command_sends command m h ch :
  Machine.monitor m = Some ch ->
  exists ch' h',
    (Machine.send_monitor_command command (m, h)).2
    = (Machine.set_monitor (Some ch') m, h')
    /\ Machine.sent ch' = Machine.sent ch ++ [command +:+ newline].
Proof.
  intros Hm.
  destruct (machine_log_returns ("sending monitor command: " +:+ command) m h)
    as (h' & Elog & _).
  unfold Machine.send_monitor_command.
  rewrite (bind_returns _ _ _ _ _ Elog).
  unfold bind at 1, Machine.self at 1. cbn [fst snd]. rewrite Hm.
  unfold bind at 1, Machine.update_self at 1. cbn [fst snd].
  destruct (wait_for_monitor_prompt_spec
              (Machine.set_monitor (Some (Machine.send (command +:+ newline) ch)) m) h'
              (Machine.send (command +:+ newline) ch) eq_refl)
    as (ch' & Ewait & Hsent).
  rewrite Ewait. exists ch', h'. split; [reflexivity|]. exact Hsent.
Qed.

(** The table of the source is the key map of the specification. *)
Lemma key_map_agrees (key : string) :
  dict_get CHAR_TO_KEY key key = specified_token key.
Proof.
  destruct key as [|c [|c' rest]].
  - vm_compute. reflexivity.
  - destruct c as [[|] [|] [|] [|] [|] [|] [|] [|]]; vm_compute; reflexivity.
  - unfold dict_get, CHAR_TO_KEY. rewrite dict_of_lookup_absent; [reflexivity|].
    intros Hin.
    assert (Hlen : Forall (fun k => String.length k = 1%nat) (map fst CHAR_TO_KEY_items))
      by (repeat constructor).
    rewrite Forall_forall in Hlen. apply list_elem_of_In, Hlen in Hin. discriminate Hin.
Qed.

Lemma send_key_sends (m : Machine.t) (h : host) (ch : Machine.channel) (key : string) :
  Machine.monitor m = Some ch ->
  sendkey_issued (Machine.send_key key (m, h)).2 ch (specified_token key).
Proof.
  intros Hm.
  destruct (send_monitor_command_sends ("sendkey " +:+ specified_token key) m h ch Hm)
    as (ch' & h' & Estate & Hsent).
  exists ch'. unfold Machine.send_key. rewrite key_map_agrees. unfold bind.
  destruct (Machine.send_monitor_command ("sendkey " +:+ specified_token key) (m, h))
    as [[answer|e|] s'] eqn:Esend; cbn [fst snd] in Estate |- *; subst s';
    (split; [reflexivity|]); rewrite Hsent; reflexivity.
Qed.

(** C5: [send_key] writes the line [sendkey <token>] to the monitor,
    the token being the one the key map of the specification gives the
    key.  For a key of the source's table that is the token of the
    table, for any other string it is the string itself.  In
    particular an uppercase letter is sent as [shift-] and the
    lowercase letter, a space as [spc] and a newline as [ret]. *)
Theorem send_key_issues_mapped_or_verbatim
    (m : Machine.t) (h : host) (ch : Machine.channel) (key : string) :
  Machine.monitor m = Some ch ->
  sendkey_issued (Machine.send_key key (m, h)).2 ch (specified_token key)
  /\ (forall token, In (key, token) CHAR_TO_KEY_items ->
        token = specified_token key
        /\ sendkey_issued (Machine.send_key key (m, h)).2 ch token)
  /\ (~ In key (map fst CHAR_TO_KEY_items) ->
      specified_token key = key
      /\ sendkey_issued (Machine.send_key key (m, h)).2 ch key)
  /\ (forall c, is_upper c = true ->
        sendkey_issued (Machine.send_key (String c "") (m, h)).2 ch
          ("shift-" +:+ String (to_lower c) ""))
  /\ sendkey_issued (Machine.send_key " " (m, h)).2 ch "spc"
  /\ sendkey_issued (Machine.send_key newline (m, h)).2 ch "ret".
Proof.
  intros Hm. split; [apply send_key_sends, Hm|]. split; [|split; [|split; [|split]]].
  - intros token Hin.
    assert (E : token = specified_token key).
    { rewrite <- key_map_agrees. unfold dict_get, CHAR_TO_KEY.
      rewrite (dict_of_lookup_present _ _ _ CHAR_TO_KEY_keys_distinct Hin). reflexivity. }
    split; [exact E|]. rewrite E. apply send_key_sends, Hm.
  - intros Hout.
    assert (E : specified_token key = key).
    { rewrite <- key_map_agrees. unfold dict_get, CHAR_TO_KEY.
      rewrite (dict_of_lookup_absent _ _ Hout). reflexivity. }
    split; [exact E|]. rewrite <- E at 2. apply send_key_sends, Hm.
  - intros c Hc. pose proof (send_key_sends m h ch (String c "") Hm) as Hsent.
    cbn [specified_token] in Hsent. rewrite Hc in Hsent. exact Hsent.
  - exact (send_key_sends m h ch " " Hm).
  - exact (send_key_sends m h ch newline Hm).
Qed.

Lemma send_key_issues_mapped_or_verbatim_witness :
  let m := running_machine ["(qemu) "] [] in
  let ch := {| Machine.incoming := ["(qemu) "]; Machine.sent := [] |} in
  sendkey_issued (Machine.send_key "A" (m, example_host)).2 ch (specified_token "A")
  /\ (forall token, In ("A", token) CHAR_TO_KEY_items ->
        token = specified_token "A"
        /\ sendkey_issued (Machine.send_key "A" (m, example_host)).2 ch token)
  /\ (~ In "A" (map fst CHAR_TO_KEY_items) ->
      specified_token "A" = "A"
      /\ sendkey_issued (Machine.send_key "A" (m, example_host)).2 ch "A")
  /\ (forall c, is_upper c = true ->
        sendkey_issued (Machine.send_key (String c "") (m, example_host)).2 ch
          ("shift-" +:+ String (to_lower c) ""))
  /\ sendkey_issued (Machine.send_key " " (m, example_host)).2 ch "spc"
  /\ sendkey_issued (Machine.send_key newline (m, example_host)).2 ch "ret".
Proof.
  apply (send_key_issues_mapped_or_verbatim
           (running_machine ["(qemu) "] []) example_host
           {| Machine.incoming := ["(qemu) "]; Machine.sent := [] |} "A").
  reflexivity.
Defined.

(** The table at work: a capital, the space, the newline, and a key
    name that the table does not hold. *)
Example send_key_examples :
  let sent_by key :=
    Machine.sent <$> Machine.monitor
      (Machine.send_key key (running_machine ["(qemu) "] [], example_host)).2.1 in
  sent_by "A" = Some ["sendkey shift-a" +:+ newline]
  /\ sent_by " " = Some ["sendkey spc" +:+ newline]
  /\ sent_by newline = Some ["sendkey ret" +:+ newline]
  /\ sent_by "ctrl-alt-f1" = Some ["sendkey ctrl-alt-f1" +:+ newline].
Proof. vm_compute. auto. Qed.

(** ** The name of a machine (C9) *)

Lemma text_app_assoc (a b c : string) : (a +:+ b) +:+ c = a +:+ (b +:+ c).
Proof.
  induction a as [|x a IH]; [reflexivity|].
  change (String x ((a +:+ b) +:+ c) = String x (a +:+ (b +:+ c))). f_equal. exact IH.
Qed.

Lemma text_take_app (a b : string) : Text.take (String.length a) (a +:+ b) = a.
Proof.
  induction a as [|x a IH]; [destruct b; reflexivity|].
  change (String x (Text.take (String.length a) (a +:+ b)) = String x a).
  f_equal. exact IH.
Qed.

(** The repetition in the group of [run_vm_pattern] ends where the
    final [-vm] begins: it first runs to the end of the text, and no
    shorter match than the whole name leaves [-vm] at the end. *)
Lemma star_stops_before_final_vm (full : string) (start : nat) (gs : Re.groups) :
  forall (name : string) (pos : nat),
    one_line name = true ->
    Re.star Re.Dot pos (name +:+ "-vm") gs
      (fun cur' gs' =>
         Re.run (Re.Seq (Re.Lit "-vm") Re.Eol) cur'
           (gs' ++ [Text.take (cur'.1 - start) full]) (fun _ gs => Some gs))
    = Some (gs ++ [Text.take (pos + String.length name - start) full]).
Proof.
  induction name as [|c name IH]; intros pos Hline.
  - cbn. rewrite Nat.add_0_r. reflexivity.
  - simpl in Hline. apply andb_prop in Hline as [Hc Hline].
    change (String c name +:+ "-vm") with (String c (name +:+ "-vm")).
    cbn [Re.star]. rewrite Hc. rewrite (IH (S pos) Hline).
    cbn [String.length]. rewrite Nat.add_succ_r. reflexivity.
Qed.

(** The pattern matched where [run-name-vm] starts. *)
Lemma run_vm_matches_at (name : string) (pos : nat) :
  name <> "" -> one_line name = true ->
  Re.run Machine.run_vm_pattern (pos, "run-" +:+ name +:+ "-vm") []
    (fun _ gs => Some gs)
  = Some [name].
Proof.
  intros Hname Hline. destruct name as [|c name]; [congruence|].
  simpl in Hline. apply andb_prop in Hline as [Hc Hline].
  unfold Machine.run_vm_pattern.
  change ("run-" +:+ String c name +:+ "-vm")
    with (String "r" (String "u" (String "n" (String "-" (String c (name +:+ "-vm")))))).
  cbn [Re.run fst snd]. cbn [Text.startswith Text.drop String.length].
  repeat (destruct (decide _); [|congruence]).
  cbn [Text.drop fst snd Re.run]. rewrite Hc.
  etransitivity;
    [exact (star_stops_before_final_vm (String c (name +:+ "-vm")) (pos + 4) [] name
              (S (pos + 4)) Hline)|].
  cbn [app]. do 2 f_equal.
  replace (S (pos + 4) + String.length name - (pos + 4))%nat
    with (String.length (String c name)) by (cbn [String.length]; lia).
  apply (text_take_app (String c name) "-vm").
Qed.

(** The search goes over a directory part at which [run-] does not
    start, and finds the name. *)
Lemma run_vm_search_finds_name (dir name : string) :
  name <> "" -> one_line name = true ->
  starts_no_earlier dir ("run-" +:+ name +:+ "-vm") = true ->
  Re.search Machine.run_vm_pattern (dir +:+ "run-" +:+ name +:+ "-vm") = Some [name].
Proof.
  intros Hname Hline. unfold Re.search. generalize 0%nat.
  induction dir as [|c dir IH]; intros pos Hdir.
  - change ("" +:+ "run-" +:+ name +:+ "-vm") with ("run-" +:+ name +:+ "-vm").
    destruct name as [|c name]; [congruence|].
    change ("run-" +:+ String c name +:+ "-vm")
      with (String "r" ("un-" +:+ String c name +:+ "-vm")).
    cbn [Re.search_from].
    change (String "r" ("un-" +:+ String c name +:+ "-vm"))
      with ("run-" +:+ String c name +:+ "-vm").
    rewrite (run_vm_matches_at (String c name) pos Hname Hline). reflexivity.
  - cbn [starts_no_earlier] in Hdir. apply andb_prop in Hdir as [Hhere Hdir].
    apply negb_true_iff in Hhere.
    change (String c dir +:+ "run-" +:+ name +:+ "-vm")
      with (String c (dir +:+ "run-" +:+ name +:+ "-vm")) in *.
    cbn [Re.search_from].
    assert (Hfail : Re.run Machine.run_vm_pattern
                      (pos, String c (dir +:+ "run-" +:+ name +:+ "-vm")) []
                      (fun _ gs => Some gs) = None).
    { unfold Machine.run_vm_pattern. cbn [Re.run fst snd]. rewrite Hhere. reflexivity. }
    rewrite Hfail. apply IH, Hdir.
Qed.

(** C9, amended: the name of a machine made from a start command is the
    group that the search for "run-(.+)-vm$" captures in the command, and
    "machine" when the search fails; a command that ends in [run-foo-vm]
    with no [run-] starting before that gets the name "foo". *)
Theorem machine_name_is_capture_of_run_vm (cmd dir : string) (h : host) :
  starts_no_earlier dir "run-foo-vm" = true ->
  named_by_capture cmd h
  /\ returns (Driver.create_machine (Driver.startCommand_args (dir +:+ "run-foo-vm"))) h
       (fun m _ => Machine.name m = "foo").
Proof.
  intros Hdir.
  assert (Hnamed : forall c, named_by_capture c h).
  { intros c. unfold named_by_capture.
    eapply returns_weaken; [apply create_machine_returns|].
    intros m h' (_ & _ & ->). unfold Machine.init_name. cbn.
    destruct c as [|x c]; [reflexivity|]. reflexivity. }
  split; [apply Hnamed|].
  eapply returns_weaken; [apply (Hnamed (dir +:+ "run-foo-vm"))|].
  intros m h' ->.
  change (dir +:+ "run-foo-vm") with (dir +:+ "run-" +:+ "foo" +:+ "-vm").
  rewrite (run_vm_search_finds_name dir "foo"); [reflexivity | discriminate | reflexivity |].
  exact Hdir.
Qed.

Lemma machine_name_is_capture_of_run_vm_witness :
  named_by_capture "/nix/store/x/bin/run-foo-vm" example_host
  /\ returns
       (Driver.create_machine
          (Driver.startCommand_args ("/nix/store/x/bin/" +:+ "run-foo-vm")))
       example_host (fun m _ => Machine.name m = "foo").
Proof.
  apply (machine_name_is_capture_of_run_vm
           "/nix/store/x/bin/run-foo-vm" "/nix/store/x/bin/" example_host).
  reflexivity.
Defined.

(** C9 as worded fails: for a start command that ends in [run-foo-vm]
    but holds an earlier [run-], the group starts after the first one. *)
Lemma earlier_run_changes_the_name :
  returns (Driver.create_machine (Driver.startCommand_args "/tmp/run-1/run-foo-vm"))
    example_host (fun m _ => Machine.name m = "1/run-foo")
  /\ ~ ending_in_run_foo_vm_names_foo example_host.
Proof.
  assert (E : returns
                (Driver.create_machine (Driver.startCommand_args "/tmp/run-1/run-foo-vm"))
                example_host (fun m _ => Machine.name m = "1/run-foo")).
  { eexists _, _. split; [vm_compute; reflexivity | reflexivity]. }
  split; [exact E|].
  intros Hall. specialize (Hall "/tmp/run-1/").
  destruct E as (m & h1 & E1 & N1), Hall as (m' & h2 & E2 & N2).
  change ("/tmp/run-1/" +:+ "run-foo-vm") with "/tmp/run-1/run-foo-vm" in E2.
  rewrite E1 in E2. injection E2 as <- <-. rewrite N1 in N2. discriminate N2.
Qed.

(** ** The environment of the VM process (C4) *)

(** A variable of the current environment reaches the child as it is,
    also when [start] composed a value under the same name. *)
Lemma start_environment_inherited m h key value :
  environ h !! key = Some value -> Machine.start_environment m h !! key = Some value.
Proof.
  intros Hkey. unfold Machine.start_environment, dict_update.
  apply lookup_union_Some_l. exact Hkey.
Qed.

(** A composed value reaches the child only under a name that the
    current environment does not hold. *)
Lemma start_environment_composed m h key :
  environ h !! key = None ->
  Machine.start_environment m h !! key
  = dict_of [ ("QEMU_OPTS", Machine.qemu_options m h);
              ("SHARED_DIR", Machine.shared_dir m);
              ("USE_TMPDIR", "1") ] !! key.
Proof.
  intros Hkey. unfold Machine.start_environment, dict_update.
  apply lookup_union_r. exact Hkey.
Qed.

Lemma start_environment_environ m h h' :
  environ h' = environ h -> Machine.start_environment m h' = Machine.start_environment m h.
Proof.
  intros E. unfold Machine.start_environment, Machine.qemu_options. rewrite E. reflexivity.
Qed.

Lemma beyond_log_spawned h h' : beyond_log h' = beyond_log h -> spawned h' = spawned h.
Proof. unfold beyond_log. intros E. congruence. Qed.

Lemma beyond_log_environ h h' : beyond_log h' = beyond_log h -> environ h' = environ h.
Proof. unfold beyond_log. intros E. congruence. Qed.

(** [start] of a machine that is not booted spawns one process: the
    script, in the state directory, with the environment of
    [start_environment]; this holds however the start goes on. *)
Lemma start_spawns_child m h :
  Machine.booted m = false ->
  spawned (Machine.start (m, h)).2.2
  = spawned h ++ [{| popen_args := Machine.script m;
                     popen_cwd := Machine.state_dir m;
                     popen_env := Machine.start_environment m h |}].
Proof.
  intros Hbooted.
  destruct (machine_log_returns "starting vm" m h) as (h1 & Elog & B1 & _).
  pose proof (beyond_log_spawned _ _ B1) as Hspawned.
  pose proof (start_environment_environ m h h1 (beyond_log_environ _ _ B1)) as Henv.
  unfold Machine.start, bind at 1, Machine.self at 1. cbn [fst snd]. rewrite Hbooted.
  rewrite (bind_returns _ _ _ _ _ Elog).
  unfold bind at 1, Machine.update_self at 1. cbn [fst snd].
  unfold bind at 1, Machine.update_self at 1. cbn [fst snd].
  unfold bind at 1, on_host at 1, get at 1.
  cbn [the_host with_host pair_HasHost host_HasHost fst snd].
  unfold bind at 1, on_host at 1, modify at 1.
  cbn [the_host with_host pair_HasHost host_HasHost fst snd].
  unfold bind at 1, Machine.update_self at 1. cbn [fst snd].
  rewrite Henv, <- Hspawned.
  set (child := {| popen_args := Machine.script m; popen_cwd := Machine.state_dir m;
                   popen_env := Machine.start_environment m h |}).
  set (h2 := set_spawned (spawned h1 ++ [child]) h1).
  destruct (launch h1 (Machine.script m)) as [vm|]; [|reflexivity].
  unfold bind at 1, Machine.update_self at 1. cbn [fst snd].
  unfold bind at 1, Machine.update_self at 1. cbn [fst snd].
  match goal with
  | |- context [bind Machine.wait_for_monitor_prompt _ (?m2, h2)] =>
      destruct (wait_for_monitor_prompt_spec m2 h2
                  {| Machine.incoming := guest_monitor vm; Machine.sent := [] |} eq_refl)
        as (ch' & Ewait & _)
  end.
  unfold bind at 1. rewrite Ewait.
  destruct (List.find is_prompted _); [|reflexivity].
  unfold bind at 1, Machine.update_self at 1. cbn [fst snd].
  unfold bind at 1, Machine.update_self at 1. cbn [fst snd].
  match goal with
  | |- context [Machine.log ?msg (?m3, h2)] =>
      destruct (machine_log_returns msg m3 h2) as (h3 & Elog3 & B3 & _)
  end.
  rewrite Elog3. cbn [snd]. rewrite (beyond_log_spawned _ _ B3). reflexivity.
Qed.

(** C4, where the code fails it: the composed values are lost to the
    values inherited under the same names.  With [QEMU_OPTS=-m 512] in
    the environment of the driver, the child's [QEMU_OPTS] is [-m 512],
    not the option string that [start] put together (which ends in that
    [-m 512]); [SHARED_DIR] and [USE_TMPDIR], absent from the environment,
    arrive as composed. *)
Theorem start_passes_inherited_QEMU_OPTS :
  let spawned_by_start := spawned (Machine.start (fresh_machine, example_host)).2.2 in
  let composed := Machine.qemu_options fresh_machine example_host in
  environ example_host !! "QEMU_OPTS" = Some "-m 512"
  /\ composed
     = "-no-reboot -monitor unix:/tmp/vm-state-foo/monitor "
       +:+ "-chardev socket,id=shell,path=/tmp/vm-state-foo/shell "
       +:+ "-device virtio-serial -device virtconsole,chardev=shell "
       +:+ "-device virtio-rng-pci -nographic -m 512"
  /\ (popen_env <$> spawned_by_start)
     = [Machine.start_environment fresh_machine example_host]
  /\ Machine.start_environment fresh_machine example_host !! "QEMU_OPTS" = Some "-m 512"
  /\ Machine.start_environment fresh_machine example_host !! "QEMU_OPTS" <> Some composed
  /\ Machine.start_environment fresh_machine example_host !! "SHARED_DIR"
     = Some "/tmp/xchg-shared"
  /\ Machine.start_environment fresh_machine example_host !! "USE_TMPDIR" = Some "1".
Proof.
  cbv zeta.
  split; [vm_compute; reflexivity|].
  split; [vm_compute; reflexivity|].
  split; [vm_compute; reflexivity|].
  split; [vm_compute; reflexivity|].
  split; [vm_compute; discriminate|].
  split; vm_compute; reflexivity.
Qed.

(** ** Running commands in the guest (C1, C7) *)

Lemma text_length_app (a b : string) :
  String.length (a +:+ b) = (String.length a + String.length b)%nat.
Proof.
  induction a as [|x a IH]; [reflexivity|].
  change (S (String.length (a +:+ b)) = S (String.length a + String.length b)).
  f_equal. exact IH.
Qed.

(** Whatever the loop of [execute] returns begins with the output it
    had gathered. *)
Lemma execute_loop_extends fuel :
  forall output s status out s',
    Machine.while_true fuel Machine.execute_turn output s = (Returns (status, out), s') ->
    exists tail, out = output +:+ tail.
Proof.
  induction fuel as [|fuel IH]; intros output s status out s' Hloop.
  - discriminate Hloop.
  - cbn [Machine.while_true] in Hloop.
    unfold bind at 1, Machine.execute_turn at 1, bind at 1 in Hloop.
    destruct (Machine.shell_recv 4096 s) as [[chunk|e|] s1]; try discriminate Hloop.
    destruct (Re.match_ Machine.status_code_pattern chunk) as [groups|].
    + unfold ret at 1 in Hloop. cbv iota beta in Hloop. unfold ret in Hloop.
      injection Hloop as _ <- _. eexists. reflexivity.
    + unfold ret at 1 in Hloop. cbv iota beta in Hloop.
      apply IH in Hloop as (tail & ->).
      exists (chunk +:+ tail). apply text_app_assoc.
Qed.

(** One turn of the loop of [execute], spelled out. *)
Lemma execute_loop_step fuel output m h ch :
  Machine.shell m = Some ch ->
  Machine.while_true (S fuel) Machine.execute_turn output (m, h)
  = match Machine.recv 4096 ch with
    | None => (Blocks, (m, h))
    | Some (chunk, ch1) =>
        match Re.match_ Machine.status_code_pattern chunk with
        | Some groups =>
            (Returns (Text.to_int (Re.group groups 2), output +:+ Re.group groups 1),
             (Machine.set_shell (Some ch1) m, h))
        | None =>
            Machine.while_true fuel Machine.execute_turn (output +:+ chunk)
              (Machine.set_shell (Some ch1) m, h)
        end
    end.
Proof.
  intros Hm. cbn [Machine.while_true].
  unfold bind at 1, Machine.execute_turn at 1, bind at 1, Machine.shell_recv at 1.
  cbn [fst snd]. rewrite Hm.
  destruct (Machine.recv 4096 ch) as [[chunk ch1]|]; [|reflexivity].
  destruct (Re.match_ Machine.status_code_pattern chunk); reflexivity.
Qed.

(** The turns granted to the loop of [execute] are no limit either. *)
Lemma execute_loop_turns_enough fuel :
  forall extra output m h ch,
    Machine.shell m = Some ch ->
    (Machine.pending ch <= fuel)%nat ->
    Machine.while_true (fuel + extra) Machine.execute_turn output (m, h)
    = Machine.while_true fuel Machine.execute_turn output (m, h).
Proof.
  induction fuel as [|fuel IH]; intros extra output m h ch Hm Hfuel.
  - assert (Hempty : Machine.recv 4096 ch = None).
    { unfold Machine.recv. unfold Machine.pending in Hfuel.
      destruct (Machine.incoming ch); [reflexivity | simpl in Hfuel; lia]. }
    destruct extra as [|extra]; [reflexivity|].
    cbn [Nat.add]. rewrite (execute_loop_step _ _ _ _ ch Hm), Hempty. reflexivity.
  - cbn [Nat.add]. rewrite !(execute_loop_step _ _ _ _ ch Hm).
    destruct (Machine.recv 4096 ch) as [[chunk ch1]|] eqn:Erecv; [|reflexivity].
    destruct (recv_pending 4096 ch chunk ch1 ltac:(lia) Erecv) as (Hlt & _ & _).
    destruct (Re.match_ Machine.status_code_pattern chunk); [reflexivity|].
    apply (IH extra _ _ h ch1); [reflexivity | lia].
Qed.

(** C1, where the code fails it (scenario S4): the output, its newline
    and the sentinel in one chunk.  The pattern is matched from the start
    of the chunk and its [.] stops at the newline, so the sentinel is not
    seen.  [execute] keeps the chunk as output and waits for more;
    whatever comes later, it never returns the pair [(0, "hello\n")]. *)
Theorem execute_misses_sentinel_after_newline :
  Re.match_ Machine.status_code_pattern hello_and_sentinel = None
  /\ (Machine.execute "echo hello" (running_machine [] [hello_and_sentinel], example_host)).1
     = Blocks
  /\ Machine.shell
       (Machine.execute "echo hello"
          (running_machine [] [hello_and_sentinel], example_host)).2.1
     = Some {| Machine.incoming := [];
               Machine.sent := ["( echo hello ); echo '|!EOF' $?" +:+ newline] |}
  /\ forall later : list string,
      (Machine.execute "echo hello"
         (running_machine [] (hello_and_sentinel :: later), example_host)).1
      <> Returns (0, "hello" +:+ newline).
Proof.
  split; [vm_compute; reflexivity|].
  split; [vm_compute; reflexivity|].
  split; [vm_compute; reflexivity|].
  intros later Hret.
  destruct (Machine.execute "echo hello"
              (running_machine [] (hello_and_sentinel :: later), example_host))
    as [r s'] eqn:Eexec.
  cbn [fst] in Hret. subst r.
  unfold Machine.execute in Eexec.
  unfold bind at 1, Machine.connect at 1, bind at 1, Machine.self at 1 in Eexec.
  cbn [fst snd running_machine Machine.connected] in Eexec.
  unfold ret at 1 in Eexec. cbv iota beta in Eexec.
  unfold bind at 1, Machine.shell_send at 1, bind at 1, Machine.self at 1 in Eexec.
  cbn [fst snd running_machine Machine.shell] in Eexec.
  unfold Machine.update_self at 1 in Eexec. cbv iota beta in Eexec.
  unfold bind at 1, Machine.shell_pending at 1, bind at 1, Machine.self at 1, ret at 1
    in Eexec.
  cbn [fst snd Machine.set_shell Machine.shell from_option] in Eexec.
  cbv iota beta in Eexec.
  unfold Machine.pending in Eexec.
  cbn [Machine.send Machine.incoming foldr] in Eexec.
  cbn [Nat.add] in Eexec.
  cbn [Machine.while_true] in Eexec.
  unfold bind at 1, Machine.execute_turn at 1, bind at 1, Machine.shell_recv at 1 in Eexec.
  cbn [fst snd Machine.shell Machine.recv Machine.incoming] in Eexec.
  change (String.length hello_and_sentinel <=? 4096)%nat with true in Eexec.
  cbv iota beta in Eexec.
  change (Re.match_ Machine.status_code_pattern hello_and_sentinel)
    with (@None Re.groups) in Eexec.
  unfold ret at 1 in Eexec. cbv iota beta in Eexec.
  apply execute_loop_extends in Eexec as (tail & Htail).
  apply (f_equal String.length) in Htail.
  rewrite !text_length_app in Htail. vm_compute in Htail. lia.
Qed.

(** When the sentinel comes in a chunk of its own, [execute] returns
    the status and the output that came before it. *)
Example execute_sentinel_in_its_own_chunk :
  (Machine.execute "echo hello"
     (running_machine [] ["hello" +:+ newline; "|!EOF 0" +:+ newline], example_host)).1
  = Returns (0, "hello" +:+ newline).
Proof. vm_compute. reflexivity. Qed.

(** C7, where the code fails it (scenario S5): on that chunk [succeed]
    does not raise and [fail] does not return; both wait in [execute],
    which has not seen the sentinel. *)
Theorem succeed_and_fail_wait_for_missed_sentinel :
  (Machine.succeed ["cmd"] (running_machine [] [oops_and_sentinel], example_host)).1
  = Blocks
  /\ (Machine.fail ["cmd"] (running_machine [] [oops_and_sentinel], example_host)).1
     = Blocks.
Proof. split; vm_compute; reflexivity. Qed.

(** With the sentinel in a chunk of its own, [succeed] raises on the
    status 2 and [fail] returns. *)
Example succeed_raises_and_fail_returns :
  let feed := ["oops" +:+ newline; "|!EOF 2" +:+ newline] in
  (Machine.succeed ["cmd"] (running_machine [] feed, example_host)).1
  = Raises (Exception "command `cmd` failed (exit code 2)")
  /\ (Machine.fail ["cmd"] (running_machine [] feed, example_host)).1 = Returns tt.
Proof. split; vm_compute; reflexivity. Qed.

(** [succeed] runs the commands in order and joins their outputs; it
    stops at the first status that is not 0.  [fail] stops at the first
    status 0. *)
Example succeed_and_fail_in_order :
  let sent_to_shell (s : Machine.state) := Machine.sent <$> Machine.shell s.1 in
  let wrap cmd := "( " +:+ cmd +:+ " ); echo '|!EOF' $?" +:+ newline in
  let all_zero := ["a" +:+ newline; "|!EOF 0" +:+ newline;
                   "b" +:+ newline; "|!EOF 0" +:+ newline] in
  let second_fails := ["a" +:+ newline; "|!EOF 0" +:+ newline;
                       "b" +:+ newline; "|!EOF 7" +:+ newline;
                       "c" +:+ newline; "|!EOF 0" +:+ newline] in
  let succeed feed cmds := Machine.succeed cmds (running_machine [] feed, example_host) in
  let fail feed cmds := Machine.fail cmds (running_machine [] feed, example_host) in
  (succeed all_zero ["one"; "two"]).1 = Returns ("a" +:+ newline +:+ "b" +:+ newline)
  /\ (succeed second_fails ["one"; "two"; "three"]).1
     = Raises (Exception "command `two` failed (exit code 7)")
  /\ sent_to_shell (succeed second_fails ["one"; "two"; "three"]).2
     = Some [wrap "one"; wrap "two"]
  /\ (fail all_zero ["one"; "two"]).1
     = Raises (Exception "command `one` unexpectedly succeeded")
  /\ sent_to_shell (fail all_zero ["one"; "two"]).2 = Some [wrap "one"]
  /\ (fail ["|!EOF 1" +:+ newline; "|!EOF 2" +:+ newline] ["one"; "two"]).1 = Returns tt.
Proof. cbv zeta. repeat split; vm_compute; reflexivity. Qed.

(** ** The log file *)

Lemma set_log_twice a b h : set_log a (set_log b h) = set_log a h.
Proof. reflexivity. Qed.

Lemma drain_turns_drains items :
  forall n h,
    queue (log h) = items -> (length items < n)%nat ->
    Logger.drain_turns n h = (Returns tt, drained h).
Proof.
  induction items as [|item rest IH]; intros n h Hq Hn.
  - destruct n as [|n]; [simpl in Hn; lia|].
    unfold drained. rewrite Hq. simpl.
    unfold bind, Logger.get_nowait. rewrite Hq. unfold ret.
    f_equal. destruct h as [? ? ? ? ? ? ? ? ? ? ? ? ? l ? ?]. destruct l. simpl in *.
    subst. unfold set_log. simpl. rewrite app_nil_r. reflexivity.
  - destruct n as [|n]; [simpl in Hn; lia|].
    simpl in Hn.
    cbn [Logger.drain_turns].
    unfold bind at 1. unfold Logger.get_nowait. rewrite Hq.
    unfold bind at 1. unfold get at 1.
    unfold bind at 1.
    set (h0 := set_log _ h).
    destruct (Logger.log_line
                (Logger.sanitise (unicodedata_category h0) (item_msg item))
                (dict_of [("machine", item_machine item); ("type", "serial")]) h0)
      as [r h1] eqn:E.
    unfold Logger.log_line, Logger.emit, Logger.modify_log, bind, modify in E.
    injection E as <- <-.
    rewrite (IH n); [|reflexivity|lia].
    f_equal. unfold drained, h0.
    destruct h as [? ? ? ? ? ? ? ? ? ? ? ? ? l ? ?]. destruct l. simpl in *.
    subst. unfold set_log. simpl. f_equal. f_equal.
    rewrite <- !app_assoc. reflexivity.
Qed.

Lemma drain_log_queue_drains h :
  Logger.drain_log_queue h = (Returns tt, drained h).
Proof.
  unfold Logger.drain_log_queue, bind, get.
  apply (drain_turns_drains (queue (log h))); [reflexivity | lia].
Qed.

Lemma logged_trans e1 w1 p1 m1 e2 w2 p2 m2 h h1 h2 :
  logged e1 w1 p1 m1 h h1 -> logged e2 w2 p2 m2 h1 h2 ->
  logged (e1 ++ e2) w2 (p1 ++ p2) (m1 + m2) h h2.
Proof.
  unfold logged.
  intros (B1 & O1 & T1 & E1 & F1 & L1 & Q1 & X1) (B2 & O2 & T2 & E2 & F2 & L2 & Q2 & X2).
  repeat split; try congruence.
  - rewrite T2, T1, Nat.add_comm. apply skipn_skipn.
  - rewrite E2, E1. symmetry. apply app_assoc.
  - rewrite X2, X1. symmetry. apply app_assoc.
Qed.

Lemma logged_drained h :
  logged (serial_lines (unicodedata_category h) (queue (log h))) [] [] 0 h (drained h).
Proof.
  unfold logged, drained. destruct h as [? ? ? ? ? ? ? ? ? ? ? ? ? l ? ?]. simpl.
  repeat split. symmetry. apply app_nil_r.
Qed.

Lemma logged_category e w p m h h' :
  logged e w p m h h' -> unicodedata_category h' = unicodedata_category h.
Proof. unfold logged, beyond_log. intros (B & _). congruence. Qed.

Lemma log_logs message attributes h :
  exists h',
    Logger.log message attributes h = (Returns tt, h')
    /\ logged (serial_lines (unicodedata_category h) (queue (log h))
               ++ line_element message attributes)
         [] [Logger.maybe_prefix message attributes] 0 h h'.
Proof.
  unfold Logger.log, eprint. unfold bind at 1. unfold modify at 1.
  unfold bind at 1. rewrite drain_log_queue_drains.
  eexists. split; [reflexivity|].
  unfold logged, drained. destruct h as [? ? ? ? ? ? ? ? ? ? ? ? ? l ? ?]. simpl.
  repeat split. rewrite <- !app_assoc. reflexivity.
Qed.

Lemma enqueue_logs item h :
  exists h',
    Logger.enqueue item h = (Returns tt, h')
    /\ logged [] (queue (log h) ++ [item]) [] 0 h h'.
Proof.
  eexists. split; [reflexivity|].
  unfold logged. destruct h as [? ? ? ? ? ? ? ? ? ? ? ? ? l ? ?]. simpl.
  repeat split; symmetry; apply app_nil_r.
Qed.

(** The opening of a scope, run on the host. *)
Lemma scope_opening_logs message attributes h :
  exists h1,
    (eprint (Logger.maybe_prefix message attributes) ;;
     Logger.emit (StartElement "nest" ∅) ;;
     Logger.emit (StartElement "head" attributes) ;;
     Logger.emit (Characters message) ;;
     Logger.emit (EndElement "head") ;;
     Logger.drain_log_queue) h = (Returns tt, h1)
    /\ logged ([StartElement "nest" ∅; StartElement "head" attributes;
                Characters message; EndElement "head"]
               ++ serial_lines (unicodedata_category h) (queue (log h)))
         [] [Logger.maybe_prefix message attributes] 0 h h1.
Proof.
  unfold eprint, Logger.emit, Logger.modify_log.
  repeat (unfold bind at 1; unfold modify at 1).
  rewrite drain_log_queue_drains.
  eexists. split; [reflexivity|].
  unfold logged, drained. destruct h as [? ? ? ? ? ? ? ? ? ? ? ? ? l ? ?]. simpl.
  repeat split. rewrite <- !app_assoc. reflexivity.
Qed.

Lemma elapsed_logs h :
  exists seconds h1,
    elapsed h = (Returns seconds, h1) /\ logged [] (queue (log h)) [] 1 h h1.
Proof.
  unfold elapsed, logged.
  destruct h as [? ? ? ? ? ? [|t rest] ? ? ? ? ? ? l ? ?]; simpl.
  - exists "0.00". eexists. split; [reflexivity|]. simpl.
    repeat split; symmetry; apply app_nil_r.
  - exists t. eexists. split; [reflexivity|]. simpl.
    repeat split; symmetry; apply app_nil_r.
Qed.

(** The closing of a scope, run on the host. *)
Lemma scope_closing_logs h :
  exists h3 seconds,
    (Logger.drain_log_queue ;;
     seconds <- elapsed ;;
     Logger.log ("(" +:+ seconds +:+ " seconds)") ∅ ;;
     Logger.emit (EndElement "nest")) h = (Returns tt, h3)
    /\ logged (serial_lines (unicodedata_category h) (queue (log h))
               ++ line_element ("(" +:+ seconds +:+ " seconds)") ∅
               ++ [EndElement "nest"])
         [] ["(" +:+ seconds +:+ " seconds)"] 1 h h3.
Proof.
  unfold bind at 1. rewrite drain_log_queue_drains.
  unfold bind at 1.
  destruct (elapsed_logs (drained h)) as (seconds & h1 & Eel & L1).
  rewrite Eel.
  destruct (log_logs ("(" +:+ seconds +:+ " seconds)") ∅ h1) as (h2 & E2 & L2).
  unfold bind at 1. rewrite E2.
  exists (Logger.emit (EndElement "nest") h2).2, seconds.
  split; [reflexivity|].
  assert (logged [EndElement "nest"] [] [] 0 h2 (Logger.emit (EndElement "nest") h2).2) as L3.
  { unfold logged. pose proof L2 as (_ & _ & _ & _ & _ & _ & Q2 & _).
    destruct h2 as [? ? ? ? ? ? ? ? ? ? ? ? ? l ? ?]. simpl in *.
    repeat split; try (symmetry; apply app_nil_r). exact Q2. }
  pose proof (logged_trans _ _ _ _ _ _ _ _ _ _ _ (logged_drained h) L1) as L01.
  pose proof (logged_trans _ _ _ _ _ _ _ _ _ _ _ L01 L2) as L012.
  pose proof (logged_trans _ _ _ _ _ _ _ _ _ _ _ L012 L3) as L.
  assert (Hq : queue (log h1) = []) by apply L01.
  rewrite Hq in L. simpl in L. rewrite !app_nil_r in L.
  rewrite <- !app_assoc in L. exact L.
Qed.

(** A scope around any body: what is written before the body starts,
    and after it when it returns. *)
Lemma nested_logs {St} `{HasHost St} {A} message attributes (body : M St A) (s : St) :
  exists h1,
    logged (scope_head message attributes
            ++ serial_lines (unicodedata_category (the_host s)) (queue (log (the_host s))))
      [] [Logger.maybe_prefix message attributes] 0 (the_host s) h1
    /\ match body (with_host h1 s) with
       | (Returns a, s2) =>
           exists h3 seconds,
             logged (serial_lines (unicodedata_category (the_host s2))
                       (queue (log (the_host s2)))
                     ++ scope_foot seconds)
               [] ["(" +:+ seconds +:+ " seconds)"] 1 (the_host s2) h3
             /\ Logger.nested message attributes body s = (Returns a, with_host h3 s2)
       | (Raises e, s2) => Logger.nested message attributes body s = (Raises e, s2)
       | (Blocks, s2) => Logger.nested message attributes body s = (Blocks, s2)
       end.
Proof.
  destruct (scope_opening_logs message attributes (the_host s)) as (h1 & Hopen & Hopened).
  exists h1. split; [exact Hopened|].
  assert (Hstart : forall k : unit -> M St A,
             bind (on_host
                     (eprint (Logger.maybe_prefix message attributes) ;;
                      Logger.emit (StartElement "nest" ∅) ;;
                      Logger.emit (StartElement "head" attributes) ;;
                      Logger.emit (Characters message) ;;
                      Logger.emit (EndElement "head") ;;
                      Logger.drain_log_queue)) k s = k tt (with_host h1 s)).
  { intros k. apply bind_returns. unfold on_host. rewrite Hopen. reflexivity. }
  unfold Logger.nested. rewrite Hstart.
  destruct (body (with_host h1 s)) as [[a|e|] s2] eqn:Hbody.
  - destruct (scope_closing_logs (the_host s2)) as (h3 & seconds & Hclose & Hclosed).
    exists h3, seconds. split; [exact Hclosed|].
    erewrite (bind_returns body); [|exact Hbody].
    erewrite bind_returns; [reflexivity|].
    unfold on_host. rewrite Hclose. reflexivity.
  - apply bind_raises. exact Hbody.
  - apply bind_blocks. exact Hbody.
Qed.

Lemma open_elements_app a :
  forall stack b,
    open_elements stack (a ++ b)
    = match open_elements stack a with
      | Some stack' => open_elements stack' b
      | None => None
      end.
Proof.
  induction a as [|e a IH]; intros stack b; [reflexivity|].
  destruct e as [|name attrs|content|name|]; simpl; try apply IH; try reflexivity.
  destruct stack as [|top stack']; [reflexivity|].
  destruct (decide (top = name)); [apply IH | reflexivity].
Qed.

Lemma balanced_app a b : balanced a -> balanced b -> balanced (a ++ b).
Proof. intros Ha Hb stack. rewrite open_elements_app, Ha. apply Hb. Qed.

Lemma balanced_nil : balanced [].
Proof. intros stack. reflexivity. Qed.

Lemma balanced_line_element message attributes : balanced (line_element message attributes).
Proof. intros stack. reflexivity. Qed.

Lemma balanced_serial_lines category items : balanced (serial_lines category items).
Proof.
  induction items as [|item rest IH]; [apply balanced_nil|].
  intros stack. simpl. apply IH.
Qed.

(** A scope with balanced content is balanced. *)
Lemma balanced_scope message attributes seconds before content after :
  balanced before -> balanced content -> balanced after ->
  balanced ((scope_head message attributes ++ before) ++ content
            ++ after ++ scope_foot seconds).
Proof.
  intros Hb Hc Ha stack.
  rewrite <- !app_assoc. simpl.
  rewrite open_elements_app, Hb. rewrite open_elements_app, Hc.
  rewrite open_elements_app, Ha. reflexivity.
Qed.

(** The opening of a scope leaves the [nest] element open. *)
Lemma scope_head_opens message attributes before stack :
  balanced before ->
  open_elements stack (scope_head message attributes ++ before) = Some ("nest" :: stack).
Proof.
  intros Hb. simpl. apply Hb.
Qed.

Lemma perform_logs calls :
  forall h,
    exists h' events printed measured,
      perform calls h = (Returns tt, h')
      /\ logged events (left_in_queue calls (queue (log h))) printed measured h h'
      /\ balanced events.
Proof.
  induction calls as [|message attributes next IH|item next IH
                     |message attributes body IHbody next IH]; intros h.
  - exists h, [], [], 0%nat. split; [reflexivity|]. split; [|apply balanced_nil].
    unfold logged. repeat split; symmetry; apply app_nil_r.
  - destruct (log_logs message attributes h) as (h1 & E1 & L1).
    destruct (IH h1) as (h' & events & printed & measured & E2 & L2 & B2).
    assert (Hq : queue (log h1) = []) by apply L1. rewrite Hq in L2.
    eexists h', _, _, _. split; [|split].
    + cbn [perform]. erewrite bind_returns; [exact E2 | exact E1].
    + exact (logged_trans _ _ _ _ _ _ _ _ _ _ _ L1 L2).
    + apply balanced_app; [|exact B2].
      apply balanced_app; [apply balanced_serial_lines | apply balanced_line_element].
  - destruct (enqueue_logs item h) as (h1 & E1 & L1).
    destruct (IH h1) as (h' & events & printed & measured & E2 & L2 & B2).
    assert (Hq : queue (log h1) = queue (log h) ++ [item]) by apply L1. rewrite Hq in L2.
    eexists h', _, _, _. split; [|split].
    + cbn [perform]. erewrite bind_returns; [exact E2 | exact E1].
    + exact (logged_trans _ _ _ _ _ _ _ _ _ _ _ L1 L2).
    + apply balanced_app; [apply balanced_nil | exact B2].
  - destruct (nested_logs message attributes (perform body) h) as (h1 & L1 & Hbody).
    destruct (IHbody (with_host h1 h)) as (h2 & events2 & printed2 & measured2 & E2 & L2 & B2).
    rewrite E2 in Hbody. destruct Hbody as (h3 & seconds & L3 & E3).
    change (with_host h3 h2) with h3 in E3.
    change (with_host h1 h) with h1 in L2.
    change (the_host h2) with h2 in L3. change (the_host h) with h in L1.
    destruct (IH h3) as (h' & events & printed & measured & E4 & L4 & B4).
    assert (Hq : queue (log h3) = []) by apply L3. rewrite Hq in L4.
    pose proof (logged_trans _ _ _ _ _ _ _ _ _ _ _ L1 L2) as L12.
    pose proof (logged_trans _ _ _ _ _ _ _ _ _ _ _ L12 L3) as L123.
    eexists h', _, _, _. split; [|split].
    + cbn [perform]. erewrite bind_returns; [exact E4 | exact E3].
    + exact (logged_trans _ _ _ _ _ _ _ _ _ _ _ L123 L4).
    + apply balanced_app; [|exact B4].
      rewrite <- (app_assoc _ events2).
      apply balanced_scope; [apply balanced_serial_lines | exact B2
                             | apply balanced_serial_lines].
Qed.

(** ** Machines of the command line *)

Lemma create_machine_builds (cmd : string) (h : host) :
  exists m,
    Driver.create_machine (Driver.startCommand_args cmd) h
    = (Returns m, set_made_dirs (made_dirs h ++ dirs_of [m]) h)
    /\ built_from h cmd m.
Proof.
  destruct (Driver.create_machine (Driver.startCommand_args cmd) h) as [r h'] eqn:E.
  unfold Driver.create_machine, Machine.init, Machine.create_dir in E.
  cbv [bind get modify ret] in E. simpl in E.
  injection E as <- <-.
  eexists. split.
  - f_equal. unfold set_made_dirs, dirs_of. simpl. f_equal.
    rewrite <- app_assoc. reflexivity.
  - unfold built_from. simpl. repeat split.
Qed.

Lemma create_machines_builds (vm_scripts : list string) :
  forall h,
    exists ms,
      Driver.create_machines vm_scripts h
      = (Returns ms, set_made_dirs (made_dirs h ++ dirs_of ms) h)
      /\ Forall2 (built_from h) vm_scripts ms.
Proof.
  induction vm_scripts as [|cmd rest IH]; intros h.
  - exists []. split; [|constructor].
    unfold dirs_of. simpl. rewrite app_nil_r.
    destruct h; reflexivity.
  - destruct (create_machine_builds cmd h) as (m & Em & Bm).
    destruct (IH (set_made_dirs (made_dirs h ++ dirs_of [m]) h)) as (ms & Ems & Bms).
    exists (m :: ms). split.
    + cbn [Driver.create_machines].
      erewrite bind_returns; [|exact Em]. erewrite bind_returns; [|exact Ems].
      unfold ret. f_equal. unfold set_made_dirs. simpl. f_equal.
      rewrite <- app_assoc. reflexivity.
    + constructor; [exact Bm | exact Bms].
Qed.

(** [run_tests] when the environment holds a test script. *)
Lemma run_tests_of_script py src (ms : list Machine.t) (h : host) :
  environ h !! "tests" = Some src ->
  Driver.run_tests py (ms, h)
  = (Logger.nested "running the VM test script" ∅
       (try_except (Driver.exec py src) is_Exception
          (fun e =>
             on_host (eprint ("error: " +:+ str_of_exn e)) ;;
             raise (SystemExit 1))) ;;
     Driver.for_machines
       (up <- Machine.is_up ;;
        if (up : bool) then Machine.execute "sync" ;; ret tt else ret tt) ;;
     h <- on_host get ;;
     if bool_decide (nr_tests h ≠ 0) then
       on_host (Logger.log (Text.of_int (nr_succeeded h) +:+ " out of "
                            +:+ Text.of_int (nr_tests h) +:+ " tests succeeded") ∅)
     else ret tt) (ms, h).
Proof.
  intros Htests. unfold Driver.run_tests.
  unfold bind at 1, on_host at 1, get at 1.
  cbn [the_host with_host pair_HasHost host_HasHost fst snd].
  rewrite Htests. reflexivity.
Qed.

Lemma built_from_down h vm_scripts ms :
  Forall2 (built_from h) vm_scripts ms -> Forall (fun m => Machine.booted m = false) ms.
Proof.
  induction 1 as [|cmd m cmds ms Hm _ IH]; constructor; [apply Hm | exact IH].
Qed.

(** ** The run of the driver *)

Lemma create_vlans_start (h : host) (nrs : list string) :
  forall h0,
    (abspath h0, vde_switch h0, environ h0) = (abspath h, vde_switch h, environ h) ->
    queue (log h0) = [] ->
    Forall (fun nr => vde_switch h (abspath h ("./vde" +:+ nr +:+ ".ctl")) = Returns true)
      nrs ->
    exists h1,
      Driver.create_vlans nrs h0 = (Returns (map (vlan_of h) nrs), h1)
      /\ beyond_log h1
         = beyond_log (set_spawned (spawned h0 ++ map Driver.vde_process (map (vlan_of h) nrs)) h0)
      /\ timings h1 = timings h0
      /\ stderr h1 = stderr h0 ++ map vlan_message nrs
      /\ log h1 = {| logfile := logfile (log h0);
                     xml := xml (log h0)
                            ++ flat_map (fun nr => line_element (vlan_message nr) ∅) nrs;
                     queue := [];
                     logfile_open := logfile_open (log h0) |}.
Proof.
  induction nrs as [|nr nrs IH]; intros h0 Hsame Hqueue Hstart.
  - exists h0. split; [reflexivity|]. simpl. rewrite !app_nil_r.
    split; [destruct h0; reflexivity|]. split; [reflexivity|]. split; [reflexivity|].
    destruct h0 as [? ? ? ? ? ? ? ? ? ? ? ? ? l ? ?]. destruct l. simpl in *. congruence.
  - inversion Hstart as [|? ? Hnr Hrest]; subst.
    injection Hsame as Ha Hv He.
    destruct (log_logs (vlan_message nr) ∅ h0) as (h1 & Elog & L1).
    rewrite Hqueue in L1. simpl in L1.
    destruct L1 as (B1 & O1 & T1 & E1 & F1 & P1 & Q1 & X1).
    assert (Hplat : (abspath h1, vde_switch h1, environ h1) = (abspath h, vde_switch h, environ h))
      by (unfold beyond_log in B1; congruence).
    injection Hplat as Ha1 Hv1 He1.
    set (h2 := set_spawned (spawned h1 ++ [Driver.vde_process (vlan_of h nr)]) h1).
    assert (Evlan : Driver.create_vlan nr h0 = (Returns (vlan_of h nr), h2)).
    { unfold Driver.create_vlan. fold (vlan_message nr).
      rewrite (bind_returns _ _ _ _ _ Elog). unfold bind at 1, get at 1.
      rewrite Ha1, Hv1, He1, Hnr. reflexivity. }
    destruct (IH h2) as (h3 & Erest & B3 & T3 & E3 & X3).
    { simpl. congruence. }
    { exact Q1. }
    { exact Hrest. }
    exists h3. split; [|split; [|split; [|split]]].
    + cbn [Driver.create_vlans map].
      rewrite (bind_returns _ _ _ _ _ Evlan). rewrite (bind_returns _ _ _ _ _ Erest).
      reflexivity.
    + rewrite B3. unfold beyond_log in *. simpl.
      injection B1 as -> -> -> -> -> -> -> -> -> -> -> -> ->.
      rewrite <- app_assoc. reflexivity.
    + rewrite T3. simpl. exact T1.
    + rewrite E3. simpl. rewrite E1, <- app_assoc. reflexivity.
    + rewrite X3. simpl. rewrite F1, P1, X1, <- app_assoc. reflexivity.
Qed.

Lemma startswith_app (p x : string) : Text.startswith (p +:+ x) p = true.
Proof.
  induction p as [|c p IH]; [destruct x; reflexivity|].
  simpl. rewrite decide_True by reflexivity. exact IH.
Qed.

Lemma export_sockets_exported (vs : list Driver.vlan) :
  forall h,
    for_each vs Driver.export_socket h
    = (Returns tt, set_environ (exported (environ h) vs) h).
Proof.
  induction vs as [|v vs IH]; intros h.
  - destruct h; reflexivity.
  - cbn [for_each]. unfold bind at 1, Driver.export_socket at 1, modify at 1.
    rewrite IH. destruct h; reflexivity.
Qed.

Lemma exported_frame (vs : list Driver.vlan) :
  forall environment key,
    (forall v, In v vs -> "QEMU_VDE_SOCKET_" +:+ Driver.vlan_nr v <> key) ->
    exported environment vs !! key = environment !! key.
Proof.
  induction vs as [|v vs IH]; intros environment key Hkey; [reflexivity|].
  cbn [exported foldl]. fold (exported (<["QEMU_VDE_SOCKET_" +:+ Driver.vlan_nr v
                                          := Driver.vde_socket v]> environment) vs).
  rewrite IH by (intros v' Hin; apply Hkey; right; exact Hin).
  apply lookup_insert_ne, Hkey. left. reflexivity.
Qed.

Lemma export_sockets (vs : list Driver.vlan) :
  forall h,
    exists environment,
      for_each vs Driver.export_socket h = (Returns tt, set_environ environment h)
      /\ environment = exported (environ h) vs
      /\ forall key, Text.startswith key "QEMU_VDE_SOCKET_" = false ->
                     environment !! key = environ h !! key.
Proof.
  intros h. exists (exported (environ h) vs).
  split; [apply export_sockets_exported|]. split; [reflexivity|].
  intros key Hkey. apply exported_frame. intros v _ <-.
  rewrite startswith_app in Hkey. discriminate Hkey.
Qed.

Lemma machine_eval_bindings (h : host) (vm_scripts : list string) (ms : list Machine.t) :
  Forall2 (built_from h) vm_scripts ms ->
  Driver.machine_eval ms
  = bindings (map (fun cmd => Machine.init_name (Driver.startCommand_args cmd)) vm_scripts).
Proof.
  intros Hbuilt. unfold Driver.machine_eval, bindings. f_equal.
  assert (Hnames : map (fun cmd => Machine.init_name (Driver.startCommand_args cmd))
                     vm_scripts = map Machine.name ms).
  { induction Hbuilt as [|cmd m cmds ms Hm _ IH]; [reflexivity|].
    simpl. f_equal; [|exact IH]. destruct Hm as (_ & -> & _). reflexivity. }
  rewrite Hnames. symmetry. etransitivity; [apply imap_fmap | reflexivity].
Qed.

Lemma set_up_trace py (vm_scripts : list string) (vlans : string) (h : host) :
  binds_machines py vm_scripts ->
  environ h !! "VLANS" = Some vlans ->
  switches_start h vlans ->
  exists vs ms h1,
    Driver.set_up py vm_scripts h = (Returns (vs, ms), h1)
    /\ set_up_done h vlans vm_scripts vs ms h1
    /\ environ h1 = exported (environ h) vs.
Proof.
  intros Hbinds Hvlans Hstart.
  set (h0 := (Logger.init h).2).
  assert (E0 : Logger.init h = (Returns tt, h0)) by reflexivity.
  destruct (create_vlans_start h (fromkeys (split vlans)) h0 eq_refl eq_refl Hstart)
    as (h1 & Evlans & B1 & T1 & S1 & X1).
  destruct (export_sockets (map (vlan_of h) (fromkeys (split vlans))) h1)
    as (environment & Eexport & Henv & Hkeys).
  set (h2 := set_environ environment h1) in *.
  destruct (create_machines_builds vm_scripts h2) as (ms & Ecreate & Hbuilt).
  set (h3 := set_made_dirs (made_dirs h2 ++ dirs_of ms) h2) in *.
  exists (map (vlan_of h) (fromkeys (split vlans))), ms,
         (set_nr_succeeded 0 (set_nr_tests 0 h3)).
  split; [|split].
  - unfold Driver.set_up.
    rewrite (bind_returns _ _ _ _ _ E0). unfold bind at 1, get at 1.
    change (environ h0) with (environ h). rewrite Hvlans.
    rewrite (bind_returns _ _ _ _ _ Evlans).
    rewrite (bind_returns _ _ _ _ _ Eexport).
    rewrite (bind_returns _ _ _ _ _ Ecreate).
    unfold bind at 1, Driver.from_machines at 1.
    rewrite (machine_eval_bindings h2 vm_scripts ms Hbuilt).
    rewrite (Hbinds (ms, h3)). reflexivity.
  - unfold beyond_log in B1. simpl in B1.
    injection B1 as Benv Btmp Babs Blaunch Bvde Bcat Bout Bdirs Bspawned Bslept Bkilled
                    Btests Bsucc.
    assert (Htmp : tmp_dir h2 = tmp_dir h).
    { unfold tmp_dir, dict_get. simpl. rewrite (Hkeys "TMPDIR" eq_refl), Benv, Btmp.
      reflexivity. }
    unfold set_up_done. cbv zeta. simpl.
    split; [reflexivity|]. split.
    { eapply Forall2_impl; [exact Hbuilt|]. intros cmd m Hm.
      unfold built_from in *. rewrite Htmp in Hm. exact Hm. }
    split; [intros key Hkey; rewrite (Hkeys key Hkey), Benv; reflexivity|].
    split; [rewrite T1, Btmp, Babs, Blaunch, Bvde, Bcat, Bout, Bslept, Bkilled; reflexivity|].
    split; [exact S1|]. split; [exact Bspawned|].
    split; [rewrite Bdirs; reflexivity|].
    split; [reflexivity|]. split; [reflexivity|]. exact X1.
  - simpl. rewrite Henv. f_equal.
    unfold beyond_log in B1. simpl in B1. congruence.
Qed.

Lemma set_up_returns py (vm_scripts : list string) (vlans : string) (h : host) :
  binds_machines py vm_scripts ->
  environ h !! "VLANS" = Some vlans ->
  switches_start h vlans ->
  exists vs ms h1,
    Driver.set_up py vm_scripts h = (Returns (vs, ms), h1)
    /\ set_up_done h vlans vm_scripts vs ms h1.
Proof.
  intros Hbinds Hvlans Hstart.
  destruct (set_up_trace py vm_scripts vlans h Hbinds Hvlans Hstart)
    as (vs & ms & h1 & E & Hdone & _).
  exists vs, ms, h1. split; assumption.
Qed.

Lemma fromkeys_after_In (keys : list string) :
  forall seen key,
    In key (fromkeys_after seen keys) <-> In key keys /\ ~ In key seen.
Proof.
  induction keys as [|k keys IH]; intros seen key; cbn [fromkeys_after].
  - simpl. tauto.
  - destruct (bool_decide (k ∈ seen)) eqn:Hseen.
    + apply bool_decide_eq_true in Hseen. apply list_elem_of_In in Hseen.
      rewrite IH. simpl. split; [tauto|].
      intros [[<-|Hin] Hnot]; [contradiction | tauto].
    + apply bool_decide_eq_false in Hseen. rewrite list_elem_of_In in Hseen.
      simpl. rewrite IH. simpl. split.
      * intros [<-|[Hin Hnot]]; [tauto|]. split; [tauto|]. intros Hk. apply Hnot. tauto.
      * intros [[<-|Hin] Hnot]; [tauto|].
        destruct (decide (k = key)) as [<-|Hne]; [tauto|]. right. split; [exact Hin|].
        intros [Hk|Hk]; [contradiction | contradiction].
Qed.

Lemma fromkeys_after_NoDup (keys : list string) :
  forall seen, List.NoDup (fromkeys_after seen keys).
Proof.
  induction keys as [|k keys IH]; intros seen; cbn [fromkeys_after]; [constructor|].
  destruct (bool_decide (k ∈ seen)); [apply IH|].
  constructor; [|apply IH].
  rewrite fromkeys_after_In. intros [_ Hnot]. apply Hnot. left. reflexivity.
Qed.

Lemma append_inj_r (p a b : string) : p +:+ a = p +:+ b -> a = b.
Proof.
  induction p as [|c p IH]; [intros E; exact E|].
  simpl. intros E. injection E as E. apply IH, E.
Qed.

Lemma exported_lookup (vs : list Driver.vlan) :
  forall environment v,
    List.NoDup (map Driver.vlan_nr vs) ->
    In v vs ->
    exported environment vs !! ("QEMU_VDE_SOCKET_" +:+ Driver.vlan_nr v)
    = Some (Driver.vde_socket v).
Proof.
  induction vs as [|v0 vs IH]; intros environment v Hnodup Hin; [destruct Hin|].
  cbn [map] in Hnodup. apply List.NoDup_cons_iff in Hnodup as [Hfresh Hnodup].
  cbn [exported foldl].
  fold (exported (<["QEMU_VDE_SOCKET_" +:+ Driver.vlan_nr v0
                   := Driver.vde_socket v0]> environment) vs).
  destruct Hin as [<-|Hin]; [|apply IH; assumption].
  rewrite exported_frame; [apply lookup_insert_eq|].
  intros v' Hin' E. apply append_inj_r in E. apply Hfresh. rewrite <- E.
  apply in_map, Hin'.
Qed.

(** ** The subtest scope and the run of the driver (C6) *)

Lemma logged_scope_opened message attributes waiting h h1 :
  logged (scope_head message attributes
          ++ serial_lines (unicodedata_category h) (queue (log h)))
    waiting [Logger.maybe_prefix message attributes] 0 h h1 ->
  scope_opened message attributes h h1.
Proof.
  intros (B & _ & T & E & _ & _ & _ & X).
  split; [exact B|]. split; [exact T|]. split; [exact E|].
  eexists. exact X.
Qed.

Lemma logged_scope_closed seconds waiting h h3 :
  logged (serial_lines (unicodedata_category h) (queue (log h)) ++ scope_foot seconds)
    waiting ["(" +:+ seconds +:+ " seconds)"] 1 h h3 ->
  scope_closed h h3.
Proof.
  intros (B & _ & _ & E & _ & _ & _ & X).
  split; [exact B|]. exists seconds. split; [exact E|].
  eexists. exact X.
Qed.

Lemma subtest_law {St} `{HasHost St} (name : string) (body : M St unit) (s : St) :
  subtest_scope_law name body s.
Proof.
  unfold subtest_scope_law, Driver.subtest.
  match goal with
  | |- context [Logger.nested name ∅ ?b s] =>
      destruct (nested_logs name ∅ b s) as (h1 & Lopened & Hbody)
  end.
  pose proof (logged_scope_opened _ _ _ _ _ Lopened) as Hopened.
  exists (with_host (set_nr_tests (nr_tests h1 + 1) h1) s).
  split; [exists h1; split; [exact Hopened | reflexivity]|].
  apply scope_opened_counters in Hopened as [Ht1 Hs1].
  rewrite the_host_with_host. simpl. split; [lia|]. split; [lia|].
  unfold bind at 1, on_host at 1, modify at 1 in Hbody.
  rewrite the_host_with_host, with_host_with_host in Hbody.
  unfold try_except, bind at 1 in Hbody.
  destruct (body (with_host (set_nr_tests (nr_tests h1 + 1) h1) s))
    as [[[]|e|] s2] eqn:Eb.
  - unfold on_host, modify in Hbody.
    destruct Hbody as (h3 & seconds & Lclosed & Heq).
    rewrite with_host_with_host in Heq.
    rewrite the_host_with_host in Lclosed.
    exists (with_host h3 s2). rewrite the_host_with_host.
    split; [exact Heq|]. split; [reflexivity|].
    pose proof (logged_scope_closed _ _ _ _ Lclosed) as Hclosed.
    split; [exact Hclosed|].
    apply scope_closed_counters in Hclosed as [Ht3 Hs3]. simpl in Ht3, Hs3. auto.
  - destruct (is_Exception e) eqn:Ee; [|exact Hbody].
    destruct (log_logs ("error: " +:+ str_of_exn e) ∅ (the_host s2)) as (h2' & Elog & Llog).
    unfold on_host in Hbody. rewrite Elog in Hbody.
    destruct Hbody as (h3 & seconds & Lclosed & Heq).
    rewrite the_host_with_host in Lclosed.
    rewrite with_host_with_host in Heq.
    assert (Hq : queue (log h2') = []) by apply Llog.
    rewrite Hq in Lclosed. cbn [serial_lines flat_map app] in Lclosed.
    exists h2', (with_host h3 s2), seconds. rewrite the_host_with_host.
    split; [exact Heq|]. split; [reflexivity|].
    split; [exact Llog|]. split; [exact Lclosed|].
    destruct Llog as (B2 & _ & _ & E2 & _). destruct Lclosed as (B3 & _ & _ & E3 & _).
    apply beyond_log_counters in B2 as [Ht2 Hs2].
    apply beyond_log_counters in B3 as [Ht3 Hs3].
    split; [lia|]. split; [lia|].
    rewrite E3, E2, <- app_assoc. reflexivity.
  - exact Hbody.
Qed.

Lemma grows_refl h : grows h h.
Proof. split; exists []; symmetry; apply app_nil_r. Qed.

Lemma grows_trans h1 h2 h3 : grows h1 h2 -> grows h2 h3 -> grows h1 h3.
Proof.
  intros [(p1 & E1) (x1 & X1)] [(p2 & E2) (x2 & X2)]. split.
  - exists (p1 ++ p2). rewrite E2, E1. symmetry. apply app_assoc.
  - exists (x1 ++ x2). rewrite X2, X1. symmetry. apply app_assoc.
Qed.

Lemma logged_grows events waiting printed measured h h' :
  logged events waiting printed measured h h' -> grows h h'.
Proof.
  intros (_ & _ & _ & E & _ & _ & _ & X). split; eexists; eassumption.
Qed.

Lemma error_within_grows text h h' : error_within text h h' -> grows h h'.
Proof.
  intros [(p & p' & E) (x & x' & X)]. split; eexists; eassumption.
Qed.

Lemma grows_then_error text h1 h2 h3 :
  grows h1 h2 -> error_within text h2 h3 -> error_within text h1 h3.
Proof.
  intros [(p1 & E1) (x1 & X1)] [(p & p' & E) (x & x' & X)]. split.
  - exists (p1 ++ p), p'. rewrite E, E1, <- !app_assoc. reflexivity.
  - exists (x1 ++ x), x'. rewrite X, X1, <- !app_assoc. reflexivity.
Qed.

Lemma error_then_grows text h1 h2 h3 :
  error_within text h1 h2 -> grows h2 h3 -> error_within text h1 h3.
Proof.
  intros [(p & p' & E) (x & x' & X)] [(p3 & E3) (x3 & X3)]. split.
  - exists p, (p' ++ p3). rewrite E3, E, <- !app_assoc. reflexivity.
  - exists x, (x' ++ x3). rewrite X3, X, <- !app_assoc. reflexivity.
Qed.

Lemma logged_error text waiting measured before h h' :
  logged (before ++ line_element ("error: " +:+ text) ∅) waiting ["error: " +:+ text]
    measured h h' ->
  error_within text h h'.
Proof.
  intros (_ & _ & _ & E & _ & _ & _ & X). split.
  - exists [], []. exact E.
  - exists before, []. rewrite X, app_nil_r. reflexivity.
Qed.

Lemma scope_opened_grows message attributes h h1 :
  scope_opened message attributes h h1 -> grows h h1.
Proof. intros (_ & _ & E & drained & X). split; eexists; eassumption. Qed.

Lemma scope_closed_grows h h3 : scope_closed h h3 -> grows h h3.
Proof.
  intros (_ & seconds & E & events & X). split; [eexists; exact E|].
  eexists. rewrite X. reflexivity.
Qed.

(** A subtest whose body raises an [Exception] and leaves the state
    undisturbed. *)
Lemma subtest_of_raising name (body : M Driver.state unit) e (s : Driver.state) :
  is_Exception e = true ->
  (forall s, exists s', body s = (Raises e, s') /\ undisturbed s s') ->
  exists h',
    Driver.subtest name body s = (Returns tt, (s.1, h'))
    /\ nr_tests h' = nr_tests s.2 + 1
    /\ nr_succeeded h' = nr_succeeded s.2
    /\ error_within (str_of_exn e) s.2 h'.
Proof.
  intros He Hbody.
  destruct (subtest_law name body s) as (s1 & (h1 & Hopened & ->) & Ht1 & Hs1 & Hcase).
  destruct (Hbody (with_host (set_nr_tests (nr_tests h1 + 1) h1) s))
    as ([ms2 h2] & Eb & Hm & Ht2 & Hs2 & G2).
  rewrite Eb, He in Hcase.
  destruct Hcase
    as (h2' & [ms3 h3] & seconds & Esub & Eframe & Llog & Lclosed & Ht3 & Hs3 & _).
  cbn [the_host with_host pair_HasHost host_HasHost fst snd] in *.
  injection Eframe as ->. rewrite Hm in Esub.
  exists h3. split; [exact Esub|]. split; [lia|]. split; [lia|].
  eapply grows_then_error; [eapply scope_opened_grows, Hopened|].
  eapply grows_then_error; [exact G2|].
  eapply error_then_grows; [eapply logged_error, Llog | eapply logged_grows, Lclosed].
Qed.

(** A subtest whose body passes and leaves the state undisturbed. *)
Lemma subtest_of_passing name (body : M Driver.state unit) (s : Driver.state) :
  passes body ->
  exists h',
    Driver.subtest name body s = (Returns tt, (s.1, h'))
    /\ nr_tests h' = nr_tests s.2 + 1
    /\ nr_succeeded h' = nr_succeeded s.2 + 1
    /\ grows s.2 h'.
Proof.
  intros Hbody.
  destruct (subtest_law name body s) as (s1 & (h1 & Hopened & ->) & Ht1 & Hs1 & Hcase).
  destruct (Hbody (with_host (set_nr_tests (nr_tests h1 + 1) h1) s))
    as ([ms2 h2] & Eb & Hm & Ht2 & Hs2 & G2).
  rewrite Eb in Hcase.
  destruct Hcase as ([ms3 h3] & Esub & Eframe & Hclosed & Ht3 & Hs3).
  cbn [the_host with_host pair_HasHost host_HasHost fst snd] in *.
  injection Eframe as ->. rewrite Hm in Esub.
  exists h3. split; [exact Esub|]. split; [lia|]. split; [lia|].
  eapply grows_trans; [eapply scope_opened_grows, Hopened|].
  eapply grows_trans; [exact G2|].
  apply scope_closed_grows in Hclosed. destruct Hclosed as [E X].
  split; [exact E | exact X].
Qed.

(** The script of two subtests, one raising and one passing. *)
Lemma one_raising_one_passing_runs script message (s : Driver.state) :
  one_raising_one_passing script message ->
  exists h',
    script s = (Returns tt, (s.1, h'))
    /\ nr_tests h' = nr_tests s.2 + 2
    /\ nr_succeeded h' = nr_succeeded s.2 + 1
    /\ error_within message s.2 h'.
Proof.
  intros (a & b & raising & passing & Hraising & Hpassing & [-> | ->]).
  - destruct (subtest_of_raising a raising (PyException "RuntimeError" message) s
                eq_refl Hraising) as (h1 & E1 & T1 & S1 & W1).
    destruct (subtest_of_passing b passing (s.1, h1) Hpassing) as (h2 & E2 & T2 & S2 & G2).
    cbn [fst snd] in *.
    exists h2. split; [rewrite (bind_returns _ _ _ _ _ E1); exact E2|].
    split; [lia|]. split; [lia|]. eapply error_then_grows; eassumption.
  - destruct (subtest_of_passing a passing s Hpassing) as (h1 & E1 & T1 & S1 & G1).
    destruct (subtest_of_raising b raising (PyException "RuntimeError" message) (s.1, h1)
                eq_refl Hraising)
      as (h2 & E2 & T2 & S2 & W2).
    cbn [fst snd] in *.
    exists h2. split; [rewrite (bind_returns _ _ _ _ _ E1); exact E2|].
    split; [lia|]. split; [lia|]. eapply grows_then_error; eassumption.
Qed.

(** The at-exit hook when no machine runs: the switches are killed and
    the log is closed. *)
Lemma kill_switches (vs : list Driver.vlan) :
  forall h,
    for_each vs (fun v => Driver.kill (Driver.vde_process v)) h
    = (Returns tt, set_killed (killed h ++ map Driver.vde_process vs) h).
Proof.
  induction vs as [|v vs IH]; intros h.
  - simpl. rewrite app_nil_r. destruct h; reflexivity.
  - cbn [for_each map]. unfold bind at 1, Driver.kill at 1, modify at 1.
    rewrite IH. unfold set_killed. simpl. rewrite <- app_assoc. reflexivity.
Qed.

Lemma clean_up_skips_stopped_machines (ms : list Machine.t) (h : host) :
  Forall (fun m => Machine.pid m = None) ms ->
  Driver.for_machines
    (m <- Machine.self ;;
     match Machine.pid m with
     | None => ret tt
     | Some pid =>
         on_host (Logger.log ("killing " +:+ Machine.name m +:+ " (pid "
                              +:+ Text.of_int pid +:+ ")") ∅) ;;
         match Machine.process m with
         | Some process => on_host (Driver.kill process)
         | None =>
             raise (PyException "AttributeError"
                      "'NoneType' object has no attribute 'kill'")
         end
     end) (ms, h)
  = (Returns tt, (ms, h)).
Proof.
  unfold Driver.for_machines. simpl.
  induction 1 as [|m ms Hm _ IH]; [reflexivity|].
  cbn [Driver.each_machine].
  unfold bind at 1, Machine.self at 1. cbn [fst snd]. rewrite Hm.
  unfold ret at 1. rewrite IH. reflexivity.
Qed.

Lemma clean_up_when_stopped (vs : list Driver.vlan) (ms : list Machine.t) (h : host) :
  Forall (fun m => Machine.pid m = None) ms ->
  queue (log h) = [] ->
  exists h' seconds,
    Driver.clean_up vs (ms, h) = (Returns tt, (ms, h'))
    /\ (nr_tests h', nr_succeeded h', stdout h') = (nr_tests h, nr_succeeded h, stdout h)
    /\ killed h' = killed h ++ map Driver.vde_process vs
    /\ stderr h' = stderr h ++ ["cleaning up"; "(" +:+ seconds +:+ " seconds)"]
    /\ xml (log h') = xml (log h) ++ scope_head "cleaning up" ∅ ++ scope_foot seconds
                      ++ [EndElement "logfile"; EndDocument]
    /\ logfile_open (log h') = false.
Proof.
  intros Hstopped Hqueue. unfold Driver.clean_up.
  match goal with
  | |- context [Logger.nested ?msg ∅ ?b] =>
      destruct (nested_logs msg ∅ b (ms, h)) as (h1 & L1 & Hbody)
  end.
  cbn [the_host with_host pair_HasHost host_HasHost fst snd] in L1, Hbody.
  rewrite Hqueue in L1. cbn [serial_lines flat_map] in L1. rewrite app_nil_r in L1.
  rewrite (bind_returns _ _ _ _ _ (clean_up_skips_stopped_machines ms h1 Hstopped))
    in Hbody.
  unfold on_host in Hbody.
  cbn [the_host with_host pair_HasHost host_HasHost fst snd] in Hbody.
  rewrite kill_switches in Hbody.
  destruct Hbody as (h3 & seconds & L3 & Enested).
  cbn [the_host with_host pair_HasHost host_HasHost fst snd] in L3, Enested.
  assert (Hq1 : queue (log h1) = []) by apply L1.
  change (queue (log (set_killed _ h1))) with (queue (log h1)) in L3.
  rewrite Hq1 in L3. cbn [serial_lines flat_map app] in L3.
  exists (Logger.close h3).2, seconds.
  split.
  { rewrite (bind_returns _ _ _ _ _ Enested). reflexivity. }
  destruct L1 as (B1 & O1 & _ & E1 & _ & _ & _ & X1).
  destruct L3 as (B3 & O3 & _ & E3 & _ & _ & _ & X3).
  unfold beyond_log in B1, B3. simpl in B3.
  injection B1 as _ _ _ _ _ _ _ _ _ _ K1 T1 S1.
  injection B3 as _ _ _ _ _ _ _ _ _ _ K3 T3 S3.
  unfold Logger.close, Logger.emit, Logger.modify_log, bind, modify. simpl.
  split; [simpl in O3; congruence|].
  split; [congruence|].
  split; [simpl in E3; rewrite E3, E1, <- app_assoc; reflexivity|].
  split; [|reflexivity].
  simpl in X3. rewrite X3, X1, <- !app_assoc. reflexivity.
Qed.

Lemma main_of_set_up py (vm_scripts : list string) (h : host) vs ms h1 :
  Driver.set_up py vm_scripts h = (Returns (vs, ms), h1) ->
  Driver.main py vm_scripts h
  = match (Driver.run_tests py ;;
           seconds <- on_host elapsed ;;
           on_host (print ("test script finished in " +:+ seconds +:+ "s")))
            (ms, h1) with
    | (Blocks, (_, h)) => (Blocks, h)
    | (r, s) => let '(_, (_, h)) := Driver.clean_up vs s in (r, h)
    end.
Proof. intros E. unfold Driver.main. rewrite E. reflexivity. Qed.

Lemma built_from_stopped h vm_scripts ms :
  Forall2 (built_from h) vm_scripts ms -> Forall (fun m => Machine.pid m = None) ms.
Proof.
  induction 1 as [|cmd m cmds ms Hm _ IH]; constructor; [apply Hm | exact IH].
Qed.

Lemma main_one_raising_one_passing
    py src (vm_scripts : list string) (vlans message : string) (h : host) :
  binds_machines py vm_scripts ->
  environ h !! "tests" = Some src ->
  environ h !! "VLANS" = Some vlans ->
  switches_start h vlans ->
  one_raising_one_passing (Driver.exec py src) message ->
  ends_with_summary_1_of_2 py vm_scripts h message.
Proof.
  intros Hbinds Htests Hvlans Hstart Hscript.
  destruct (set_up_returns py vm_scripts vlans h Hbinds Hvlans Hstart)
    as (vs & ms & h1 & Eset & Hdone).
  destruct Hdone as (_ & Hbuilt & Hkeys & Hplat & E1 & _ & _ & T1 & S1 & X1).
  (* the tests *)
  assert (Ht1 : environ h1 !! "tests" = Some src)
    by (rewrite (Hkeys "tests" eq_refl); exact Htests).
  pose proof (run_tests_of_script py src ms h1 Ht1) as Erun.
  match type of Erun with
  | _ = bind (Logger.nested ?msg ∅ ?b) ?k _ =>
      destruct (nested_logs msg ∅ b (ms, h1)) as (h1' & L1 & Hbody);
      set (rest := k) in Erun
  end.
  cbn [the_host with_host pair_HasHost host_HasHost fst snd] in L1, Hbody.
  destruct (one_raising_one_passing_runs _ message (ms, h1') Hscript)
    as (h2 & Escript & T2 & S2 & W2).
  cbn [fst snd] in Escript, T2, S2, W2.
  match type of Hbody with
  | (let (_, _) := try_except _ _ ?handler ?s in _) =>
      assert (Ebody : try_except (Driver.exec py src) is_Exception handler s
                      = (Returns tt, (ms, h2)))
        by (unfold try_except; rewrite Escript; reflexivity)
  end.
  rewrite Ebody in Hbody. clear Ebody.
  destruct Hbody as (h3 & seconds & L3 & Enested).
  cbn [the_host with_host pair_HasHost host_HasHost fst snd] in L3, Enested.
  rewrite (bind_returns _ rest _ _ _ Enested) in Erun. unfold rest in Erun.
  rewrite (bind_returns _ _ _ _ _
             (sync_skips_down_machines ms h3 (built_from_down _ _ _ Hbuilt))) in Erun.
  unfold bind at 1, on_host at 1, get at 1 in Erun.
  cbn [the_host with_host pair_HasHost host_HasHost fst snd] in Erun.
  (* the counters *)
  pose proof L1 as (B1 & _). apply beyond_log_counters in B1 as [Tb1 Sb1].
  pose proof L3 as (B3 & _). apply beyond_log_counters in B3 as [Tb3 Sb3].
  assert (Ht3 : nr_tests h3 = 2) by lia.
  assert (Hs3 : nr_succeeded h3 = 1) by lia.
  rewrite Ht3, Hs3, summary_text in Erun.
  change (bool_decide (2 ≠ 0)) with true in Erun. cbv iota in Erun.
  (* the summary *)
  destruct (log_logs summary_1_of_2 ∅ h3) as (h4 & Elog & L4).
  assert (Hq3 : queue (log h3) = []) by apply L3.
  rewrite Hq3 in L4. cbn [serial_lines flat_map app] in L4.
  unfold on_host in Erun.
  cbn [the_host with_host pair_HasHost host_HasHost fst snd] in Erun.
  rewrite Elog in Erun.
  (* the last line on the standard output *)
  destruct (elapsed_logs h4) as (finished & h5 & Eelapsed & L5).
  (* the at-exit hook *)
  set (h6 := set_stdout (stdout h5 ++ ["test script finished in " +:+ finished +:+ "s"]) h5).
  assert (Hq6 : queue (log h6) = []).
  { unfold h6. simpl. destruct L5 as (_ & _ & _ & _ & _ & _ & Q5 & _). rewrite Q5.
    apply L4. }
  destruct (clean_up_when_stopped vs ms h6 (built_from_stopped _ _ _ Hbuilt) Hq6)
    as (h' & closing & Eclean & Hsame & _ & E' & X' & Hopen).
  assert (Emain : Driver.main py vm_scripts h = (Returns tt, h')).
  { rewrite (main_of_set_up py vm_scripts h vs ms h1 Eset).
    rewrite (bind_returns _ _ _ _ _ Erun).
    unfold bind at 1, on_host at 1.
    cbn [the_host with_host pair_HasHost host_HasHost fst snd].
    rewrite Eelapsed.
    unfold on_host, print, modify.
    cbn [the_host with_host pair_HasHost host_HasHost fst snd].
    fold h6. rewrite Eclean. reflexivity. }
  unfold ends_with_summary_1_of_2. rewrite Emain.
  destruct W2 as [(p2 & p2' & E2) (x2 & x2' & X2)].
  assert (Hq1' : queue (log h1) = []) by (rewrite X1; reflexivity).
  destruct L1 as (_ & O1 & _ & El1 & _ & _ & _ & Xl1).
  destruct L3 as (_ & O3 & _ & El3 & _ & _ & _ & Xl3).
  destruct L4 as (B4 & O4 & _ & El4 & _ & _ & _ & Xl4).
  destruct L5 as (B5 & O5 & _ & El5 & _ & _ & _ & Xl5).
  apply beyond_log_counters in B4 as [Tb4 Sb4].
  apply beyond_log_counters in B5 as [Tb5 Sb5].
  injection Hsame as Tc Sc Oc.
  rewrite app_nil_r in El5, Xl5.
  set (nrs := fromkeys (split vlans)) in *.
  exists h',
    (map vlan_message nrs ++ [Logger.maybe_prefix "running the VM test script" ∅]
     ++ p2 ++ ["error: " +:+ message] ++ p2' ++ ["(" +:+ seconds +:+ " seconds)"]),
    (([StartDocument; StartElement "logfile" ∅]
      ++ flat_map (fun nr => line_element (vlan_message nr) ∅) nrs)
     ++ scope_head "running the VM test script" ∅
     ++ x2 ++ line_element ("error: " +:+ message) ∅ ++ x2'
     ++ serial_lines (unicodedata_category h2) (queue (log h2)) ++ scope_foot seconds),
    closing, finished.
  split; [reflexivity|]. split; [reflexivity|].
  split; [simpl in Tc; lia|]. split; [simpl in Sc; lia|].
  split; [|split; [|split; [|split; [|split]]]].
  - rewrite E'. change (stderr h6) with (stderr h5).
    rewrite El5, El4, El3, E2, El1, E1.
    change (Logger.maybe_prefix summary_1_of_2 ∅) with summary_1_of_2.
    rewrite <- !app_assoc. reflexivity.
  - apply in_or_app. right. apply in_or_app. right. apply in_or_app. right.
    apply in_or_app. left. left. reflexivity.
  - rewrite X'. change (xml (log h6)) with (xml (log h5)).
    rewrite Xl5, Xl4, Xl3, X2, Xl1, Hq1'. rewrite X1. cbn [xml serial_lines flat_map].
    rewrite <- !app_assoc. reflexivity.
  - exists (([StartDocument; StartElement "logfile" ∅]
             ++ flat_map (fun nr => line_element (vlan_message nr) ∅) nrs)
            ++ scope_head "running the VM test script" ∅ ++ x2),
           (x2' ++ serial_lines (unicodedata_category h2) (queue (log h2))
            ++ scope_foot seconds).
    rewrite <- !app_assoc. reflexivity.
  - exact Hopen.
  - rewrite Oc. eexists. reflexivity.
Qed.

(** C6 (amended): the scope of a subtest counts the test on entry; a
    body that returns adds one success; a body that raises an
    [Exception] has its error logged, on the standard error and as a
    line of the log file, and the scope returns without a success
    counted; any other exception, like [SystemExit], leaves the scope
    as it is, and so does a body that never returns.  In each case the
    scope changes the host alone.  And a driver whose set-up succeeds
    ([VLANS] is set, its switches start, the names of the machines
    bind) and whose script is made of one subtest raising
    [RuntimeError] and one passing subtest, in either order, the bodies
    leaving the machines and the counters alone, ends with the summary
    "1 out of 2 tests succeeded" and exit status 0. *)
Theorem subtest_scope_counts_and_swallows_Exception
    {St} `{HasHost St} (name : string) (body : M St unit) (s : St)
    (py : Driver.interpreter) (src : string) (vm_scripts : list string)
    (vlans message : string) (h : host) :
  binds_machines py vm_scripts ->
  environ h !! "tests" = Some src ->
  environ h !! "VLANS" = Some vlans ->
  switches_start h vlans ->
  one_raising_one_passing (Driver.exec py src) message ->
  subtest_scope_law name body s /\ ends_with_summary_1_of_2 py vm_scripts h message.
Proof.
  intros Hbinds Htests Hvlans Hstart Hscript. split.
  - apply subtest_law.
  - exact (main_one_raising_one_passing py src vm_scripts vlans message h
             Hbinds Htests Hvlans Hstart Hscript).
Qed.

Lemma subtest_scope_counts_and_swallows_Exception_witness :
  subtest_scope_law "a" (raise (PyException "RuntimeError" "x")) example_host
  /\ ends_with_summary_1_of_2 example_interpreter ["/nix/store/x/bin/run-foo-vm"]
       example_driver_host "x".
Proof.
  apply (subtest_scope_counts_and_swallows_Exception
           "a" (raise (PyException "RuntimeError" "x")) example_host
           example_interpreter "script" ["/nix/store/x/bin/run-foo-vm"] "1" "x"
           example_driver_host).
  - intros s. reflexivity.
  - vm_compute. reflexivity.
  - vm_compute. reflexivity.
  - repeat constructor.
  - exists "a", "b", (raise (PyException "RuntimeError" "x")), (ret tt).
    split; [|split; [|left; reflexivity]];
      intros s; exists s; (split; [reflexivity|]);
      repeat split; exists []; symmetry; apply app_nil_r.
Defined.

(** X1. [Logger.drain_log_queue] always returns and empties the queue:
    it appends to the log, oldest record first, one [line] element per
    waiting record, with the record's machine and [type = serial] as
    attributes and the sanitised message as text.  It prints nothing,
    reads no clock and touches nothing else of the host. *)
Theorem drain_log_queue_writes_queue_in_order (h : host) :
  exists h',
    Logger.drain_log_queue h = (Returns tt, h')
    /\ logged (serial_lines (unicodedata_category h) (queue (log h))) [] [] 0 h h'.
Proof.
  exists (drained h). split; [apply drain_log_queue_drains | apply logged_drained].
Qed.

(** X2. Two calls of [Logger.log] in a row: the records that waited in
    the queue are written once, before the first message; the second
    call finds the queue empty and writes its message alone.  Each call
    prints its message, prefixed with the machine when there is one, on
    the standard error. *)
Theorem log_writes_waiting_records_once
    (first second : string) (attributes attributes' : gmap string string) (h : host) :
  exists h',
    (Logger.log first attributes ;; Logger.log second attributes') h = (Returns tt, h')
    /\ logged (serial_lines (unicodedata_category h) (queue (log h))
               ++ line_element first attributes ++ line_element second attributes')
         []
         [Logger.maybe_prefix first attributes; Logger.maybe_prefix second attributes']
         0 h h'.
Proof.
  destruct (log_logs first attributes h) as (h1 & E1 & L1).
  destruct (log_logs second attributes' h1) as (h2 & E2 & L2).
  exists h2. split; [erewrite bind_returns; [exact E2 | exact E1]|].
  pose proof (logged_trans _ _ _ _ _ _ _ _ _ _ _ L1 L2) as L.
  assert (Hq : queue (log h1) = []) by apply L1.
  rewrite Hq in L. simpl in L. rewrite <- !app_assoc in L. exact L.
Qed.

(** X3. Whatever sequence of [log], [enqueue] and [nested] calls (scopes
    nested to any depth, their bodies returning) runs between the
    creation of the logger and [close], the events written form a
    well-formed document: the document events around one [logfile]
    element whose content closes every element it opens, in order.
    [close] marks the file closed and does not drain the queue: the
    records enqueued after the last [log] or [nested] call stay in it
    and are not in the file. *)
Theorem log_file_is_well_formed (calls : logging) (h : host) :
  exists h',
    (Logger.init ;; perform calls ;; Logger.close) h = (Returns tt, h')
    /\ well_formed_log (xml (log h'))
    /\ logfile_open (log h') = false
    /\ queue (log h') = left_in_queue calls [].
Proof.
  set (h0 := (Logger.init h).2).
  assert (E0 : Logger.init h = (Returns tt, h0)) by reflexivity.
  destruct (perform_logs calls h0) as (h1 & events & printed & measured & E1 & L1 & B1).
  exists (Logger.close h1).2.
  split; [|split; [|split]].
  - erewrite bind_returns; [|exact E0]. erewrite bind_returns; [|exact E1]. reflexivity.
  - exists events. split; [|exact B1].
    destruct L1 as (_ & _ & _ & _ & _ & _ & _ & X1).
    unfold Logger.close, Logger.emit, Logger.modify_log, bind, modify. simpl.
    rewrite X1. rewrite <- !app_assoc. reflexivity.
  - reflexivity.
  - destruct L1 as (_ & _ & _ & _ & _ & _ & Q1 & _). exact Q1.
Qed.

(** X4. [Logger.nested] around any body: before the body starts, the
    message is printed and the [nest] element with its [head] is
    written, followed by the waiting serial records; this leaves [nest]
    open.  When the body raises or never returns, [nested] ends the
    same way in the very state the body left: no elapsed time is read or
    logged and [nest] is never closed.  Only a body that returns gets the
    closing events. *)
Theorem nested_closes_scope_only_when_body_returns
    {St} `{HasHost St} {A} (message : string) (attributes : gmap string string)
    (body : M St A) (s : St) :
  let opening :=
    scope_head message attributes
    ++ serial_lines (unicodedata_category (the_host s)) (queue (log (the_host s))) in
  exists h1,
    logged opening [] [Logger.maybe_prefix message attributes] 0 (the_host s) h1
    /\ (forall stack, open_elements stack opening = Some ("nest" :: stack))
    /\ match body (with_host h1 s) with
       | (Returns a, s2) =>
           exists h3 seconds,
             Logger.nested message attributes body s = (Returns a, with_host h3 s2)
             /\ logged (serial_lines (unicodedata_category (the_host s2))
                          (queue (log (the_host s2)))
                        ++ scope_foot seconds)
                  [] ["(" +:+ seconds +:+ " seconds)"] 1 (the_host s2) h3
       | (Raises e, s2) => Logger.nested message attributes body s = (Raises e, s2)
       | (Blocks, s2) => Logger.nested message attributes body s = (Blocks, s2)
       end.
Proof.
  intros opening.
  destruct (nested_logs message attributes body s) as (h1 & L1 & Hbody).
  exists h1. split; [exact L1|]. split.
  - intros stack. apply scope_head_opens, balanced_serial_lines.
  - destruct (body (with_host h1 s)) as [[a|e|] s2]; try exact Hbody.
    destruct Hbody as (h3 & seconds & L3 & E3). exists h3, seconds. split; assumption.
Qed.

(** X5. [create_machines] makes one machine per start command of the
    command line, in order: its script is the command as given, its name
    the one [__init__] derives from the command, it is neither booted
    nor connected, and its two directories are made under [TMPDIR] (or
    the system's temporary directory).  All machines share one
    [xchg-shared] directory, and two machines with the same name share
    their state directory as well. *)
Theorem create_machines_builds_one_machine_per_script
    (vm_scripts : list string) (h : host) :
  exists ms,
    Driver.create_machines vm_scripts h
    = (Returns ms, set_made_dirs (made_dirs h ++ dirs_of ms) h)
    /\ Forall2 (built_from h) vm_scripts ms
    /\ forall m m',
        In m ms -> In m' ms ->
        Machine.shared_dir m = Machine.shared_dir m'
        /\ (Machine.name m = Machine.name m' -> Machine.state_dir m = Machine.state_dir m').
Proof.
  destruct (create_machines_builds vm_scripts h) as (ms & Ecreate & Hbuilt).
  exists ms. split; [exact Ecreate|]. split; [exact Hbuilt|].
  assert (Hall : forall m, In m ms -> exists cmd, built_from h cmd m).
  { clear Ecreate. induction Hbuilt as [|cmd m0 cmds ms Hm _ IH]; intros m Hin.
    - destruct Hin.
    - destruct Hin as [<-|Hin]; [exists cmd; exact Hm | apply IH, Hin]. }
  intros m m' Hin Hin'.
  destruct (Hall m Hin) as (cmd & _ & _ & Es & Eh & _).
  destruct (Hall m' Hin') as (cmd' & _ & _ & Es' & Eh' & _).
  split; [congruence|]. intros En. rewrite Es, Es', En. reflexivity.
Qed.



(** X7. A test script that returns without entering a subtest and
    without touching the machines: the driver closes the scope around
    the script, skips the sync and logs no summary at all.  What the
    standard error gets after the script is the elapsed time of that
    scope and the scope of the at-exit hook; the counter of the tests
    is still 0, the line "test script finished" is printed last on the
    standard output, and the exit status is 0. *)
Theorem run_without_subtests_logs_no_summary
    (py : Driver.interpreter) (src : string) (vm_scripts : list string)
    (vlans : string) (h : host) :
  binds_machines py vm_scripts ->
  environ h !! "tests" = Some src ->
  environ h !! "VLANS" = Some vlans ->
  switches_start h vlans ->
  (forall s, exists s',
      Driver.exec py src s = (Returns tt, s')
      /\ s'.1 = s.1 /\ nr_tests s'.2 = nr_tests s.2) ->
  exists s1 s2 h' seconds closing finished,
    Driver.exec py src s1 = (Returns tt, s2)
    /\ Driver.main py vm_scripts h = (Returns tt, h')
    /\ Driver.exit_code (Driver.main py vm_scripts h).1 = Some 0
    /\ nr_tests h' = 0
    /\ stderr h' = stderr s2.2
                   ++ ["(" +:+ seconds +:+ " seconds)"; "cleaning up";
                       "(" +:+ closing +:+ " seconds)"]
    /\ stdout h' = stdout s2.2 ++ ["test script finished in " +:+ finished +:+ "s"]
    /\ xml (log h')
       = xml (log s2.2) ++ serial_lines (unicodedata_category s2.2) (queue (log s2.2))
         ++ scope_foot seconds
         ++ scope_head "cleaning up" ∅ ++ scope_foot closing
         ++ [EndElement "logfile"; EndDocument].
Proof.
  intros Hbinds Htests Hvlans Hstart Hscript.
  destruct (set_up_returns py vm_scripts vlans h Hbinds Hvlans Hstart)
    as (vs & ms & h1 & Eset & Hdone).
  destruct Hdone as (_ & Hbuilt & Hkeys & _ & _ & _ & _ & T1 & _).
  assert (Ht1 : environ h1 !! "tests" = Some src)
    by (rewrite (Hkeys "tests" eq_refl); exact Htests).
  pose proof (run_tests_of_script py src ms h1 Ht1) as Erun.
  match type of Erun with
  | _ = bind (Logger.nested ?msg ∅ ?b) ?k _ =>
      destruct (nested_logs msg ∅ b (ms, h1)) as (h1' & L1 & Hbody);
      set (rest := k) in Erun
  end.
  match type of Hbody with
  | (let (_, _) := try_except _ _ ?handler ?s in _) =>
      destruct (Hscript s) as ([ms2 h2] & Eexec & Hms & Hcount);
      assert (Ebody : try_except (Driver.exec py src) is_Exception handler s
                      = (Returns tt, (ms2, h2)))
        by (unfold try_except; rewrite Eexec; reflexivity)
  end.
  cbn [the_host with_host pair_HasHost host_HasHost fst snd] in Hms, Hcount, L1.
  subst ms2.
  assert (Hzero : nr_tests h2 = 0).
  { rewrite Hcount. destruct L1 as (B1 & _).
    apply beyond_log_counters in B1 as [-> _]. exact T1. }
  rewrite Ebody in Hbody. clear Ebody.
  destruct Hbody as (h3 & seconds & L3 & Enested).
  cbn [the_host with_host pair_HasHost host_HasHost fst snd] in L3, Enested.
  rewrite (bind_returns _ rest _ _ _ Enested) in Erun. unfold rest in Erun.
  rewrite (bind_returns _ _ _ _ _
             (sync_skips_down_machines ms h3 (built_from_down _ _ _ Hbuilt))) in Erun.
  unfold bind at 1, on_host at 1, get at 1 in Erun.
  cbn [the_host with_host pair_HasHost host_HasHost fst snd] in Erun.
  assert (Hzero3 : nr_tests h3 = 0).
  { destruct L3 as (B3 & _). apply beyond_log_counters in B3 as [-> _]. exact Hzero. }
  rewrite Hzero3 in Erun. change (bool_decide (0 ≠ 0)) with false in Erun.
  cbv iota in Erun. unfold ret at 1 in Erun.
  destruct (elapsed_logs h3) as (finished & h4 & Eelapsed & L4).
  set (h5 := set_stdout (stdout h4 ++ ["test script finished in " +:+ finished +:+ "s"]) h4).
  assert (Hq5 : queue (log h5) = []).
  { unfold h5. simpl. destruct L4 as (_ & _ & _ & _ & _ & _ & Q4 & _). rewrite Q4.
    apply L3. }
  destruct (clean_up_when_stopped vs ms h5 (built_from_stopped _ _ _ Hbuilt) Hq5)
    as (h' & closing & Eclean & Hsame & _ & E' & X' & _).
  assert (Emain : Driver.main py vm_scripts h = (Returns tt, h')).
  { rewrite (main_of_set_up py vm_scripts h vs ms h1 Eset).
    rewrite (bind_returns _ _ _ _ _ Erun).
    unfold bind at 1, on_host at 1.
    cbn [the_host with_host pair_HasHost host_HasHost fst snd].
    rewrite Eelapsed.
    unfold on_host, print, modify.
    cbn [the_host with_host pair_HasHost host_HasHost fst snd].
    fold h5. rewrite Eclean. reflexivity. }
  eexists _, (ms, h2), h', seconds, closing, finished.
  split; [exact Eexec|]. split; [exact Emain|]. rewrite Emain.
  split; [reflexivity|].
  destruct L3 as (_ & O3 & _ & E3 & _ & _ & _ & X3).
  destruct L4 as (B4 & O4 & _ & E4 & _ & _ & _ & X4).
  apply beyond_log_counters in B4 as [T4 _].
  injection Hsame as Tc _ Oc.
  rewrite app_nil_r in E4, X4. cbn [snd].
  split; [simpl in Tc; lia|].
  split; [rewrite E'; change (stderr h5) with (stderr h4); rewrite E4, E3, <- app_assoc;
          reflexivity|].
  split; [rewrite Oc; simpl; rewrite O4, O3; reflexivity|].
  rewrite X'. change (xml (log h5)) with (xml (log h4)).
  rewrite X4, X3, <- !app_assoc. reflexivity.
Qed.

Lemma run_without_subtests_logs_no_summary_witness :
  exists s1 s2 h' seconds closing finished,
    Driver.exec (interpreter_of (ret tt)) "script" s1 = (Returns tt, s2)
    /\ Driver.main (interpreter_of (ret tt)) ["/nix/store/x/bin/run-foo-vm"]
         example_driver_host = (Returns tt, h')
    /\ Driver.exit_code
         (Driver.main (interpreter_of (ret tt)) ["/nix/store/x/bin/run-foo-vm"]
            example_driver_host).1 = Some 0
    /\ nr_tests h' = 0
    /\ stderr h' = stderr s2.2
                   ++ ["(" +:+ seconds +:+ " seconds)"; "cleaning up";
                       "(" +:+ closing +:+ " seconds)"]
    /\ stdout h' = stdout s2.2 ++ ["test script finished in " +:+ finished +:+ "s"]
    /\ xml (log h')
       = xml (log s2.2) ++ serial_lines (unicodedata_category s2.2) (queue (log s2.2))
         ++ scope_foot seconds
         ++ scope_head "cleaning up" ∅ ++ scope_foot closing
         ++ [EndElement "logfile"; EndDocument].
Proof.
  apply (run_without_subtests_logs_no_summary
           (interpreter_of (ret tt)) "script" ["/nix/store/x/bin/run-foo-vm"] "1"
           example_driver_host).
  - intros s. reflexivity.
  - vm_compute. reflexivity.
  - vm_compute. reflexivity.
  - repeat constructor.
  - intros s. exists s. repeat split.
Defined.



(** ** The status line of a command *)

Lemma in_class_Dot_newline c : Re.in_class Re.Dot c = false -> c = "010"%char.
Proof.
  unfold Re.in_class, Re.code. intros Hc.
  apply negb_false_iff, Nat.eqb_eq in Hc.
  rewrite <- (ascii_nat_embedding c), Hc. reflexivity.
Qed.

Lemma startswith_first_line p :
  one_line p = true ->
  forall s, Text.startswith (first_line s) p = Text.startswith s p.
Proof.
  induction p as [|a p IH]; intros Hp s.
  { destruct s as [|b s]; [reflexivity|]. cbn [first_line].
    destruct (Re.in_class Re.Dot b); reflexivity. }
  unfold one_line in Hp. cbn [list_ascii_of_string forallb] in Hp.
  apply andb_prop in Hp as [Ha Hp].
  destruct s as [|b s]; [reflexivity|].
  cbn [first_line]. destruct (Re.in_class Re.Dot b) eqn:Hb.
  - cbn [Text.startswith]. destruct (decide (a = b)); [apply IH, Hp | reflexivity].
  - cbn [Text.startswith]. destruct (decide (a = b)) as [->|]; [|reflexivity].
    congruence.
Qed.

(** A first line without the sentinel: the first group finds no place
    to stop. *)
Lemma star_without_sentinel (K : Re.cont) :
  (forall pos tail gs, Text.startswith tail sentinel = false -> K (pos, tail) gs = None) ->
  forall s pos gs,
    occurs sentinel (first_line s) = false -> Re.star Re.Dot pos s gs K = None.
Proof.
  intros HK. induction s as [|c s IH]; intros pos gs Hocc.
  - cbn [Re.star]. apply HK. reflexivity.
  - cbn [Re.star]. destruct (Re.in_class Re.Dot c) eqn:Hc.
    + cbn [first_line] in Hocc. rewrite Hc in Hocc. cbn [occurs] in Hocc.
      apply orb_false_elim in Hocc as [Hs Ho].
      rewrite (IH _ _ Ho). apply HK.
      rewrite <- (startswith_first_line sentinel eq_refl).
      cbn [first_line]. rewrite Hc. exact Hs.
    + apply HK. apply in_class_Dot_newline in Hc as ->. reflexivity.
Qed.

(** What follows the first group of the status pattern. *)
Lemma status_tail_needs_sentinel start full pos tail gs :
  Text.startswith tail sentinel = false ->
  Re.run
    (Re.Seq (Re.Lit "|!EOF")
       (Re.Seq (Re.Plus Re.Whitespace) (Re.Group (Re.Plus Re.DecimalDigit))))
    (pos, tail) (gs ++ [Text.take (pos - start) full]) (fun _ gs => Some gs) = None.
Proof. intros Hs. cbn [Re.run fst snd]. unfold sentinel in Hs. rewrite Hs. reflexivity. Qed.

Lemma no_sentinel_no_match chunk :
  occurs sentinel (first_line chunk) = false ->
  Re.match_ Machine.status_code_pattern chunk = None.
Proof.
  intros Hocc. unfold Re.match_, Machine.status_code_pattern.
  cbn [Re.run fst snd].
  apply (star_without_sentinel
           (fun cur' gs' =>
              Re.run
                (Re.Seq (Re.Lit "|!EOF")
                   (Re.Seq (Re.Plus Re.Whitespace) (Re.Group (Re.Plus Re.DecimalDigit))))
                cur' (gs' ++ [Text.take (cur'.1 - 0) chunk]) (fun _ gs => Some gs)));
    [|exact Hocc].
  intros pos tail gs Hs. apply (status_tail_needs_sentinel 0 chunk pos tail gs Hs).
Qed.

(** Greedy repetition keeps the longest run when what follows matches
    there. *)
Lemma star_keeps_success cl a :
  forall pos X gs K r,
    forallb (Re.in_class cl) (list_ascii_of_string a) = true ->
    Re.star cl (pos + String.length a) X gs K = Some r ->
    Re.star cl pos (a +:+ X) gs K = Some r.
Proof.
  induction a as [|c a IH]; intros pos X gs K r Ha HX.
  - cbn in HX |- *. rewrite Nat.add_0_r in HX. exact HX.
  - cbn [list_ascii_of_string forallb] in Ha. apply andb_prop in Ha as [Hc Ha].
    change (String c a +:+ X) with (String c (a +:+ X)).
    cbn [Re.star]. rewrite Hc.
    rewrite (IH (S pos) X gs K r Ha); [reflexivity|].
    cbn [String.length] in HX. rewrite Nat.add_succ_r in HX. exact HX.
Qed.

Lemma digit_is_no_space c : Re.is_digit c = true -> Re.is_space c = false.
Proof.
  unfold Re.is_digit, Re.is_space. intros Hd.
  apply andb_prop in Hd as [H1 H2]. apply Nat.leb_le in H1, H2.
  apply Bool.not_true_is_false. intros Hs.
  rewrite !orb_true_iff, !andb_true_iff, !Nat.leb_le, !Nat.eqb_eq in Hs. lia.
Qed.

Lemma digit_is_no_newline c : Re.is_digit c = true -> Re.in_class Re.Dot c = true.
Proof.
  unfold Re.is_digit, Re.in_class. intros Hd.
  apply andb_prop in Hd as [H1 H2]. apply Nat.leb_le in H1, H2.
  apply negb_true_iff, Nat.eqb_neq. lia.
Qed.

Lemma digit_is_no_bar c : Re.is_digit c = true -> "|"%char <> c.
Proof. intros Hd <-. discriminate Hd. Qed.

Lemma digits_hold_no_sentinel digits rest :
  forallb Re.is_digit (list_ascii_of_string digits) = true ->
  occurs sentinel (first_line (digits +:+ newline +:+ rest)) = false.
Proof.
  induction digits as [|d digits IH]; intros Hd; [reflexivity|].
  cbn [list_ascii_of_string forallb] in Hd. apply andb_prop in Hd as [Hd Hds].
  change (String d digits +:+ newline +:+ rest)
    with (String d (digits +:+ newline +:+ rest)).
  cbn [first_line]. rewrite (digit_is_no_newline d Hd).
  cbn [occurs]. rewrite (IH Hds). unfold sentinel at 1. cbn [Text.startswith].
  destruct (decide ("|"%char = d)) as [E|]; [|reflexivity].
  destruct (digit_is_no_bar d Hd E).
Qed.

Lemma status_line_matches (line digits junk : string) :
  one_line line = true -> is_number digits = true ->
  Re.match_ Machine.status_code_pattern
    (line +:+ sentinel +:+ " " +:+ digits +:+ newline +:+ junk)
  = Some [line; digits].
Proof.
  intros Hline Hnumber.
  apply andb_prop in Hnumber as [Hnonempty Hdigits].
  destruct digits as [|d digits]; [discriminate Hnonempty|]. clear Hnonempty.
  cbn [list_ascii_of_string forallb] in Hdigits. apply andb_prop in Hdigits as [Hd Hds].
  unfold Re.match_, Machine.status_code_pattern.
  cbn [Re.run fst snd].
  apply star_keeps_success; [exact Hline|].
  change (sentinel +:+ " " +:+ String d digits +:+ newline +:+ junk)
    with (String "|" ("!EOF " +:+ String d digits +:+ newline +:+ junk)).
  cbn [Re.star]. change (Re.in_class Re.Dot "|") with true. cbv iota.
  rewrite star_without_sentinel.
  - cbn [fst snd].
    change ("!EOF " +:+ String d digits +:+ newline +:+ junk)
      with (String "!" (String "E" (String "O" (String "F" (String " "
             (String d (digits +:+ newline +:+ junk))))))).
    cbn [Text.startswith Text.drop String.length].
    repeat (destruct (decide _); [|congruence]).
    change (Re.in_class Re.Whitespace " ") with true. cbv iota.
    cbn [Re.star]. change (Re.in_class Re.Whitespace d) with (Re.is_space d).
    rewrite (digit_is_no_space d Hd).
    cbn [fst snd]. change (Re.in_class Re.DecimalDigit d) with (Re.is_digit d).
    rewrite Hd.
    apply star_keeps_success; [exact Hds|].
    change (newline +:+ junk) with (String "010" junk).
    cbn [Re.star]. change (Re.in_class Re.DecimalDigit "010") with false. cbv iota.
    cbn [fst snd app]. do 2 f_equal.
    + rewrite Nat.sub_0_r. apply text_take_app.
    + f_equal.
      match goal with
      | |- Text.take ?n _ = _ =>
          replace n with (String.length (String d digits)) by (cbn [String.length]; lia)
      end.
      apply (text_take_app (String d digits) (String "010" junk)).
  - intros pos tail gs Hs. cbn [fst snd]. unfold sentinel in Hs. rewrite Hs. reflexivity.
  - change ("!EOF " +:+ String d digits +:+ newline +:+ junk)
      with (String "!" (String "E" (String "O" (String "F" (String " "
             (String d digits +:+ newline +:+ junk)))))).
    cbn [first_line].
    change (Re.in_class Re.Dot "!") with true. change (Re.in_class Re.Dot "E") with true.
    change (Re.in_class Re.Dot "O") with true. change (Re.in_class Re.Dot "F") with true.
    change (Re.in_class Re.Dot " ") with true. cbv iota.
    cbn [occurs]. unfold sentinel at 1 2 3 4 5. cbn [Text.startswith].
    repeat (destruct (decide _); [congruence|]).
    cbn [orb]. apply digits_hold_no_sentinel.
    cbn [list_ascii_of_string forallb]. rewrite Hd. exact Hds.
Qed.
(** The loop of [execute] on a feed whose chunks come whole: the chunks
    before the first one that matches are gathered, that chunk gives the
    status and the end of the output. *)
Lemma execute_loop_returns before :
  forall fuel output m h ch final after groups,
    Machine.shell m = Some ch ->
    Machine.incoming ch = before ++ final :: after ->
    Forall (fun c => (String.length c <= 4096)%nat
                     /\ Re.match_ Machine.status_code_pattern c = None) before ->
    (String.length final <= 4096)%nat ->
    Re.match_ Machine.status_code_pattern final = Some groups ->
    (length before < fuel)%nat ->
    Machine.while_true fuel Machine.execute_turn output (m, h)
    = (Returns (Text.to_int (Re.group groups 2),
                output +:+ concat_text before +:+ Re.group groups 1),
       (Machine.set_shell
          (Some {| Machine.incoming := after; Machine.sent := Machine.sent ch |}) m, h)).
Proof.
  induction before as [|c before IH];
    intros fuel output m h ch final after groups Hm Hfeed Hbefore Hlen Hmatch Hfuel;
    (destruct fuel as [|fuel]; [simpl in Hfuel; lia|]);
    rewrite (execute_loop_step fuel output m h ch Hm);
    unfold Machine.recv; rewrite Hfeed; cbn [app].
  - apply Nat.leb_le in Hlen. rewrite Hlen, Hmatch. reflexivity.
  - inversion Hbefore as [|? ? [Hc Hnot] Hrest]; subst.
    apply Nat.leb_le in Hc. rewrite Hc, Hnot.
    set (ch1 := {| Machine.incoming := before ++ final :: after;
                   Machine.sent := Machine.sent ch |}).
    rewrite (IH fuel (output +:+ c) (Machine.set_shell (Some ch1) m) h ch1 final after
               groups eq_refl eq_refl Hrest Hlen Hmatch ltac:(simpl in Hfuel; lia)).
    cbn [concat_text foldr]. rewrite !text_app_assoc. reflexivity.
Qed.

Lemma set_shell_same m ch :
  Machine.shell m = Some ch -> Machine.set_shell (Some ch) m = m.
Proof. destruct m. simpl. intros ->. reflexivity. Qed.

Lemma received_upto_feed n fuel :
  forall ch ch',
    Machine.incoming ch = Machine.incoming ch' ->
    received_upto fuel n ch = received_upto fuel n ch'.
Proof.
  induction fuel as [|fuel IH]; intros ch ch' Hfeed; [reflexivity|].
  cbn [received_upto]. unfold Machine.recv. rewrite Hfeed.
  destruct (Machine.incoming ch') as [|segment rest]; [reflexivity|].
  destruct (String.length segment <=? n)%nat; f_equal; apply IH; reflexivity.
Qed.

(** The loop of [execute] on a feed none of whose chunks matches: every
    chunk is read, then the loop waits. *)
Lemma execute_loop_waits fuel :
  forall output m h ch,
    Machine.shell m = Some ch ->
    Forall (fun c => Re.match_ Machine.status_code_pattern c = None)
      (received_upto fuel 4096 ch) ->
    (Machine.pending ch <= fuel)%nat ->
    exists ch',
      Machine.while_true fuel Machine.execute_turn output (m, h)
      = (Blocks, (Machine.set_shell (Some ch') m, h))
      /\ Machine.incoming ch' = [] /\ Machine.sent ch' = Machine.sent ch.
Proof.
  induction fuel as [|fuel IH]; intros output m h ch Hm Hnone Hfuel.
  - exists ch. split; [|split; [|reflexivity]].
    + cbn. unfold block. rewrite (set_shell_same m ch Hm). reflexivity.
    + pose proof (pending_ge_length ch).
      destruct (Machine.incoming ch); [reflexivity | simpl in *; lia].
  - rewrite (execute_loop_step fuel output m h ch Hm).
    cbn [received_upto] in Hnone.
    destruct (Machine.recv 4096 ch) as [[chunk ch1]|] eqn:Erecv.
    + inversion Hnone as [|? ? Hchunk Hrest]; subst. rewrite Hchunk.
      destruct (recv_pending 4096 ch chunk ch1 ltac:(lia) Erecv) as (Hless & Hsent & _).
      destruct (IH (output +:+ chunk) (Machine.set_shell (Some ch1) m) h ch1
                  eq_refl Hrest ltac:(lia)) as (ch' & E & Hin & Hs).
      exists ch'. split; [exact E|]. split; [exact Hin | congruence].
    + exists ch. split; [|split; [|reflexivity]].
      * rewrite (set_shell_same m ch Hm). reflexivity.
      * unfold Machine.recv in Erecv.
        destruct (Machine.incoming ch) as [|segment rest]; [reflexivity|].
        destruct (String.length segment <=? 4096)%nat; discriminate Erecv.
Qed.

(** [execute] on a machine that is connected. *)
Lemma execute_when_connected command m h ch :
  Machine.connected m = true -> Machine.shell m = Some ch ->
  Machine.execute command (m, h)
  = Machine.while_true (Machine.pending ch) Machine.execute_turn ""
      (Machine.set_shell (Some (Machine.send (wrapped command) ch)) m, h).
Proof.
  intros Hc Hs. unfold Machine.execute.
  unfold bind at 1, Machine.connect at 1, bind at 1, Machine.self at 1.
  cbn [fst snd]. rewrite Hc. unfold ret at 1.
  unfold bind at 1, Machine.shell_send at 1, bind at 1, Machine.self at 1.
  cbn [fst snd]. rewrite Hs. unfold Machine.update_self at 1. cbn [fst snd].
  unfold bind at 1, Machine.shell_pending at 1, bind at 1, Machine.self at 1.
  reflexivity.
Qed.

(** [execute] when the status line comes on the first line of a chunk. *)
Lemma execute_returns (command line digits junk : string) (before after : list string)
    (m : Machine.t) (h : host) (ch : Machine.channel) :
  Machine.connected m = true ->
  Machine.shell m = Some ch ->
  Machine.incoming ch
  = before ++ (line +:+ sentinel +:+ " " +:+ digits +:+ newline +:+ junk) :: after ->
  Forall (fun c => (String.length c <= 4096)%nat
                   /\ occurs sentinel (first_line c) = false) before ->
  (String.length (line +:+ sentinel +:+ " " +:+ digits +:+ newline +:+ junk) <= 4096)%nat ->
  one_line line = true ->
  is_number digits = true ->
  Machine.execute command (m, h)
  = (Returns (Text.to_int digits, concat_text before +:+ line),
     (Machine.set_shell
        (Some {| Machine.incoming := after;
                 Machine.sent := Machine.sent ch ++ [wrapped command] |}) m, h)).
Proof.
  intros Hconnected Hshell Hfeed Hbefore Hlen Hline Hnumber.
  rewrite (execute_when_connected command m h ch Hconnected Hshell).
  rewrite (execute_loop_returns before (Machine.pending ch) ""
             (Machine.set_shell (Some (Machine.send (wrapped command) ch)) m) h
             (Machine.send (wrapped command) ch)
             (line +:+ sentinel +:+ " " +:+ digits +:+ newline +:+ junk) after
             [line; digits] eq_refl Hfeed).
  - reflexivity.
  - eapply Forall_impl; [exact Hbefore|].
    intros c [Hc Hocc]. split; [exact Hc | apply no_sentinel_no_match, Hocc].
  - exact Hlen.
  - apply status_line_matches; assumption.
  - pose proof (pending_ge_length ch) as Hp. rewrite Hfeed, length_app in Hp.
    simpl in Hp. lia.
Qed.


(** ** The life of a machine *)

Lemma later_refl m : later m m.
Proof. unfold later. repeat split; auto. Qed.

Lemma later_trans m1 m2 m3 : later m1 m2 -> later m2 m3 -> later m1 m3.
Proof.
  unfold later.
  intros (N1 & S1 & D1 & X1 & R1 & B1 & C1 & L1) (N2 & S2 & D2 & X2 & R2 & B2 & C2 & L2).
  repeat split; try congruence; auto.
Qed.

Lemma steady_ret {A} (a : A) : steady (ret a).
Proof. intros s. apply later_refl. Qed.

Lemma steady_raise {A} e : steady (raise e : M Machine.state A).
Proof. intros s. apply later_refl. Qed.

Lemma steady_block {A} : steady (block : M Machine.state A).
Proof. intros s. apply later_refl. Qed.

Lemma steady_bind {A B} (c : M Machine.state A) (f : A -> M Machine.state B) :
  steady c -> (forall a, steady (f a)) -> steady (bind c f).
Proof.
  intros Hc Hf s. unfold bind. specialize (Hc s).
  destruct (c s) as [[a|e|] s1]; cbn [fst snd] in *; try exact Hc.
  eapply later_trans; [exact Hc | apply Hf].
Qed.

Lemma steady_on_host {A} (c : M host A) : steady (on_host c).
Proof.
  intros s. unfold on_host.
  match goal with |- context [c ?x] => destruct (c x) end. apply later_refl.
Qed.

Lemma steady_self : steady Machine.self.
Proof. intros s. apply later_refl. Qed.

Lemma steady_log msg : steady (Machine.log msg).
Proof.
  unfold Machine.log. apply steady_bind; [apply steady_self|].
  intros m. apply steady_on_host.
Qed.

Lemma steady_logger_nested {A} message attributes (body : M Machine.state A) :
  steady body -> steady (Logger.nested message attributes body).
Proof.
  intros Hbody. unfold Logger.nested.
  apply steady_bind; [apply steady_on_host|]. intros _.
  apply steady_bind; [exact Hbody|]. intros a.
  apply steady_bind; [apply steady_on_host|]. intros _. apply steady_ret.
Qed.

Lemma steady_nested {A} msg attrs (body : M Machine.state A) :
  steady body -> steady (Machine.nested msg attrs body).
Proof.
  intros Hbody. unfold Machine.nested.
  apply steady_bind; [apply steady_self|]. intros m.
  apply steady_logger_nested, Hbody.
Qed.

Lemma steady_update_self f :
  (forall m, later m (f m)) -> steady (Machine.update_self f).
Proof. intros Hf s. apply Hf. Qed.

Lemma later_set_monitor v m : later m (Machine.set_monitor v m).
Proof. unfold later. simpl. repeat split; auto. Qed.

Lemma later_set_shell v m : later m (Machine.set_shell v m).
Proof. unfold later. simpl. repeat split; auto. Qed.

Lemma later_set_pid v m : later m (Machine.set_pid v m).
Proof. unfold later. simpl. repeat split; auto. Qed.

Lemma later_set_process v m : later m (Machine.set_process v m).
Proof. unfold later. simpl. repeat split; auto. Qed.

Lemma later_set_monitor_socket v m : later m (Machine.set_monitor_socket v m).
Proof. unfold later. simpl. repeat split; auto. Qed.

Lemma later_set_shell_socket v m : later m (Machine.set_shell_socket v m).
Proof. unfold later. simpl. repeat split; auto. Qed.

Lemma later_set_booted m : later m (Machine.set_booted true m).
Proof. unfold later. simpl. repeat split; auto. Qed.

Lemma steady_monitor_recv n : steady (Machine.monitor_recv n).
Proof.
  intros s. unfold Machine.monitor_recv.
  destruct (Machine.monitor s.1) as [ch|]; [|apply later_refl].
  destruct (Machine.recv n ch) as [[text ch']|]; [apply later_set_monitor | apply later_refl].
Qed.

Lemma steady_shell_recv n : steady (Machine.shell_recv n).
Proof.
  intros s. unfold Machine.shell_recv.
  destruct (Machine.shell s.1) as [ch|]; [|apply later_refl].
  destruct (Machine.recv n ch) as [[text ch']|]; [apply later_set_shell | apply later_refl].
Qed.

Lemma steady_shell_send message : steady (Machine.shell_send message).
Proof.
  unfold Machine.shell_send. apply steady_bind; [apply steady_self|]. intros m.
  destruct (Machine.shell m); [|apply steady_raise].
  apply steady_update_self, later_set_shell.
Qed.

Lemma steady_while_true {V A} (body : V -> M Machine.state (V + A)) :
  (forall v, steady (body v)) ->
  forall fuel v, steady (Machine.while_true fuel body v).
Proof.
  intros Hbody. induction fuel as [|fuel IH]; intros v; [apply steady_block|].
  cbn [Machine.while_true]. apply steady_bind; [apply Hbody|].
  intros [v'|a]; [apply IH | apply steady_ret].
Qed.

Lemma steady_for_each {X} (xs : list X) (body : X -> M Machine.state unit) :
  (forall x, steady (body x)) -> steady (for_each xs body).
Proof.
  intros Hbody. induction xs as [|x xs IH]; [apply steady_ret|].
  cbn [for_each]. apply steady_bind; [apply Hbody | intros _; exact IH].
Qed.

Lemma steady_for_each_with {X V} (xs : list X) (body : V -> X -> M Machine.state V) :
  (forall v x, steady (body v x)) -> forall v, steady (for_each_with xs body v).
Proof.
  intros Hbody. induction xs as [|x xs IH]; intros v; [apply steady_ret|].
  cbn [for_each_with]. apply steady_bind; [apply Hbody | intros v'; apply IH].
Qed.

Lemma steady_retry (fn : bool -> M Machine.state bool) :
  (forall last, steady (fn last)) -> steady (retry fn).
Proof.
  intros Hfn. unfold retry.
  assert (Hattempts : forall n, steady (retry_attempts n fn)).
  { induction n as [|n IH]; [apply steady_ret|].
    cbn [retry_attempts]. apply steady_bind; [apply Hfn|].
    intros [|]; [apply steady_ret|].
    apply steady_bind; [apply steady_on_host | intros _; exact IH]. }
  apply steady_bind; [apply Hattempts|].
  intros [|]; [apply steady_ret|].
  apply steady_bind; [apply Hfn|].
  intros [|]; [apply steady_ret | apply steady_raise].
Qed.

Lemma steady_wait_for_monitor_prompt : steady Machine.wait_for_monitor_prompt.
Proof.
  unfold Machine.wait_for_monitor_prompt.
  apply steady_bind; [apply steady_self|]. intros m.
  destruct (bool_decide (Machine.monitor m = None)); [apply steady_raise|].
  apply steady_bind; [|intros turns; apply steady_while_true].
  - unfold Machine.monitor_pending. apply steady_bind; [apply steady_self|].
    intros m'. apply steady_ret.
  - intros []. unfold Machine.prompt_turn.
    apply steady_bind; [apply steady_monitor_recv|].
    intros answer. destruct (Text.endswith answer "(qemu) "); apply steady_ret.
Qed.

Lemma steady_send_monitor_command command : steady (Machine.send_monitor_command command).
Proof.
  unfold Machine.send_monitor_command.
  apply steady_bind; [apply steady_log|]. intros _.
  apply steady_bind; [apply steady_self|]. intros m.
  destruct (Machine.monitor m); [|apply steady_raise].
  apply steady_bind; [apply steady_update_self, later_set_monitor|].
  intros _. apply steady_wait_for_monitor_prompt.
Qed.

Lemma steady_start : steady Machine.start.
Proof.
  unfold Machine.start.
  apply steady_bind; [apply steady_self|]. intros m.
  destruct (Machine.booted m); [apply steady_ret|].
  apply steady_bind; [apply steady_log|]. intros _.
  apply steady_bind; [apply steady_update_self, later_set_monitor_socket|]. intros _.
  apply steady_bind; [apply steady_update_self, later_set_shell_socket|]. intros _.
  apply steady_bind; [apply steady_on_host|]. intros h.
  apply steady_bind; [apply steady_on_host|]. intros _.
  apply steady_bind; [apply steady_update_self, later_set_process|]. intros _.
  destruct (launch h (Machine.script m)) as [vm|]; [|apply steady_block].
  apply steady_bind; [apply steady_update_self, later_set_monitor|]. intros _.
  apply steady_bind; [apply steady_update_self, later_set_shell|]. intros _.
  apply steady_bind; [apply steady_wait_for_monitor_prompt|]. intros _.
  apply steady_bind; [apply steady_update_self, later_set_pid|]. intros _.
  apply steady_bind; [apply steady_update_self, later_set_booted|]. intros _.
  apply steady_log.
Qed.

(** [start] on a machine that is not booted, step by step. *)
Lemma start_spec m h :
  Machine.booted m = false ->
  exists h1,
    beyond_log h1 = beyond_log h
    /\ stderr h1 = stderr h ++ [Machine.name m +:+ ": starting vm"]
    /\ let h2 := set_spawned (spawned h1 ++ [child_of m h]) h1 in
       let m2 := spawned_machine m h in
       match launch h (Machine.script m) with
       | None => Machine.start (m, h) = (Blocks, (m2, h2))
       | Some vm =>
           exists ch',
             Machine.sent ch' = []
             /\ match List.find is_prompted (received 1024 (monitor_feed vm)) with
                | Some _ =>
                    exists h3,
                      beyond_log h3 = beyond_log h2
                      /\ stderr h3
                         = stderr h2
                           ++ [Machine.name m +:+ ": QEMU running (pid "
                               +:+ Text.of_int (guest_pid vm) +:+ ")"]
                      /\ Machine.start (m, h)
                         = (Returns tt,
                            (Machine.set_booted true
                               (Machine.set_pid (Some (guest_pid vm))
                                  (Machine.set_monitor (Some ch')
                                     (Machine.set_shell (Some (shell_feed vm)) m2))),
                             h3))
                | None =>
                    Machine.start (m, h)
                    = (Blocks,
                       (Machine.set_monitor (Some ch')
                          (Machine.set_shell (Some (shell_feed vm)) m2), h2))
                end
       end.
Proof.
  intros Hbooted.
  destruct (machine_log_returns "starting vm" m h) as (h1 & Elog & B1 & _ & E1).
  exists h1. split; [exact B1|]. split; [exact E1|].
  pose proof (start_environment_environ m h h1 (beyond_log_environ _ _ B1)) as Henv.
  assert (Hlaunch : launch h1 = launch h) by (unfold beyond_log in B1; congruence).
  cbv zeta.
  set (h2 := set_spawned (spawned h1 ++ [child_of m h]) h1).
  assert (Estart :
            Machine.start (m, h)
            = match launch h (Machine.script m) with
              | None => block
              | Some vm =>
                  Machine.update_self (Machine.set_monitor (Some (monitor_feed vm))) ;;
                  Machine.update_self (Machine.set_shell (Some (shell_feed vm))) ;;
                  Machine.wait_for_monitor_prompt ;;
                  Machine.update_self (Machine.set_pid (Some (guest_pid vm))) ;;
                  Machine.update_self (Machine.set_booted true) ;;
                  Machine.log ("QEMU running (pid " +:+ Text.of_int (guest_pid vm) +:+ ")")
              end (spawned_machine m h, h2)).
  { unfold Machine.start, bind at 1, Machine.self at 1. cbn [fst snd]. rewrite Hbooted.
    rewrite (bind_returns _ _ _ _ _ Elog).
    unfold bind at 1, Machine.update_self at 1. cbn [fst snd].
    unfold bind at 1, Machine.update_self at 1. cbn [fst snd].
    unfold bind at 1, on_host at 1, get at 1.
    cbn [the_host with_host pair_HasHost host_HasHost fst snd].
    unfold bind at 1, on_host at 1, modify at 1.
    cbn [the_host with_host pair_HasHost host_HasHost fst snd].
    unfold bind at 1, Machine.update_self at 1. cbn [fst snd].
    rewrite Henv, Hlaunch. reflexivity. }
  rewrite Estart. clear Estart.
  destruct (launch h (Machine.script m)) as [vm|]; [|reflexivity].
  destruct (wait_for_monitor_prompt_spec
              (Machine.set_shell (Some (shell_feed vm))
                 (Machine.set_monitor (Some (monitor_feed vm)) (spawned_machine m h)))
              h2 (monitor_feed vm) eq_refl)
    as (ch' & Ewait & Hsent).
  exists ch'. split; [exact Hsent|].
  destruct (List.find is_prompted _).
  - match goal with
    | |- context [Machine.log ?msg] =>
        destruct (machine_log_returns msg
                    (Machine.set_booted true
                       (Machine.set_pid (Some (guest_pid vm))
                          (Machine.set_monitor (Some ch')
                             (Machine.set_shell (Some (shell_feed vm))
                                (spawned_machine m h))))) h2)
          as (h3 & Elog3 & B3 & _ & E3)
    end.
    exists h3. split; [exact B3|]. split; [exact E3|].
    unfold bind at 1, Machine.update_self at 1. cbn [fst snd].
    unfold bind at 1, Machine.update_self at 1. cbn [fst snd].
    unfold bind at 1. rewrite Ewait.
    unfold bind at 1, Machine.update_self at 1. cbn [fst snd].
    unfold bind at 1, Machine.update_self at 1. cbn [fst snd].
    exact Elog3.
  - unfold bind at 1, Machine.update_self at 1. cbn [fst snd].
    unfold bind at 1, Machine.update_self at 1. cbn [fst snd].
    unfold bind at 1. rewrite Ewait. reflexivity.
Qed.

Lemma start_returns_booted s a s' :
  Machine.start s = (Returns a, s') -> Machine.booted s'.1 = true.
Proof.
  destruct s as [m h]. intros E.
  destruct (Machine.booted m) eqn:Hbooted.
  - unfold Machine.start, bind, Machine.self in E. cbn [fst snd] in E.
    rewrite Hbooted in E. injection E as _ <-. exact Hbooted.
  - destruct (start_spec m h Hbooted) as (h1 & _ & _ & Hcase). cbv zeta in Hcase.
    destruct (launch h (Machine.script m)) as [vm|]; [|congruence].
    destruct Hcase as (ch' & _ & Hcase).
    destruct (List.find is_prompted _); [|congruence].
    destruct Hcase as (h3 & _ & _ & E3). rewrite E3 in E. injection E as _ <-. reflexivity.
Qed.

Lemma steady_is_steady_when_booted {A} (c : M Machine.state A) :
  steady c -> steady_when_booted c.
Proof.
  intros Hc s Hb. split; [apply Hc|]. destruct (Hc s) as (_ & _ & _ & _ & _ & B & _).
  apply B, Hb.
Qed.

Lemma steady_when_booted_bind {A B} (c : M Machine.state A) (f : A -> M Machine.state B) :
  steady_when_booted c -> (forall a, steady_when_booted (f a)) ->
  steady_when_booted (bind c f).
Proof.
  intros Hc Hf s Hb. unfold bind. destruct (Hc s Hb) as [L1 B1].
  destruct (c s) as [[a|e|] s1]; cbn [fst snd] in *; try (split; assumption).
  destruct (Hf a s1 B1) as [L2 B2]. split; [|exact B2].
  eapply later_trans; eassumption.
Qed.

Lemma greet_shell_steady_when_booted : steady_when_booted greet_shell.
Proof.
  unfold greet_shell.
  apply steady_when_booted_bind;
    [apply steady_is_steady_when_booted, steady_shell_recv|]. intros _.
  apply steady_when_booted_bind;
    [apply steady_is_steady_when_booted, steady_log|]. intros _.
  apply steady_when_booted_bind;
    [apply steady_is_steady_when_booted, steady_on_host|]. intros seconds.
  apply steady_when_booted_bind;
    [apply steady_is_steady_when_booted, steady_log|]. intros _.
  intros s Hb. unfold Machine.update_self. cbn [fst snd]. split; [|exact Hb].
  unfold later. simpl. repeat split; auto.
Qed.

Lemma steady_connect : steady Machine.connect.
Proof.
  unfold Machine.connect.
  apply steady_bind; [apply steady_self|]. intros m.
  destruct (Machine.connected m); [apply steady_ret|].
  apply steady_nested. fold greet_shell.
  intros s. unfold bind.
  pose proof (steady_start s) as L1.
  destruct (Machine.start s) as [[[]|e|] s1] eqn:E; cbn [fst snd] in *; try exact L1.
  eapply later_trans; [exact L1|].
  apply greet_shell_steady_when_booted. apply (start_returns_booted _ _ _ E).
Qed.

Lemma steady_execute command : steady (Machine.execute command).
Proof.
  unfold Machine.execute.
  apply steady_bind; [apply steady_connect|]. intros _.
  apply steady_bind; [apply steady_shell_send|]. intros _.
  apply steady_bind.
  - unfold Machine.shell_pending. apply steady_bind; [apply steady_self|].
    intros m. apply steady_ret.
  - intros turns. apply steady_while_true. intros output.
    unfold Machine.execute_turn. apply steady_bind; [apply steady_shell_recv|].
    intros chunk. destruct (Re.match_ _ chunk); apply steady_ret.
Qed.

Lemma steady_succeed commands : steady (Machine.succeed commands).
Proof.
  unfold Machine.succeed. apply steady_for_each_with. intros output command.
  unfold Machine.succeed_turn. apply steady_nested.
  apply steady_bind; [apply steady_execute|]. intros [status out].
  destruct (bool_decide (status ≠ 0)); [|apply steady_ret].
  apply steady_bind; [apply steady_log | intros _; apply steady_raise].
Qed.

Lemma steady_fail commands : steady (Machine.fail commands).
Proof.
  unfold Machine.fail. apply steady_for_each. intros command.
  apply steady_nested.
  apply steady_bind; [apply steady_execute|]. intros [status out].
  destruct (bool_decide (status = 0)); [apply steady_raise | apply steady_ret].
Qed.

Lemma steady_systemctl q user : steady (Machine.systemctl q user).
Proof. unfold Machine.systemctl. destruct user; apply steady_execute. Qed.

Lemma steady_port_is_open port last : steady (Machine.port_is_open port last).
Proof.
  unfold Machine.port_is_open.
  apply steady_bind; [apply steady_execute | intros r; apply steady_ret].
Qed.

Lemma steady_port_is_closed port last : steady (Machine.port_is_closed port last).
Proof.
  unfold Machine.port_is_closed.
  apply steady_bind; [apply steady_execute | intros r; apply steady_ret].
Qed.

Lemma steady_wait_for_open_port port : steady (Machine.wait_for_open_port port).
Proof.
  unfold Machine.wait_for_open_port.
  apply (steady_nested _ _ (retry (Machine.port_is_open port))).
  apply (steady_retry (Machine.port_is_open port)). intros last.
  apply steady_port_is_open.
Qed.

Lemma steady_wait_for_closed_port port : steady (Machine.wait_for_closed_port port).
Proof.
  unfold Machine.wait_for_closed_port.
  apply (steady_retry (Machine.port_is_closed port)). intros last.
  apply steady_port_is_closed.
Qed.

Lemma steady_call_verb v : steady (call_verb v).
Proof.
  destruct v; cbn [call_verb].
  - apply steady_start.
  - apply steady_connect.
  - apply steady_bind; [apply steady_execute | intros _; apply steady_ret].
  - apply steady_bind; [apply steady_succeed | intros _; apply steady_ret].
  - apply steady_fail.
  - apply steady_bind; [apply steady_systemctl | intros _; apply steady_ret].
  - unfold Machine.start_job.
    apply steady_bind; [apply steady_systemctl | intros _; apply steady_ret].
  - unfold Machine.stop_job.
    apply steady_bind; [apply steady_systemctl | intros _; apply steady_ret].
  - apply steady_wait_for_open_port.
  - apply steady_wait_for_closed_port.
  - apply steady_bind; [apply steady_send_monitor_command | intros _; apply steady_ret].
  - unfold Machine.send_key.
    apply steady_bind; [apply steady_send_monitor_command | intros _; apply steady_ret].
  - unfold Machine.forward_port.
    apply steady_bind; [apply steady_send_monitor_command | intros _; apply steady_ret].
  - unfold Machine.block.
    apply steady_bind; [apply steady_send_monitor_command | intros _; apply steady_ret].
  - unfold Machine.unblock.
    apply steady_bind; [apply steady_send_monitor_command | intros _; apply steady_ret].
Qed.


Lemma on_host_keeps_machine {A} (c : M host A) (s : Machine.state) :
  (on_host c s).2.1 = s.1.
Proof.
  unfold on_host. match goal with |- context [c ?x] => destruct (c x) end. reflexivity.
Qed.

(** A scope that returns: its body returned, and nothing after the body
    touches the machine. *)
Lemma machine_nested_returns {A} msg attrs (body : M Machine.state A) s a s' :
  Machine.nested msg attrs body s = (Returns a, s') ->
  exists s0 s1, s0.1 = s.1 /\ body s0 = (Returns a, s1) /\ s'.1 = s1.1.
Proof.
  unfold Machine.nested, bind at 1, Machine.self at 1, Logger.nested. intros E.
  unfold bind at 1 in E.
  match type of E with
  | context [on_host ?c s] =>
      pose proof (on_host_keeps_machine c s) as K0; destruct (on_host c s) as [[[]|e|] s0]
  end; try discriminate E.
  unfold bind at 1 in E.
  destruct (body s0) as [[a1|e|] s1] eqn:Ebody; try discriminate E.
  unfold bind at 1 in E.
  match type of E with
  | context [on_host ?c s1] =>
      pose proof (on_host_keeps_machine c s1) as K1; destruct (on_host c s1) as [[[]|e|] s2]
  end; try discriminate E.
  unfold ret in E. injection E as <- <-.
  exists s0, s1. split; [exact K0|]. split; [exact Ebody | exact K1].
Qed.

Lemma connect_returns_connected s a s' :
  Machine.connect s = (Returns a, s') -> Machine.connected s'.1 = true.
Proof.
  unfold Machine.connect, bind at 1, Machine.self at 1.
  destruct (Machine.connected s.1) eqn:Hc.
  - unfold ret. intros E. injection E as _ <-. exact Hc.
  - intros E. apply machine_nested_returns in E as (s0 & s1 & _ & Ebody & ->).
    clear Hc. revert Ebody.
    unfold bind at 1. destruct (Machine.start s0) as [[[]|e|] t1]; try discriminate.
    unfold bind at 1. destruct (Machine.shell_recv 1024 t1) as [[x|e|] t2]; try discriminate.
    unfold bind at 1. destruct (Machine.log _ t2) as [[[]|e|] t3]; try discriminate.
    unfold bind at 1. destruct (on_host elapsed t3) as [[seconds|e|] t4]; try discriminate.
    unfold bind at 1. destruct (Machine.log _ t4) as [[[]|e|] t5]; try discriminate.
    unfold Machine.update_self. intros E. injection E as _ <-. reflexivity.
Qed.

Lemma start_when_booted s : Machine.booted s.1 = true -> Machine.start s = (Returns tt, s).
Proof.
  intros Hb. unfold Machine.start, bind at 1, Machine.self at 1. rewrite Hb. reflexivity.
Qed.

Lemma connect_when_connected s :
  Machine.connected s.1 = true -> Machine.connect s = (Returns tt, s).
Proof.
  intros Hc. unfold Machine.connect, bind at 1, Machine.self at 1. rewrite Hc. reflexivity.
Qed.




(** X9. [execute] on a connected machine whose shell delivers ASCII
    output in chunks of at most 4096 characters: when the first lines of the
    chunks [before] hold no sentinel and the next chunk has, on its
    first line, some text, the sentinel, a space and the digits of the
    status, [execute] sends the wrapped command, returns the status as
    an integer and, as output, the chunks [before] followed by the text
    in front of the sentinel.  Whatever follows the status line in that
    chunk is dropped; the chunks [after] stay on the channel. *)
Theorem execute_returns_status_and_output
    (command line digits junk : string) (before after : list string)
    (m : Machine.t) (h : host) (ch : Machine.channel) :
  Machine.connected m = true ->
  Machine.shell m = Some ch ->
  ascii_traffic ch ->
  Machine.incoming ch
  = before ++ (line +:+ sentinel +:+ " " +:+ digits +:+ newline +:+ junk) :: after ->
  Forall (fun c => (String.length c <= 4096)%nat
                   /\ occurs sentinel (first_line c) = false) before ->
  (String.length (line +:+ sentinel +:+ " " +:+ digits +:+ newline +:+ junk) <= 4096)%nat ->
  one_line line = true ->
  is_number digits = true ->
  Machine.execute command (m, h)
  = (Returns (Text.to_int digits, concat_text before +:+ line),
     (Machine.set_shell
        (Some {| Machine.incoming := after;
                 Machine.sent := Machine.sent ch ++ [wrapped command] |}) m, h)).
Proof.
  intros Hconnected Hshell _. apply execute_returns; assumption.
Qed.

Lemma execute_returns_status_and_output_witness :
  Machine.execute "make"
    (running_machine []
       ["a"; "b" +:+ newline;
        "out" +:+ sentinel +:+ " " +:+ "3" +:+ newline +:+ "junk"; "later"],
     example_host)
  = (Returns (Text.to_int "3", concat_text ["a"; "b" +:+ newline] +:+ "out"),
     (Machine.set_shell
        (Some {| Machine.incoming := ["later"];
                 Machine.sent := [] ++ [wrapped "make"] |})
        (running_machine []
           ["a"; "b" +:+ newline;
            "out" +:+ sentinel +:+ " " +:+ "3" +:+ newline +:+ "junk"; "later"]),
      example_host)).
Proof.
  apply (execute_returns_status_and_output "make" "out" "3" "junk"
           ["a"; "b" +:+ newline] ["later"]
           (running_machine []
              ["a"; "b" +:+ newline;
               "out" +:+ sentinel +:+ " " +:+ "3" +:+ newline +:+ "junk"; "later"])
           example_host
           {| Machine.incoming :=
                ["a"; "b" +:+ newline;
                 "out" +:+ sentinel +:+ " " +:+ "3" +:+ newline +:+ "junk"; "later"];
              Machine.sent := [] |}).
  - reflexivity.
  - reflexivity.
  - repeat (constructor; [split; reflexivity|]). constructor.
  - reflexivity.
  - repeat (constructor; [split; [simpl; lia | reflexivity]|]). constructor.
  - simpl. lia.
  - reflexivity.
  - reflexivity.
Defined.

(** X10. [execute] on a connected machine with ASCII traffic: when no
    chunk that the shell delivers holds the sentinel on its first line, [execute] sends the
    wrapped command, reads every chunk and then waits for ever; the
    sentinel on a later line of a chunk is never seen. *)
Theorem execute_waits_unless_a_first_line_holds_the_sentinel
    (command : string) (m : Machine.t) (h : host) (ch : Machine.channel) :
  Machine.connected m = true ->
  Machine.shell m = Some ch ->
  ascii_traffic ch ->
  Forall (fun c => occurs sentinel (first_line c) = false) (received 4096 ch) ->
  Machine.execute command (m, h)
  = (Blocks,
     (Machine.set_shell
        (Some {| Machine.incoming := [];
                 Machine.sent := Machine.sent ch ++ [wrapped command] |}) m, h)).
Proof.
  intros Hconnected Hshell _ Hnone.
  rewrite (execute_when_connected command m h ch Hconnected Hshell).
  destruct (execute_loop_waits (Machine.pending ch) ""
              (Machine.set_shell (Some (Machine.send (wrapped command) ch)) m) h
              (Machine.send (wrapped command) ch) eq_refl)
    as (ch' & E & Hin & Hsent).
  - rewrite (received_upto_feed 4096 (Machine.pending ch)
               (Machine.send (wrapped command) ch) ch eq_refl).
    eapply Forall_impl; [exact Hnone|]. intros c Hc. apply no_sentinel_no_match, Hc.
  - reflexivity.
  - rewrite E. destruct ch' as [incoming' sent']. simpl in Hin, Hsent. subst.
    reflexivity.
Qed.

Lemma execute_waits_unless_a_first_line_holds_the_sentinel_witness :
  Machine.execute "echo hello"
    (running_machine [] ["hello" +:+ newline +:+ "|!EOF 0" +:+ newline], example_host)
  = (Blocks,
     (Machine.set_shell
        (Some {| Machine.incoming := [];
                 Machine.sent := [] ++ [wrapped "echo hello"] |})
        (running_machine [] ["hello" +:+ newline +:+ "|!EOF 0" +:+ newline]),
      example_host)).
Proof.
  apply (execute_waits_unless_a_first_line_holds_the_sentinel "echo hello"
           (running_machine [] ["hello" +:+ newline +:+ "|!EOF 0" +:+ newline])
           example_host
           {| Machine.incoming := ["hello" +:+ newline +:+ "|!EOF 0" +:+ newline];
              Machine.sent := [] |}).
  - reflexivity.
  - reflexivity.
  - repeat (constructor; [split; reflexivity|]). constructor.
  - repeat constructor.
Defined.

(** X11. The methods of a machine that a test script calls ([start],
    [connect], [execute], [succeed], [fail], [systemctl], [start_job],
    [stop_job], the waits for a port, the monitor commands) never
    change its name, script, directories or reboot flag, never take
    [booted] or [connected] back, and keep a connected machine booted;
    this holds for any sequence of them and however the sequence ends,
    with a result, an exception or a wait for ever. *)
Theorem verbs_keep_the_machine_and_never_unboot
    (verbs : list verb) (s : Machine.state) :
  ascii_machine s ->
  later s.1 (call_verbs verbs s).2.1.
Proof.
  intros _. apply steady_for_each. apply steady_call_verb.
Qed.

Lemma verbs_keep_the_machine_and_never_unboot_witness :
  later (fresh_machine, example_host).1
        (call_verbs [Connect; Execute "true"; SendKey "a"; Start]
           (fresh_machine, example_host)).2.1.
Proof.
  apply (verbs_keep_the_machine_and_never_unboot
           [Connect; Execute "true"; SendKey "a"; Start] (fresh_machine, example_host)).
  split; [intros ch E; discriminate E|].
  split; [intros ch E; discriminate E|].
  intros cmd vm E. injection E as <-.
  split; repeat (constructor; [split; reflexivity|]); constructor.
Defined.



(** X13. [start] and [connect] settle: once [connect] has returned, the
    machine is connected and, when a connected machine was booted
    before, booted; a second [connect] or [start] returns at once and
    changes nothing, neither the machine nor what is logged. *)
Theorem connect_settles (s s' : Machine.state) :
  ascii_machine s ->
  (Machine.connected s.1 = true -> Machine.booted s.1 = true) ->
  Machine.connect s = (Returns tt, s') ->
  Machine.connected s'.1 = true
  /\ Machine.booted s'.1 = true
  /\ Machine.connect s' = (Returns tt, s')
  /\ Machine.start s' = (Returns tt, s').
Proof.
  intros _ Hinv E.
  pose proof (connect_returns_connected _ _ _ E) as Hc.
  pose proof (steady_connect s) as Hlater. rewrite E in Hlater. cbn [fst snd] in Hlater.
  destruct Hlater as (_ & _ & _ & _ & _ & _ & _ & Hb).
  specialize (Hb Hinv Hc).
  split; [exact Hc|]. split; [exact Hb|].
  split; [apply connect_when_connected, Hc | apply start_when_booted, Hb].
Qed.

Lemma connect_settles_witness :
  Machine.connected (Machine.connect (fresh_machine, example_host)).2.1 = true
  /\ Machine.booted (Machine.connect (fresh_machine, example_host)).2.1 = true
  /\ Machine.connect (Machine.connect (fresh_machine, example_host)).2
     = (Returns tt, (Machine.connect (fresh_machine, example_host)).2)
  /\ Machine.start (Machine.connect (fresh_machine, example_host)).2
     = (Returns tt, (Machine.connect (fresh_machine, example_host)).2).
Proof.
  apply (connect_settles (fresh_machine, example_host)
           (Machine.connect (fresh_machine, example_host)).2).
  - split; [intros ch E; discriminate E|].
    split; [intros ch E; discriminate E|].
    intros cmd vm E. injection E as <-.
    split; repeat (constructor; [split; reflexivity|]); constructor.
  - intros E. discriminate E.
  - vm_compute. reflexivity.
Defined.



(** X14. The set-up of [__main__] starts one VDE switch for each
    network number of [VLANS], a number that occurs twice counting
    once, in the order in which the numbers first occur, before any
    machine is made; it then exports the control socket of each switch
    as [QEMU_VDE_SOCKET_<number>] and leaves every variable of the
    environment whose name does not start with [QEMU_VDE_SOCKET_] as
    it was. *)
Theorem set_up_starts_one_switch_per_network
    (py : Driver.interpreter) (vm_scripts : list string) (vlans : string) (h : host) :
  binds_machines py vm_scripts ->
  environ h !! "VLANS" = Some vlans ->
  switches_start h vlans ->
  exists vs ms h1,
    Driver.set_up py vm_scripts h = (Returns (vs, ms), h1)
    /\ map Driver.vlan_nr vs = fromkeys (split vlans)
    /\ List.NoDup (map Driver.vlan_nr vs)
    /\ (forall nr, In nr (split vlans) <-> In nr (map Driver.vlan_nr vs))
    /\ spawned h1 = spawned h ++ map Driver.vde_process vs
    /\ (forall v, In v vs ->
                  v = vlan_of h (Driver.vlan_nr v)
                  /\ environ h1 !! ("QEMU_VDE_SOCKET_" +:+ Driver.vlan_nr v)
                     = Some (abspath h ("./vde" +:+ Driver.vlan_nr v +:+ ".ctl")))
    /\ (forall key, Text.startswith key "QEMU_VDE_SOCKET_" = false ->
                    environ h1 !! key = environ h !! key).
Proof.
  intros Hbinds Hvlans Hstart.
  destruct (set_up_trace py vm_scripts vlans h Hbinds Hvlans Hstart)
    as (vs & ms & h1 & E & Hdone & Henv).
  destruct Hdone as (-> & _ & Hkeys & _ & _ & Hspawned & _).
  assert (Hnrs : map Driver.vlan_nr (map (vlan_of h) (fromkeys (split vlans)))
                 = fromkeys (split vlans)).
  { rewrite map_map. apply map_id. }
  exists (map (vlan_of h) (fromkeys (split vlans))), ms, h1.
  split; [exact E|]. split; [exact Hnrs|]. rewrite Hnrs.
  split; [apply fromkeys_after_NoDup|].
  split.
  { intros nr. unfold fromkeys. rewrite fromkeys_after_In. simpl. tauto. }
  split; [exact Hspawned|]. split; [|exact Hkeys].
  intros v Hin. pose proof Hin as Hv. apply in_map_iff in Hv as (nr & <- & _).
  split; [reflexivity|]. rewrite Henv.
  rewrite (exported_lookup _ (environ h) (vlan_of h nr));
    [reflexivity | rewrite Hnrs; apply fromkeys_after_NoDup | exact Hin].
Qed.

Lemma set_up_starts_one_switch_per_network_witness :
  exists vs ms h1,
    Driver.set_up example_interpreter ["/nix/store/x/bin/run-foo-vm"]
      (set_environ (<["VLANS" := "1 2 1"]> (environ example_host)) example_host)
    = (Returns (vs, ms), h1)
    /\ map Driver.vlan_nr vs = fromkeys (split "1 2 1")
    /\ List.NoDup (map Driver.vlan_nr vs)
    /\ (forall nr, In nr (split "1 2 1") <-> In nr (map Driver.vlan_nr vs))
    /\ spawned h1
       = spawned (set_environ (<["VLANS" := "1 2 1"]> (environ example_host)) example_host)
         ++ map Driver.vde_process vs
    /\ (forall v, In v vs ->
                  v = vlan_of (set_environ (<["VLANS" := "1 2 1"]> (environ example_host))
                                 example_host) (Driver.vlan_nr v)
                  /\ environ h1 !! ("QEMU_VDE_SOCKET_" +:+ Driver.vlan_nr v)
                     = Some (abspath
                               (set_environ (<["VLANS" := "1 2 1"]> (environ example_host))
                                  example_host)
                               ("./vde" +:+ Driver.vlan_nr v +:+ ".ctl")))
    /\ (forall key, Text.startswith key "QEMU_VDE_SOCKET_" = false ->
                    environ h1 !! key
                    = environ (set_environ (<["VLANS" := "1 2 1"]> (environ example_host))
                                 example_host) !! key).
Proof.
  apply (set_up_starts_one_switch_per_network example_interpreter
           ["/nix/store/x/bin/run-foo-vm"] "1 2 1"
           (set_environ (<["VLANS" := "1 2 1"]> (environ example_host)) example_host)).
  - intros s. reflexivity.
  - vm_compute. reflexivity.
  - repeat constructor.
Defined.

(** X15. [Machine(args)] evaluates [create_startcommand(args)] as the
    default of [args.get("startCommand", ...)], whether a start command
    is given or not.  So arguments that name a disk image ([hda]) and
    no [hdaInterface] make the constructor raise
    [KeyError('hdaInterface')], even with a start command, and no
    directory is made. *)
Theorem init_with_hda_needs_hdaInterface
    (args : Machine.Args) (hda : string) (h : host) :
  Machine.arg_hda args = Some hda ->
  Machine.arg_hdaInterface args = None ->
  Machine.create_startcommand h args = Raises (Machine.KeyError "hdaInterface")
  /\ Machine.init args h = (Raises (Machine.KeyError "hdaInterface"), h)
  /\ Driver.create_machine args h = (Raises (Machine.KeyError "hdaInterface"), h).
Proof.
  intros Hhda Hinterface.
  assert (E : forall a : Machine.Args,
             Machine.arg_hda a = Some hda -> Machine.arg_hdaInterface a = None ->
             Machine.create_startcommand h a = Raises (Machine.KeyError "hdaInterface")).
  { intros a Ha Hi. unfold Machine.create_startcommand. rewrite Ha, Hi. reflexivity. }
  split; [apply E; assumption|]. split.
  - unfold Machine.init, bind at 1, get at 1. unfold bind at 1.
    rewrite (E args Hhda Hinterface). reflexivity.
  - unfold Driver.create_machine, bind at 1, get at 1.
    unfold Machine.init, bind at 1, get at 1. unfold bind at 1.
    rewrite E by assumption. reflexivity.
Qed.

Lemma init_with_hda_needs_hdaInterface_witness :
  Machine.create_startcommand example_host
    (hda_without_interface (Some "/nix/store/x/bin/run-foo-vm"))
  = Raises (Machine.KeyError "hdaInterface")
  /\ Machine.init (hda_without_interface (Some "/nix/store/x/bin/run-foo-vm")) example_host
     = (Raises (Machine.KeyError "hdaInterface"), example_host)
  /\ Driver.create_machine (hda_without_interface (Some "/nix/store/x/bin/run-foo-vm"))
       example_host
     = (Raises (Machine.KeyError "hdaInterface"), example_host).
Proof.
  apply (init_with_hda_needs_hdaInterface
           (hda_without_interface (Some "/nix/store/x/bin/run-foo-vm")) "disk.img"
           example_host).
  - reflexivity.
  - reflexivity.
Defined.

(** X16. Without [tests] in the environment [run_tests] opens the
    interactive prompt instead of running a script, outside any scope
    and outside any [try]: an exception that leaves the prompt leaves
    [run_tests] unchanged, an [Exception] too, and nothing is synced or
    summed up after it.  When the prompt returns with every machine
    not booted, no machine is synced, and the summary is logged
    exactly when a subtest was counted. *)
Theorem run_tests_without_tests_opens_the_prompt
    (py : Driver.interpreter) (s : Driver.state) :
  environ s.2 !! "tests" = None ->
  match Driver.repl py s with
  | (Returns _, s') =>
      Forall (fun m => Machine.booted m = false) s'.1 ->
      Driver.run_tests py s
      = if bool_decide (nr_tests s'.2 ≠ 0)
        then on_host (Logger.log (Text.of_int (nr_succeeded s'.2) +:+ " out of "
                                  +:+ Text.of_int (nr_tests s'.2)
                                  +:+ " tests succeeded") ∅) s'
        else (Returns tt, s')
  | (Raises e, s') => Driver.run_tests py s = (Raises e, s')
  | (Blocks, s') => Driver.run_tests py s = (Blocks, s')
  end.
Proof.
  intros Htests.
  assert (Erun : Driver.run_tests py s
                 = bind (Driver.repl py)
                     (fun _ =>
                        Driver.for_machines
                          (up <- Machine.is_up ;;
                           if (up : bool) then Machine.execute "sync" ;; ret tt
                           else ret tt) ;;
                        h <- on_host get ;;
                        if bool_decide (nr_tests h ≠ 0) then
                          on_host (Logger.log (Text.of_int (nr_succeeded h) +:+ " out of "
                                               +:+ Text.of_int (nr_tests h)
                                               +:+ " tests succeeded") ∅)
                        else ret tt) s).
  { unfold Driver.run_tests, bind at 1, on_host at 1, get at 1.
    cbn [the_host with_host pair_HasHost host_HasHost fst snd].
    destruct s as [ms h]. cbn [fst snd] in *. rewrite Htests. reflexivity. }
  rewrite Erun. clear Erun.
  destruct (Driver.repl py s) as [[[]|e|] [ms' h']] eqn:Erepl.
  - intros Hdown. cbn [fst snd] in *.
    rewrite (bind_returns _ _ _ _ _ Erepl).
    rewrite (bind_returns _ _ _ _ _ (sync_skips_down_machines ms' h' Hdown)).
    unfold bind at 1, on_host at 1, get at 1.
    cbn [the_host with_host pair_HasHost host_HasHost fst snd].
    destruct (bool_decide (nr_tests h' ≠ 0)); reflexivity.
  - apply bind_raises, Erepl.
  - apply bind_blocks, Erepl.
Qed.

Lemma run_tests_without_tests_opens_the_prompt_witness :
  match Driver.repl example_interpreter
          ([fresh_machine], set_environ ∅ example_host) with
  | (Returns _, s') =>
      Forall (fun m => Machine.booted m = false) s'.1 ->
      Driver.run_tests example_interpreter ([fresh_machine], set_environ ∅ example_host)
      = if bool_decide (nr_tests s'.2 ≠ 0)
        then on_host (Logger.log (Text.of_int (nr_succeeded s'.2) +:+ " out of "
                                  +:+ Text.of_int (nr_tests s'.2)
                                  +:+ " tests succeeded") ∅) s'
        else (Returns tt, s')
  | (Raises e, s') =>
      Driver.run_tests example_interpreter ([fresh_machine], set_environ ∅ example_host)
      = (Raises e, s')
  | (Blocks, s') =>
      Driver.run_tests example_interpreter ([fresh_machine], set_environ ∅ example_host)
      = (Blocks, s')
  end.
Proof.
  apply (run_tests_without_tests_opens_the_prompt example_interpreter
           ([fresh_machine], set_environ ∅ example_host)).
  reflexivity.
Defined.

(** ** The at-exit hook *)

Lemma clean_up_kills_machines (ms : list Machine.t) :
  forall h,
    queue (log h) = [] ->
    Forall pid_of_a_process ms ->
    exists h',
      Driver.for_machines
        (m <- Machine.self ;;
         match Machine.pid m with
         | None => ret tt
         | Some pid =>
             on_host (Logger.log ("killing " +:+ Machine.name m +:+ " (pid "
                                  +:+ Text.of_int pid +:+ ")") ∅) ;;
             match Machine.process m with
             | Some process => on_host (Driver.kill process)
             | None =>
                 raise (PyException "AttributeError"
                          "'NoneType' object has no attribute 'kill'")
             end
         end) (ms, h)
      = (Returns tt, (ms, h'))
      /\ beyond_log h' = beyond_log (set_killed (killed h ++ map snd (kills ms)) h)
      /\ timings h' = timings h
      /\ stderr h' = stderr h ++ map fst (kills ms)
      /\ log h' = {| logfile := logfile (log h);
                     xml := xml (log h)
                            ++ flat_map (fun k => line_element k.1 ∅) (kills ms);
                     queue := [];
                     logfile_open := logfile_open (log h) |}.
Proof.
  unfold Driver.for_machines. cbn [fst snd].
  induction ms as [|m ms IH]; intros h Hqueue Hms.
  - exists h. split; [reflexivity|]. simpl. rewrite !app_nil_r.
    split; [destruct h; reflexivity|]. split; [reflexivity|]. split; [reflexivity|].
    destruct h as [? ? ? ? ? ? ? ? ? ? ? ? ? l ? ?]. destruct l. simpl in *. congruence.
  - inversion Hms as [|? ? Hm Hrest]; subst.
    cbn [Driver.each_machine].
    unfold bind at 1, Machine.self at 1. cbn [fst snd].
    unfold kills. cbn [flat_map]. fold (kills ms).
    destruct (Machine.pid m) as [pid|] eqn:Hpid.
    + destruct Hm as [Hnone|[process Hprocess]]; [congruence|].
      rewrite Hprocess.
      destruct (log_logs ("killing " +:+ Machine.name m +:+ " (pid "
                          +:+ Text.of_int pid +:+ ")") ∅ h) as (h1 & Elog & L1).
      rewrite Hqueue in L1. simpl in L1.
      destruct L1 as (B1 & O1 & T1 & E1 & F1 & P1 & Q1 & X1).
      unfold bind at 1, on_host at 1.
      cbn [the_host with_host pair_HasHost host_HasHost fst snd].
      rewrite Elog. unfold on_host at 1, Driver.kill at 1, modify at 1.
      cbn [the_host with_host pair_HasHost host_HasHost fst snd].
      destruct (IH (set_killed (killed h1 ++ [process]) h1)) as (h3 & Erest & B3 & T3 & E3 & X3);
        [exact Q1 | exact Hrest |].
      rewrite Erest. exists h3. split; [reflexivity|].
      split; [|split; [|split]].
      * rewrite B3. unfold beyond_log in *. simpl.
        injection B1 as -> -> -> -> -> -> -> -> -> -> -> -> ->.
        rewrite <- app_assoc. reflexivity.
      * rewrite T3. simpl. exact T1.
      * rewrite E3. simpl. rewrite E1, <- app_assoc. reflexivity.
      * rewrite X3. simpl. rewrite F1, P1, X1, <- app_assoc. reflexivity.
    + unfold ret at 1.
      destruct (IH h Hqueue Hrest) as (h3 & Erest & B3 & T3 & E3 & X3).
      rewrite Erest. exists h3. split; [reflexivity|]. simpl.
      split; [exact B3|]. split; [exact T3|]. split; [exact E3 | exact X3].
Qed.

(** X18. The at-exit hook [clean_up], on machines of which each one
    with a pid has its process: inside the scope "cleaning up" it
    logs "killing <name> (pid <pid>)" for every machine that has a
    pid and kills its process, in the order of the list, skipping the
    machines without a pid; then it kills the process of every VDE
    switch; after the scope it closes the log, which ends the
    [logfile] element and the document.  The machines themselves are
    left as they are. *)
Theorem clean_up_kills_machines_then_switches
    (vs : list Driver.vlan) (ms : list Machine.t) (h : host) :
  Forall pid_of_a_process ms ->
  exists h' seconds,
    Driver.clean_up vs (ms, h) = (Returns tt, (ms, h'))
    /\ killed h' = killed h ++ map snd (kills ms) ++ map Driver.vde_process vs
    /\ stderr h'
       = stderr h ++ ["cleaning up"] ++ map fst (kills ms)
         ++ ["(" +:+ seconds +:+ " seconds)"]
    /\ xml (log h')
       = xml (log h) ++ scope_head "cleaning up" ∅
         ++ serial_lines (unicodedata_category h) (queue (log h))
         ++ flat_map (fun k => line_element k.1 ∅) (kills ms)
         ++ scope_foot seconds
         ++ [EndElement "logfile"; EndDocument]
    /\ logfile_open (log h') = false.
Proof.
  intros Hms. unfold Driver.clean_up.
  match goal with
  | |- context [Logger.nested ?msg ∅ ?b] =>
      destruct (nested_logs msg ∅ b (ms, h)) as (h1 & L1 & Hbody)
  end.
  cbn [the_host with_host pair_HasHost host_HasHost fst snd] in L1, Hbody.
  assert (Hq1 : queue (log h1) = []) by apply L1.
  destruct (clean_up_kills_machines ms h1 Hq1 Hms) as (h2 & Ekill & B2 & T2 & E2 & X2).
  rewrite (bind_returns _ _ _ _ _ Ekill) in Hbody.
  unfold on_host in Hbody.
  cbn [the_host with_host pair_HasHost host_HasHost fst snd] in Hbody.
  rewrite kill_switches in Hbody.
  destruct Hbody as (h3 & seconds & L3 & Enested).
  cbn [the_host with_host pair_HasHost host_HasHost fst snd] in L3, Enested.
  change (queue (log (set_killed _ h2))) with (queue (log h2)) in L3.
  rewrite X2 in L3. cbn [queue serial_lines flat_map app] in L3.
  exists (Logger.close h3).2, seconds.
  split.
  { rewrite (bind_returns _ _ _ _ _ Enested). reflexivity. }
  destruct L1 as (B1 & O1 & _ & E1 & _ & _ & _ & X1).
  destruct L3 as (B3 & O3 & _ & E3 & _ & _ & _ & X3).
  unfold beyond_log in B1, B2, B3. simpl in B2, B3.
  injection B1 as _ _ _ _ _ _ _ _ _ _ K1 _ _.
  injection B2 as _ _ _ _ _ _ _ _ _ _ K2 _ _.
  injection B3 as _ _ _ _ _ _ _ _ _ _ K3 _ _.
  unfold Logger.close, Logger.emit, Logger.modify_log, bind, modify. simpl.
  split; [rewrite K3, K2, K1, <- app_assoc; reflexivity|].
  split; [simpl in E3; rewrite E3, E2, E1, <- !app_assoc; reflexivity|].
  split; [|reflexivity].
  simpl in X3. rewrite X3, X2. cbn [xml].
  rewrite X1, <- !app_assoc. reflexivity.
Qed.

Lemma clean_up_kills_machines_then_switches_witness :
  exists h' seconds,
    Driver.clean_up [vlan_of example_host "1"]
      ([fresh_machine;
        Machine.set_process (Some (child_of fresh_machine example_host))
          (running_machine [] [])], example_host)
    = (Returns tt,
       ([fresh_machine;
         Machine.set_process (Some (child_of fresh_machine example_host))
           (running_machine [] [])], h'))
    /\ killed h'
       = killed example_host
         ++ map snd (kills [fresh_machine;
                            Machine.set_process
                              (Some (child_of fresh_machine example_host))
                              (running_machine [] [])])
         ++ map Driver.vde_process [vlan_of example_host "1"]
    /\ stderr h'
       = stderr example_host ++ ["cleaning up"]
         ++ map fst (kills [fresh_machine;
                            Machine.set_process
                              (Some (child_of fresh_machine example_host))
                              (running_machine [] [])])
         ++ ["(" +:+ seconds +:+ " seconds)"]
    /\ xml (log h')
       = xml (log example_host) ++ scope_head "cleaning up" ∅
         ++ serial_lines (unicodedata_category example_host) (queue (log example_host))
         ++ flat_map (fun k => line_element k.1 ∅)
              (kills [fresh_machine;
                      Machine.set_process (Some (child_of fresh_machine example_host))
                        (running_machine [] [])])
         ++ scope_foot seconds
         ++ [EndElement "logfile"; EndDocument]
    /\ logfile_open (log h') = false.
Proof.
  apply (clean_up_kills_machines_then_switches [vlan_of example_host "1"]
           [fresh_machine;
            Machine.set_process (Some (child_of fresh_machine example_host))
              (running_machine [] [])] example_host).
  constructor; [left; reflexivity|].
  constructor; [right; eexists; reflexivity|]. constructor.
Defined.





(** X21. [systemctl] on a connected machine whose shell answers (in
    ASCII) with the status line on the first line of a chunk: for the
    system manager it executes "systemctl <q>"; for a user it executes
    [su -l <user> -c] with a [$'...'] string that sets
    [XDG_RUNTIME_DIR] and calls "systemctl --user <q>", every single
    quote of [q] having got a backslash in front (a query without
    quotes is passed as it is).  It returns the status and the output
    of [execute]; [start_job] and [stop_job] are [systemctl] with
    "start <job>" and "stop <job>". *)
Theorem systemctl_executes_the_query
    (q line digits junk : string) (user : option string) (after : list string)
    (m : Machine.t) (h : host) (ch : Machine.channel) :
  Machine.connected m = true ->
  Machine.shell m = Some ch ->
  ascii_traffic ch ->
  Machine.incoming ch
  = (line +:+ sentinel +:+ " " +:+ digits +:+ newline +:+ junk) :: after ->
  (String.length (line +:+ sentinel +:+ " " +:+ digits +:+ newline +:+ junk) <= 4096)%nat ->
  one_line line = true ->
  is_number digits = true ->
  let answered command :=
    (Returns (Text.to_int digits, line),
     (Machine.set_shell
        (Some {| Machine.incoming := after;
                 Machine.sent := Machine.sent ch ++ [wrapped command] |}) m, h)) in
  Machine.systemctl q user (m, h) = answered (systemctl_command q user)
  /\ Machine.start_job q user (m, h) = answered (systemctl_command ("start " +:+ q) user)
  /\ Machine.stop_job q user (m, h) = answered (systemctl_command ("stop " +:+ q) user)
  /\ quoted_after " " (Text.replace q "'" (backslash +:+ "'")) = true
  /\ (forallb (fun c => negb (bool_decide (c = "'"%char))) (list_ascii_of_string q) = true ->
      Text.replace q "'" (backslash +:+ "'") = q).
Proof.
  intros Hconnected Hshell _ Hfeed Hlen Hline Hnumber answered.
  pose proof (fun command =>
                execute_returns command line digits junk [] after m h ch
                  Hconnected Hshell Hfeed (List.Forall_nil _) Hlen Hline Hnumber)
    as Hexecute.
  cbn [concat_text foldr String.append] in Hexecute.
  assert (Hsystemctl : forall query,
             Machine.systemctl query user (m, h) = answered (systemctl_command query user)).
  { intros query. unfold Machine.systemctl, systemctl_command, answered.
    destruct user as [user|]; rewrite Hexecute; rewrite <- ?app_assoc; reflexivity. }
  split; [apply Hsystemctl|].
  split; [apply Hsystemctl|].
  split; [apply Hsystemctl|].
  split.
  - generalize " "%char.
    induction q as [|c q IH]; intros previous; [reflexivity|].
    cbn [Text.replace]. destruct (decide (c = "'"%char)) as [->|Hc].
    + change (quoted_after "092"%char
                (String "'"%char (Text.replace q "'" (backslash +:+ "'"))) = true).
      cbn [quoted_after]. apply IH.
    + cbn [quoted_after]. rewrite decide_False by exact Hc. cbn [andb]. apply IH.
  - induction q as [|c q IH]; [reflexivity|].
    cbn [list_ascii_of_string forallb Text.replace]. intros Hq.
    apply andb_prop in Hq as [Hc Hrest].
    apply negb_true_iff, bool_decide_eq_false in Hc.
    rewrite decide_False by exact Hc. rewrite (IH Hrest). reflexivity.
Qed.

Lemma systemctl_executes_the_query_witness :
  let m := running_machine [] ["" +:+ sentinel +:+ " " +:+ "0" +:+ newline +:+ ""] in
  let answered command :=
    (Returns (Text.to_int "0", ""),
     (Machine.set_shell
        (Some {| Machine.incoming := []; Machine.sent := [] ++ [wrapped command] |}) m,
      example_host)) in
  Machine.systemctl "is-active 'a b'" (Some "alice") (m, example_host)
  = answered (systemctl_command "is-active 'a b'" (Some "alice"))
  /\ Machine.start_job "is-active 'a b'" (Some "alice") (m, example_host)
     = answered (systemctl_command ("start " +:+ "is-active 'a b'") (Some "alice"))
  /\ Machine.stop_job "is-active 'a b'" (Some "alice") (m, example_host)
     = answered (systemctl_command ("stop " +:+ "is-active 'a b'") (Some "alice"))
  /\ quoted_after " " (Text.replace "is-active 'a b'" "'" (backslash +:+ "'")) = true
  /\ (forallb (fun c => negb (bool_decide (c = "'"%char)))
        (list_ascii_of_string "is-active 'a b'") = true ->
      Text.replace "is-active 'a b'" "'" (backslash +:+ "'") = "is-active 'a b'").
Proof.
  apply (systemctl_executes_the_query "is-active 'a b'" "" "0" "" (Some "alice") []
           (running_machine [] ["" +:+ sentinel +:+ " " +:+ "0" +:+ newline +:+ ""])
           example_host
           {| Machine.incoming := ["" +:+ sentinel +:+ " " +:+ "0" +:+ newline +:+ ""];
              Machine.sent := [] |}).
  - reflexivity.
  - reflexivity.
  - repeat (constructor; [split; reflexivity|]). constructor.
  - reflexivity.
  - simpl. lia.
  - reflexivity.
  - reflexivity.
Defined.




